(** * storjcloud-client: discovery, aggregation, registration and sync

    A shallow embedding of the Python sources
      - [src/discovery.py]   (DockerDiscovery, PortScanner)
      - [src/sync.py]        (NodeSync)
      - [src/auth.py]        (AuthManager)
      - [src/config.py]      (Config)
      - [src/pm2.py]         (PM2Manager.get_service_status)
      - [storjcloud-client.py] (handle_discover, the configuration of main)
    together with the properties of the specification that concern them.

    Python values are dynamically typed, so the embedding starts with a
    small universe of JSON-shaped Python values and the handful of Python
    operators the sources apply to them, each with the exception it raises
    when the operand has the wrong shape.  A function of the sources
    becomes a function of the same name, in the module of its class:
    pure ones return an [outcome] (a value or an exception), coroutines
    run in a monad that threads the outside world and a trace of the
    requests sent and of the lines logged.  The configuration loader
    runs in a smaller monad over the configuration object, the file
    system and the environment being arguments.

    What the embedding leaves out: strings are byte strings, so that the
    non-ASCII forms [int()] accepts are errors here; the coroutines that
    [asyncio.gather] runs concurrently run one after the other; the
    exceptions outside [Exception] (cancellation, keyboard interrupt)
    do not occur. *)

From Stdlib Require Import ZArith List String Ascii Bool Lia.
From Stdlib Require Import Floats.SpecFloat DecimalString.
Import ListNotations.
Open Scope string_scope.
Open Scope Z_scope.

Set Implicit Arguments.
Set Warnings "-register-all".

(* ================================================================== *)
(** ** Exceptions and fallible computations *)

(** The exception classes that the modelled code can meet.  All of them
    derive from Python's [Exception], so every [except Exception] clause
    catches every one of them. *)
Inductive exn : Type :=
| TypeError
| AttributeError
| KeyError
| IndexError
| ValueError
| OverflowError
| JSONDecodeError
| ClientError        (* aiohttp.ClientError: refused, reset, DNS, ... *)
| TimeoutError       (* asyncio.TimeoutError *)
| DockerException    (* docker.errors.DockerException *)
| OSError            (* a path that cannot be examined: permission, name *)
| RuntimeError.      (* Path.home(): no home directory *)

Inductive outcome (A : Type) : Type :=
| Ret (a : A)
| Raise (e : exn).
Arguments Ret {A} a.
Arguments Raise {A} e.

Definition obind {A B} (m : outcome A) (k : A -> outcome B) : outcome B :=
  match m with
  | Ret a => k a
  | Raise e => Raise e
  end.

Declare Scope py_scope.
Delimit Scope py_scope with py.
Notation "'let!' x ':=' m 'in' k" := (obind m (fun x => k))
  (at level 10, x name, m at level 100, k at level 200) : py_scope.
Open Scope py_scope.

(* ================================================================== *)
(** ** Python values *)

(** Python floats are IEEE-754 binary64 numbers. *)
Definition prec : Z := 53.
Definition emax : Z := 1024.
Definition pyfloat : Type := spec_float.

(** What [json.loads] produces, which is also what the container runtime
    hands over as [container.attrs].  A [dict] keeps its insertion order,
    which [items()] exposes, so it is an association list; the keys of a
    JSON object are strings, and they are distinct (of a list that
    repeats a key, [lookup] sees the first entry). *)
Inductive pyval : Type :=
| PNone
| PBool (b : bool)
| PInt (z : Z)
| PFloat (f : pyfloat)
| PStr (s : string)
| PList (l : list pyval)
| PDict (d : list (string * pyval)).

Definition pydict : Type := list (string * pyval).

Fixpoint lookup (k : string) (d : pydict) : option pyval :=
  match d with
  | [] => None
  | (k', v) :: d' => if String.eqb k k' then Some v else lookup k d'
  end.

(** [bool(v)]. *)
Definition truthy (v : pyval) : bool :=
  match v with
  | PNone => false
  | PBool b => b
  | PInt z => negb (z =? 0)
  | PFloat (S754_zero _) => false
  | PFloat _ => true
  | PStr s => negb (String.eqb s "")
  | PList l => match l with [] => false | _ => true end
  | PDict d => match d with [] => false | _ => true end
  end.

(** [v.get(k, default)]: only a dict has the method. *)
Definition py_get (v : pyval) (k : string) (default : pyval) : outcome pyval :=
  match v with
  | PDict d => Ret (match lookup k d with Some x => x | None => default end)
  | _ => Raise AttributeError
  end.

(** [v[k]] for a string key [k]. *)
Definition py_getitem (v : pyval) (k : string) : outcome pyval :=
  match v with
  | PDict d => match lookup k d with Some x => Ret x | None => Raise KeyError end
  | _ => Raise TypeError
  end.

(** [v[0]]. *)
Definition py_first (v : pyval) : outcome pyval :=
  match v with
  | PList (x :: _) => Ret x
  | PList [] => Raise IndexError
  | PStr (String c _) => Ret (PStr (String c ""))
  | PStr "" => Raise IndexError
  | PDict _ => Raise KeyError
  | _ => Raise TypeError
  end.

(** [s.startswith(p)]. *)
Fixpoint startswith (p s : string) : bool :=
  match p with
  | EmptyString => true
  | String a p' =>
      match s with
      | EmptyString => false
      | String b s' => Ascii.eqb a b && startswith p' s'
      end
  end.

(** Substring test, for [k in s] on strings. *)
Fixpoint contains (k s : string) : bool :=
  startswith k s ||
  match s with
  | EmptyString => false
  | String _ s' => contains k s'
  end.

(** [k in v] for a string [k]. *)
Definition py_in (k : string) (v : pyval) : outcome bool :=
  match v with
  | PDict d => Ret (match lookup k d with Some _ => true | None => false end)
  | PList l =>
      Ret (existsb (fun x => match x with PStr s => String.eqb s k | _ => false end) l)
  | PStr s => Ret (contains k s)
  | _ => Raise TypeError
  end.

Fixpoint chars (s : string) : list pyval :=
  match s with
  | EmptyString => []
  | String c s' => PStr (String c "") :: chars s'
  end.

(** The sequence a [for] loop over [v] runs through. *)
Definition py_iter (v : pyval) : outcome (list pyval) :=
  match v with
  | PList l => Ret l
  | PStr s => Ret (chars s)
  | PDict d => Ret (map (fun kv => PStr (fst kv)) d)
  | _ => Raise TypeError
  end.

(** [v.items()]. *)
Definition py_items (v : pyval) : outcome (list (string * pyval)) :=
  match v with
  | PDict d => Ret d
  | _ => Raise AttributeError
  end.

(* ------------------------------------------------------------------ *)
(** *** Numbers *)

Inductive pynum : Type :=
| NInt (z : Z)
| NFloat (f : pyfloat).

(** [bool] is a subclass of [int]. *)
Definition as_num (v : pyval) : option pynum :=
  match v with
  | PBool b => Some (NInt (if b then 1 else 0))
  | PInt z => Some (NInt z)
  | PFloat f => Some (NFloat f)
  | _ => None
  end.

(** Python compares an [int] with a [float] by their exact values; the
    result is [None] when the float is a NaN. *)
Definition compare_Z_float (z : Z) (f : pyfloat) : option comparison :=
  match f with
  | S754_zero _ => Some (z ?= 0)
  | S754_infinity false => Some Lt
  | S754_infinity true => Some Gt
  | S754_nan => None
  | S754_finite s m e =>
      let sm := if s then Z.neg m else Z.pos m in
      if 0 <=? e then Some (z ?= sm * 2 ^ e)
      else Some (z * 2 ^ (- e) ?= sm)
  end.

Definition num_compare (a b : pynum) : option comparison :=
  match a, b with
  | NInt x, NInt y => Some (x ?= y)
  | NFloat x, NFloat y => SFcompare x y
  | NInt x, NFloat y => compare_Z_float x y
  | NFloat x, NInt y => option_map CompOpp (compare_Z_float y x)
  end.

(** [v > c] and [v < c] against a numeric literal [c]. *)
Definition py_gt (v : pyval) (c : pynum) : outcome bool :=
  match as_num v with
  | Some n => Ret (match num_compare n c with Some Gt => true | _ => false end)
  | None => Raise TypeError
  end.

Definition py_lt (v : pyval) (c : pynum) : outcome bool :=
  match as_num v with
  | Some n => Ret (match num_compare n c with Some Lt => true | _ => false end)
  | None => Raise TypeError
  end.

(** The literals of the classifiers.  [0.95] denotes the binary64 number
    nearest to 19/20, which is 8556839292003942 * 2^-53. *)
Definition lit_0 : pynum := NInt 0.
Definition lit_0_95 : pynum := NFloat (S754_finite false 8556839292003942 (-53)).
Definition lit_1_0 : pyfloat := S754_finite false 4503599627370496 (-52).
Definition lit_0_0 : pyfloat := S754_zero false.

(** [int(x)] of a float truncates towards zero. *)
Definition float_trunc (f : pyfloat) : outcome Z :=
  match f with
  | S754_zero _ => Ret 0
  | S754_infinity _ => Raise OverflowError
  | S754_nan => Raise ValueError
  | S754_finite s m e =>
      let a := if 0 <=? e then Z.pos m * 2 ^ e else Z.pos m / 2 ^ (- e) in
      Ret (if s then - a else a)
  end.

(** [float(z)]: round to nearest even, [OverflowError] beyond the range. *)
Definition float_of_Z (z : Z) : outcome pyfloat :=
  match binary_normalize prec emax z 0 false with
  | S754_infinity _ => Raise OverflowError
  | f => Ret f
  end.

(** [a + b]. *)
Definition py_add (a b : pyval) : outcome pyval :=
  match as_num a, as_num b with
  | Some (NInt x), Some (NInt y) => Ret (PInt (x + y))
  | Some (NFloat x), Some (NFloat y) => Ret (PFloat (SFadd prec emax x y))
  | Some (NInt x), Some (NFloat y) =>
      let! x' := float_of_Z x in Ret (PFloat (SFadd prec emax x' y))
  | Some (NFloat x), Some (NInt y) =>
      let! y' := float_of_Z y in Ret (PFloat (SFadd prec emax x y'))
  | _, _ =>
      match a, b with
      | PStr x, PStr y => Ret (PStr (x ++ y))
      | PList x, PList y => Ret (PList (x ++ y))
      | _, _ => Raise TypeError
      end
  end.

(* ------------------------------------------------------------------ *)
(** *** Strings

    A [string] is a sequence of bytes; the ASCII behaviour of the [str]
    methods is what is modelled. *)

Fixpoint endswith (suffix s : string) : bool :=
  String.eqb s suffix ||
  match s with
  | EmptyString => false
  | String _ s' => endswith suffix s'
  end.

(** [s.split(c)] for a one-character separator. *)
Fixpoint split (c : ascii) (s : string) : list string :=
  match s with
  | EmptyString => [EmptyString]
  | String a s' =>
      if Ascii.eqb a c then EmptyString :: split c s'
      else match split c s' with
           | h :: t => String a h :: t
           | [] => [String a EmptyString]
           end
  end.

(** [s.split(c, 1)]: at most one cut, at the first separator. *)
Fixpoint split1 (c : ascii) (s : string) : list string :=
  match s with
  | EmptyString => [EmptyString]
  | String a s' =>
      if Ascii.eqb a c then [EmptyString; s']
      else match split1 c s' with
           | h :: t => String a h :: t
           | [] => [String a EmptyString]
           end
  end.

(** [s.lstrip(c)]. *)
Fixpoint lstrip (c : ascii) (s : string) : string :=
  match s with
  | String a s' => if Ascii.eqb a c then lstrip c s' else s
  | EmptyString => EmptyString
  end.

(** [l[1]] and [l[-1]] on a list of strings. *)
Definition second (l : list string) : outcome string :=
  match l with
  | _ :: x :: _ => Ret x
  | _ => Raise IndexError
  end.

Definition last_item (l : list string) : outcome string :=
  match l with
  | [] => Raise IndexError
  | x :: l' => Ret (List.last l' x)
  end.

Definition first_item (l : list string) : outcome string :=
  match l with
  | [] => Raise IndexError
  | x :: _ => Ret x
  end.

(** [int(s)] in base ten: surrounding white space, an optional sign, then
    digits, where single underscores may separate digits.  (The cap that
    Python 3.11 puts on the number of digits is left out.) *)
Definition is_space (a : ascii) : bool :=
  let n := nat_of_ascii a in
  ((9 <=? n) && (n <=? 13) || (28 <=? n) && (n <=? 32))%nat.

Fixpoint lstrip_ws (s : string) : string :=
  match s with
  | String a s' => if is_space a then lstrip_ws s' else s
  | EmptyString => EmptyString
  end.

Fixpoint rstrip_ws (s : string) : string :=
  match s with
  | EmptyString => EmptyString
  | String a s' =>
      let r := rstrip_ws s' in
      if is_space a && String.eqb r "" then EmptyString else String a r
  end.

Definition digit_val (a : ascii) : option Z :=
  let n := nat_of_ascii a in
  if ((48 <=? n) && (n <=? 57))%nat then Some (Z.of_nat n - 48) else None.

Fixpoint parse_digits (acc : Z) (after_underscore : bool) (s : string)
  : option Z :=
  match s with
  | EmptyString => if after_underscore then None else Some acc
  | String a s' =>
      if Ascii.eqb a "_"%char then
        if after_underscore then None else parse_digits acc true s'
      else
        match digit_val a with
        | Some d => parse_digits (10 * acc + d) false s'
        | None => None
        end
  end.

Definition int_of_string (s : string) : outcome Z :=
  let body := rstrip_ws (lstrip_ws s) in
  let '(neg, digits) :=
    match body with
    | String "-" r => (true, r)
    | String "+" r => (false, r)
    | _ => (false, body)
    end in
  match parse_digits 0 true digits with
  | Some n => Ret (if neg then - n else n)
  | None => Raise ValueError
  end.

(** [int(v)]. *)
Definition py_int (v : pyval) : outcome Z :=
  match v with
  | PStr s => int_of_string s
  | PInt z => Ret z
  | PBool b => Ret (if b then 1 else 0)
  | PFloat f => float_trunc f
  | _ => Raise TypeError
  end.

(** [v.lstrip(c)]: a [str] method. *)
Definition py_lstrip (v : pyval) (c : ascii) : outcome string :=
  match v with
  | PStr s => Ret (lstrip c s)
  | _ => Raise AttributeError
  end.

Fixpoint take (n : nat) (s : string) : string :=
  match n, s with
  | S n', String a s' => String a (take n' s')
  | _, _ => EmptyString
  end.

(** [v[:8]]: a slice of a sequence; a dict rejects the slice as a key
    ([TypeError] up to Python 3.11, [KeyError] after). *)
Definition py_slice8 (v : pyval) : outcome pyval :=
  match v with
  | PStr s => Ret (PStr (take 8 s))
  | PList l => Ret (PList (firstn 8 l))
  | _ => Raise TypeError
  end.

(** [len(v)]. *)
Definition py_len (v : pyval) : outcome Z :=
  match v with
  | PList l => Ret (Z.of_nat (List.length l))
  | PStr s => Ret (Z.of_nat (String.length s))
  | PDict d => Ret (Z.of_nat (List.length d))
  | _ => Raise TypeError
  end.

(** [v[i:j]] for [0 <= i <= j], the only slices [_sync_cycle] takes. *)
Definition py_slice (v : pyval) (i j : Z) : outcome (list pyval) :=
  let cut {A} (l : list A) := firstn (Z.to_nat (j - i)) (skipn (Z.to_nat i) l) in
  match v with
  | PList l => Ret (cut l)
  | PStr s => Ret (cut (chars s))
  | _ => Raise TypeError
  end.

(** [range(0, n, step)]. *)
Definition py_range (n step : Z) : outcome (list Z) :=
  if step =? 0 then Raise ValueError
  else if step <? 0 then Ret []
  else Ret (map (fun k => Z.of_nat k * step)
                (seq 0 (Z.to_nat ((n + step - 1) / step)))).

(** [v / c] for a float literal [c]. *)
Definition py_truediv (v : pyval) (c : pyfloat) : outcome pyval :=
  match as_num v with
  | Some (NInt z) => let! f := float_of_Z z in Ret (PFloat (SFdiv prec emax f c))
  | Some (NFloat f) => Ret (PFloat (SFdiv prec emax f c))
  | None => Raise TypeError
  end.

(** [1e9]. *)
Definition lit_1e9 : pyfloat := S754_finite false 8388608000000000 (-23).

(** [a or b]. *)
Definition py_or (a b : pyval) : pyval := if truthy a then a else b.

(** [v.startswith(p)]: a [str] method. *)
Definition py_startswith (v : pyval) (p : string) : outcome bool :=
  match v with
  | PStr s => Ret (startswith p s)
  | _ => Raise AttributeError
  end.

(** [str(z)] of an int, as an f-string renders it. *)
Definition str_of_Z (z : Z) : string := NilZero.string_of_int (Z.to_int z).

(* ================================================================== *)
(** ** Node records *)

Record disk : Type := {
  used : pyval;
  available : pyval;
  total : pyval
}.

(** The keys only a container-discovered record has. *)
Record container_keys : Type := {
  container_id : string;
  container_name : string;
  image : pyval
}.

(** The dict that a discoverer builds for a node.  Its keys are fixed by
    the two dict displays in discovery.py, so it is a record; the values
    copied from the status document keep whatever type they have there. *)
Record node : Type := {
  node_id : pyval;
  name : string;
  address : string;
  dashboard_port : Z;
  storage_port : Z;
  version : pyval;
  status_ : string;
  disk_space : disk;
  bandwidth : pyval;
  uptime : pyval;
  last_contact : pyval;
  container : option container_keys;
  detected_from : string
}.

(** A container object of the runtime: what [reload()] leaves in [attrs],
    or the exception it raises, and the [id] and [name] properties. *)
Record container_obj : Type := {
  reload : outcome pyval;
  cid : string;
  cname : string
}.

(* ================================================================== *)
(** ** Effects: requests, logging, exceptions

    The coroutines talk to the outside through HTTP requests and the
    logger.  Both are recorded in a trace (newest event first); what the
    outside answers is left to a world [W], about which nothing is
    assumed: it may answer any request with any response or raise. *)

Inductive level : Type := DEBUG | INFO | WARNING | ERROR.

Inductive method : Type := GET | POST | PATCH.

(** A piece of an f-string: literal text or a formatted value. *)
Inductive frag : Type :=
| Lit (s : string)
| Fmt (v : pyval).

(** An argument of a log call: a value, an f-string, or a caught
    exception. *)
Inductive arg : Type :=
| AVal (v : pyval)
| AFmt (f : list frag)
| AExn (e : exn).

Record request : Type := {
  meth : method;
  url : list frag;
  bearer : option string;      (* Authorization: Bearer ... *)
  body : option pyval;         (* json=... *)
  timeout : option Z
}.

(** What the code reads from a response: [status], [await json()],
    [await text()]. *)
Record response : Type := {
  status : Z;
  json : outcome pyval;
  text : outcome string
}.

Inductive event : Type :=
| Log (lv : level) (fmt : string) (args : list arg)
| Sent (r : request)
| Printed (nodes : list node).   (* print(json.dumps(nodes, ...)) *)

(** The outside: it answers a request, or the request raises; it has a
    clock ([datetime.utcnow().isoformat()]); and it has a container
    runtime, which is asked for the running storage-node containers
    (connecting, [ping()] and [_get_storj_containers()]) and answers with
    them or raises. *)
Class World (W : Type) : Type := {
  send : request -> W -> outcome response * W;
  utcnow : W -> string;
  storj_containers : W -> outcome (list container_obj) * W
}.

Record state (W : Type) : Type := {
  world : W;
  trace : list event
}.

Definition M (W A : Type) : Type := state W -> outcome A * state W.

Section Monad.
Context {W : Type} `{World W}.

Definition ret {A} (a : A) : M W A := fun s => (Ret a, s).

Definition bind {A B} (m : M W A) (k : A -> M W B) : M W B :=
  fun s => match m s with
           | (Ret a, s') => k a s'
           | (Raise e, s') => (Raise e, s')
           end.

Definition lift {A} (o : outcome A) : M W A := fun s => (o, s).

(** [try: m except Exception as e: h e]. *)
Definition try_except {A} (m : M W A) (h : exn -> M W A) : M W A :=
  fun s => match m s with
           | (Ret a, s') => (Ret a, s')
           | (Raise e, s') => h e s'
           end.

(** [try: m except DockerException as e: h e]. *)
Definition try_except_docker {A} (m : M W A) (h : exn -> M W A) : M W A :=
  fun s => match m s with
           | (Raise DockerException, s') => h DockerException s'
           | r => r
           end.

Definition clock : M W string :=
  fun s => (Ret (utcnow (world s)), s).

Definition runtime : M W (list container_obj) :=
  fun s => let (o, w) := storj_containers (world s) in
           (o, {| world := w; trace := trace s |}).

Definition emit (ev : event) : M W unit :=
  fun s => (Ret tt, {| world := world s; trace := ev :: trace s |}).

Definition log (lv : level) (fmt : string) (args : list arg) : M W unit :=
  emit (Log lv fmt args).

(** [async with session.<meth>(url, ...) as response]. *)
Definition http (r : request) : M W response :=
  fun s => let (o, w) := send r (world s) in
           (o, {| world := w; trace := Sent r :: trace s |}).

(** [await asyncio.gather( *tasks, return_exceptions=True)]: every task
    runs to its end and its result or its exception takes its place in
    the result list.  The tasks are run here one after the other, in
    the order of the list. *)
Fixpoint gather {A} (tasks : list (M W A)) : M W (list (outcome A)) :=
  match tasks with
  | [] => ret []
  | t :: ts =>
      fun s => let (o, s') := t s in
               bind (gather ts) (fun os => ret (o :: os)) s'
  end.

End Monad.

Notation "x <- m ;; k" := (bind m (fun x => k))
  (at level 100, m at next level, right associativity) : py_scope.
Notation "m ;; k" := (bind m (fun _ => k))
  (at level 100, right associativity) : py_scope.

(** [node_data.get('diskSpace', {}).get(k, 0)], the expression by which
    all three modules read the disk usage split. *)
Definition disk_reading (node_data : pyval) (k : string) : outcome pyval :=
  let! ds := py_get node_data "diskSpace" (PDict []) in
  py_get ds k (PInt 0).

(* ================================================================== *)
(** ** discovery.py *)

Module DockerDiscovery.

(** The body of the [CONSOLE_ADDRESS] loop of [_get_dashboard_port] and
    of the [ADDRESS] loop of [_get_storage_port]: [Some p] is a
    [return p] from inside the loop, [None] is the loop running out. *)
Fixpoint env_port (prefix : string) (env_vars : list pyval)
  : outcome (option Z) :=
  match env_vars with
  | [] => Ret None
  | env_var :: rest =>
      let! hit := py_startswith env_var prefix in
      if hit then
        match env_var with
        | PStr e =>
            let! address := second (split1 "=" e) in
            if contains ":" address then
              let! p := last_item (split ":" address) in
              let! n := int_of_string p in
              Ret (Some n)
            else env_port prefix rest
        | _ => Raise AttributeError
        end
      else env_port prefix rest
  end.

(** The last loop of [_get_dashboard_port], over [ports.items()]. *)
Fixpoint range_port (items : list (string * pyval)) : outcome (option Z) :=
  match items with
  | [] => Ret None
  | (port_spec, mapping) :: rest =>
      if truthy mapping && endswith "/tcp" port_spec then
        let! head := first_item (split "/" port_spec) in
        let! container_port := int_of_string head in
        if (14000 <=? container_port) && (container_port <=? 15000) then
          let! m0 := py_first mapping in
          let! host_port := py_getitem m0 "HostPort" in
          let! n := py_int host_port in
          Ret (Some n)
        else range_port rest
      else range_port rest
  end.

(** [attrs.get('NetworkSettings', {}).get('Ports', {})]. *)
Definition get_ports (attrs : pyval) : outcome pyval :=
  let! ns := py_get attrs "NetworkSettings" (PDict []) in
  py_get ns "Ports" (PDict []).

(** [attrs.get('Config', {}).get('Env', [])]. *)
Definition get_env (attrs : pyval) : outcome pyval :=
  let! cfg := py_get attrs "Config" (PDict []) in
  py_get cfg "Env" (PList []).

(** [k in ports and ports[k]], as a truth value. *)
Definition mapped (ports : pyval) (k : string) : outcome bool :=
  let! present := py_in k ports in
  if present then
    let! m := py_getitem ports k in Ret (truthy m)
  else Ret false.

(** [int(ports[k][0]['HostPort'])]. *)
Definition host_port_of (ports : pyval) (k : string) : outcome Z :=
  let! m := py_getitem ports k in
  let! m0 := py_first m in
  let! host_port := py_getitem m0 "HostPort" in
  py_int host_port.

(** [DockerDiscovery._get_dashboard_port]; Python's [None] is [None]. *)
Definition _get_dashboard_port (attrs : pyval) : outcome (option Z) :=
  let! ports := get_ports attrs in
  let! direct := mapped ports "14002/tcp" in
  if direct then
    let! n := host_port_of ports "14002/tcp" in Ret (Some n)
  else
    let! env_vars := get_env attrs in
    let! vars := py_iter env_vars in
    let! from_env := env_port "CONSOLE_ADDRESS=" vars in
    match from_env with
    | Some n => Ret (Some n)
    | None =>
        let! items := py_items ports in
        range_port items
    end.

(** [DockerDiscovery._get_storage_port]. *)
Definition _get_storage_port (attrs : pyval) : outcome Z :=
  let! ports := get_ports attrs in
  let! direct := mapped ports "28967/tcp" in
  if direct then host_port_of ports "28967/tcp"
  else
    let! env_vars := get_env attrs in
    let! vars := py_iter env_vars in
    let! from_env := env_port "ADDRESS=" vars in
    match from_env with
    | Some n => Ret n
    | None => Ret 28967
    end.

(** [DockerDiscovery._determine_status]. *)
Definition _determine_status (node_data : pyval) : outcome string :=
  let! last := py_get node_data "lastContactSuccess" PNone in
  if negb (truthy last) then Ret "OFFLINE"
  else
    let! has_rep := py_in "reputation" node_data in
    if has_rep then
      let! reputation := py_getitem node_data "reputation" in
      let! audit_score := py_get reputation "auditScore" (PFloat lit_1_0) in
      let! suspension_score := py_get reputation "suspensionScore" (PFloat lit_0_0) in
      let! susp := py_gt suspension_score lit_0 in
      if susp then Ret "SUSPENDED"
      else
        let! warn := py_lt audit_score lit_0_95 in
        if warn then Ret "WARNING" else Ret "ONLINE"
    else Ret "ONLINE".

Section WithWorld.
Context {W : Type} `{World W}.

(** [DockerDiscovery._fetch_node_data]; the result is the parsed
    document, or Python's [None]. *)
Definition _fetch_node_data (host : string) (port : Z) : M W pyval :=
  let url := [Lit "http://"; Lit host; Lit ":"; Fmt (PInt port); Lit "/api/sno"] in
  try_except
    (response <- http {| meth := GET; url := url; bearer := None;
                         body := None; timeout := Some 5 |};;
     if status response =? 200 then lift (json response)
     else
       log DEBUG "API request failed: %s %d"
           [AFmt url; AVal (PInt (status response))];;
       ret PNone)
    (fun e =>
       log DEBUG "Failed to fetch node data from %s: %s" [AFmt url; AExn e];;
       ret PNone).

(** The dict display that [_extract_node_info] returns. *)
Definition node_record (c : container_obj) (attrs : pyval)
           (name : string) (image : pyval) (dashboard_port : Z)
           (node_data : pyval) : outcome node :=
  let! nid := py_get node_data "nodeID" (PStr "") in
  let! sport := _get_storage_port attrs in
  let! ver := py_get node_data "version" (PStr "") in
  let! st := _determine_status node_data in
  let! u := disk_reading node_data "used" in
  let! a := disk_reading node_data "available" in
  let! u' := disk_reading node_data "used" in
  let! a' := disk_reading node_data "available" in
  let! t := py_add u' a' in
  let! bw := py_get node_data "bandwidth" (PDict []) in
  let! up := py_get node_data "uptime" (PInt 0) in
  let! lc := py_get node_data "lastContactSuccess" PNone in
  Ret {| node_id := nid;
         name := name;
         address := "127.0.0.1";
         dashboard_port := dashboard_port;
         storage_port := sport;
         version := ver;
         status_ := st;
         disk_space := {| used := u; available := a; total := t |};
         bandwidth := bw;
         uptime := up;
         last_contact := lc;
         container := Some {| container_id := cid c;
                              container_name := name;
                              image := image |};
         detected_from := "docker" |}.

(** [DockerDiscovery._extract_node_info]. *)
Definition _extract_node_info (c : container_obj) : M W (option node) :=
  try_except
    (attrs <- lift (reload c);;
     name <- lift (let! n := py_getitem attrs "Name" in py_lstrip n "/");;
     image <- lift (let! cfg := py_getitem attrs "Config" in
                    py_getitem cfg "Image");;
     dashboard_port <- lift (_get_dashboard_port attrs);;
     match dashboard_port with
     | None | Some 0 =>
         log WARNING "No dashboard port found for container %s"
             [AVal (PStr name)];;
         ret None
     | Some port =>
         node_data <- _fetch_node_data "127.0.0.1" port;;
         if negb (truthy node_data) then
           log WARNING "Could not fetch node data for %s:%d"
               [AVal (PStr "127.0.0.1"); AVal (PInt port)];;
           ret None
         else
           n <- lift (node_record c attrs name image port node_data);;
           ret (Some n)
     end)
    (fun e =>
       log ERROR "Failed to extract info from container %s: %s"
           [AVal (PStr (cname c)); AExn e];;
       ret None).

(** The [for container in containers] loop of [discover_nodes]. *)
Fixpoint extract_all (containers : list container_obj) : M W (list node) :=
  match containers with
  | [] => ret []
  | c :: rest =>
      node_info <- _extract_node_info c;;
      nodes <- extract_all rest;;
      ret (match node_info with
           | Some n => n :: nodes
           | None => nodes
           end)
  end.

(** [DockerDiscovery.discover_nodes]. *)
Definition discover_nodes : M W (list node) :=
  try_except_docker
    (containers <- runtime;;
     log INFO "Found %d Storj containers"
         [AVal (PInt (Z.of_nat (List.length containers)))];;
     extract_all containers)
    (fun e =>
       log ERROR "Docker connection failed: %s" [AExn e];;
       ret []).

End WithWorld.

End DockerDiscovery.

Module PortScanner.

(** [PortScanner._determine_status]. *)
Definition _determine_status (node_data : pyval) : outcome string :=
  let! last := py_get node_data "lastContactSuccess" PNone in
  if negb (truthy last) then Ret "OFFLINE"
  else
    let! has_rep := py_in "reputation" node_data in
    if has_rep then
      let! reputation := py_getitem node_data "reputation" in
      let! audit_score := py_get reputation "auditScore" (PFloat lit_1_0) in
      let! suspension_score := py_get reputation "suspensionScore" (PFloat lit_0_0) in
      let! susp := py_gt suspension_score lit_0 in
      if susp then Ret "SUSPENDED"
      else
        let! warn := py_lt audit_score lit_0_95 in
        if warn then Ret "WARNING" else Ret "ONLINE"
    else Ret "ONLINE".

(** The scanner object: [self.host], [self.timeout]. *)
Record t : Type := {
  host : string;
  timeout_ : Z
}.

(** The dict display that [_check_port] returns. *)
Definition node_record (self : t) (port : Z) (node_data : pyval)
  : outcome node :=
  let! nid := py_get node_data "nodeID" (PStr "") in
  let! ver := py_get node_data "version" (PStr "") in
  let! st := _determine_status node_data in
  let! u := disk_reading node_data "used" in
  let! a := disk_reading node_data "available" in
  let! u' := disk_reading node_data "used" in
  let! a' := disk_reading node_data "available" in
  let! t := py_add u' a' in
  let! bw := py_get node_data "bandwidth" (PDict []) in
  let! up := py_get node_data "uptime" (PInt 0) in
  let! lc := py_get node_data "lastContactSuccess" PNone in
  Ret {| node_id := nid;
         name := "Node-" ++ str_of_Z port;
         address := host self;
         dashboard_port := port;
         storage_port := 28967;
         version := ver;
         status_ := st;
         disk_space := {| used := u; available := a; total := t |};
         bandwidth := bw;
         uptime := up;
         last_contact := lc;
         container := None;
         detected_from := "port_scan" |}.

Section WithWorld.
Context {W : Type} `{World W}.

(** [PortScanner._check_port]. *)
Definition _check_port (self : t) (port : Z) : M W (option node) :=
  let url := [Lit "http://"; Lit (host self); Lit ":";
              Fmt (PInt port); Lit "/api/sno"] in
  try_except
    (response <- http {| meth := GET; url := url; bearer := None;
                         body := None; timeout := Some (timeout_ self) |};;
     if status response =? 200 then
       node_data <- lift (json response);;
       n <- lift (node_record self port node_data);;
       ret (Some n)
     else ret None)
    (fun e =>
       log DEBUG "Port %d check failed: %s" [AVal (PInt port); AExn e];;
       ret None).

(** The [isinstance(result, dict)] filter of [scan_ports]. *)
Fixpoint dict_results (results : list (outcome (option node))) : list node :=
  match results with
  | [] => []
  | Ret (Some n) :: rest => n :: dict_results rest
  | _ :: rest => dict_results rest
  end.

(** [PortScanner.scan_ports]. *)
Definition scan_ports (self : t) (ports : list Z) : M W (list node) :=
  results <- gather (map (_check_port self) ports);;
  ret (dict_results results).

End WithWorld.

End PortScanner.

(* ================================================================== *)
(** ** sync.py *)

Module NodeSync.

(** [NodeSync._determine_status]. *)
Definition _determine_status (node_data : pyval) : outcome string :=
  let! last := py_get node_data "lastContactSuccess" PNone in
  if negb (truthy last) then Ret "OFFLINE"
  else
    let! disq := py_get node_data "disqualified" PNone in
    if truthy disq then Ret "DISQUALIFIED"
    else
      let! has_rep := py_in "reputation" node_data in
      if has_rep then
        let! reputation := py_getitem node_data "reputation" in
        let! audit_score := py_get reputation "auditScore" (PFloat lit_1_0) in
        let! suspension_score := py_get reputation "suspensionScore" (PFloat lit_0_0) in
        let! susp := py_gt suspension_score lit_0 in
        if susp then Ret "SUSPENDED"
        else
          let! warn := py_lt audit_score lit_0_95 in
          if warn then Ret "WARNING" else Ret "ONLINE"
      else Ret "ONLINE".

(** The fields of the service object that the cycle reads. *)
Record t : Type := {
  api_token : string;
  dashboard_url : string;
  batch_size : Z
}.

Section WithWorld.
Context {W : Type} `{World W}.

(** [NodeSync._get_registered_nodes]. *)
Definition _get_registered_nodes (self : t) : M W pyval :=
  let url := [Lit (dashboard_url self); Lit "/storj/nodes"] in
  try_except
    (response <- http {| meth := GET; url := url;
                         bearer := Some (api_token self);
                         body := None; timeout := None |};;
     if status response =? 200 then
       data <- lift (json response);;
       lift (py_get data "nodes" (PList []))
     else
       log ERROR "Failed to get nodes: HTTP %d"
           [AVal (PInt (status response))];;
       ret (PList []))
    (fun e =>
       log ERROR "Failed to get registered nodes: %s" [AExn e];;
       ret (PList [])).

(** [NodeSync._fetch_node_data]. *)
Definition _fetch_node_data (node : pyval) : M W pyval :=
  p <- lift (py_get node "dashboardPort" PNone);;
  let dashboard_port := py_or p (PInt 14002) in
  address <- lift (py_get node "address" (PStr "127.0.0.1"));;
  let url := [Lit "http://"; Fmt address; Lit ":"; Fmt dashboard_port;
              Lit "/api/sno"] in
  try_except
    (response <- http {| meth := GET; url := url; bearer := None;
                         body := None; timeout := Some 10 |};;
     if status response =? 200 then lift (json response)
     else
       log DEBUG "Node API returned %d for %s"
           [AVal (PInt (status response)); AFmt url];;
       ret PNone)
    (fun e =>
       log DEBUG "Failed to fetch from %s: %s" [AFmt url; AExn e];;
       ret PNone).

(** The [update_data] dict of [_update_node]. *)
Definition update_data (now : string) (node_data : pyval) : outcome pyval :=
  let! st := _determine_status node_data in
  let! ver := py_get node_data "version" PNone in
  let! u := disk_reading node_data "used" in
  let! a := disk_reading node_data "available" in
  let! bw := py_get node_data "bandwidth" (PDict []) in
  let! bwu := py_get bw "used" (PInt 0) in
  let! up := py_get node_data "uptime" (PInt 0) in
  let! rep := py_get node_data "reputation" (PDict []) in
  let! sats := py_get node_data "satellites" (PList []) in
  let! rep1 := py_get node_data "reputation" (PDict []) in
  let! audit := py_get rep1 "auditScore" PNone in
  let! rep2 := py_get node_data "reputation" (PDict []) in
  let! susp := py_get rep2 "suspensionScore" PNone in
  Ret (PDict [("status", PStr st);
              ("version", ver);
              ("usedSpace", u);
              ("availableSpace", a);
              ("bandwidthUsed", bwu);
              ("uptime", up);
              ("lastSeen", PStr now);
              ("reputation", rep);
              ("satellites", sats);
              ("auditScore", audit);
              ("suspensionScore", susp)]).

(** [NodeSync._update_node]. *)
Definition _update_node (self : t) (node_id node_data : pyval) : M W bool :=
  let url := [Lit (dashboard_url self); Lit "/storj/nodes/"; Fmt node_id] in
  now <- clock;;
  payload <- lift (update_data now node_data);;
  try_except
    (response <- http {| meth := PATCH; url := url;
                         bearer := Some (api_token self);
                         body := Some payload; timeout := None |};;
     if (status response =? 200) || (status response =? 204) then ret true
     else
       log ERROR "Failed to update node %s: HTTP %d"
           [AVal node_id; AVal (PInt (status response))];;
       (if status response =? 401 then
          log ERROR "Authentication failed - check API token" []
        else ret tt);;
       ret false)
    (fun e =>
       log ERROR "Failed to update node %s: %s" [AVal node_id; AExn e];;
       ret false).

(** [NodeSync._sync_node]. *)
Definition _sync_node (self : t) (node : pyval) : M W bool :=
  try_except
    (node_data <- _fetch_node_data node;;
     if negb (truthy node_data) then
       nid <- lift (py_get node "nodeId" (PStr "unknown"));;
       log WARNING "Failed to fetch data for node %s" [AVal nid];;
       ret false
     else
       id <- lift (py_getitem node "id");;
       success <- _update_node self id node_data;;
       (if success : bool then
          nid <- lift (let! n := py_get node "nodeId" (PStr "unknown") in
                       py_slice8 n);;
          log DEBUG "Synced node %s" [AVal nid]
        else ret tt);;
       ret success)
    (fun e =>
       nid <- lift (py_get node "nodeId" (PStr "unknown"));;
       log ERROR "Failed to sync node %s: %s" [AVal nid; AExn e];;
       ret false).

(** [sum(1 for r in results if r is True)]. *)
Definition success_count (results : list (outcome bool)) : Z :=
  Z.of_nat (List.length
              (filter (fun r => match r with Ret true => true | _ => false end)
                      results)).

(** [NodeSync._sync_batch]. *)
Definition _sync_batch (self : t) (nodes : list pyval) : M W unit :=
  results <- gather (map (_sync_node self) nodes);;
  let sc := success_count results in
  let error_count := Z.of_nat (List.length results) - sc in
  if error_count >? 0 then
    log WARNING "Batch sync: %d success, %d errors"
        [AVal (PInt sc); AVal (PInt error_count)]
  else ret tt.

(** The [for i in range(...)] loop of [_sync_cycle]. *)
Fixpoint sync_batches (self : t) (nodes : pyval) (starts : list Z)
  : M W unit :=
  match starts with
  | [] => ret tt
  | i :: rest =>
      batch <- lift (py_slice nodes i (i + batch_size self));;
      _sync_batch self batch;;
      sync_batches self nodes rest
  end.

(** [NodeSync._sync_cycle]. *)
Definition _sync_cycle (self : t) : M W unit :=
  try_except
    (nodes <- _get_registered_nodes self;;
     if negb (truthy nodes) then
       log DEBUG "No registered nodes found" []
     else
       n <- lift (py_len nodes);;
       log INFO "Syncing %d nodes" [AVal (PInt n)];;
       n' <- lift (py_len nodes);;
       starts <- lift (py_range n' (batch_size self));;
       sync_batches self nodes starts;;
       log INFO "Sync cycle completed" [])
    (fun e => log ERROR "Sync cycle failed: %s" [AExn e]).

End WithWorld.

End NodeSync.

(* ================================================================== *)
(** ** auth.py *)

Module AuthManager.

Record t : Type := {
  api_token : string;
  dashboard_url : string
}.

(** The [node_data] dict of [_register_single_node]. *)
Definition payload (node : node) : outcome pyval :=
  let! bwu := py_get (bandwidth node) "used" (PInt 0) in
  let opt_str (o : option string) :=
    match o with Some x => PStr x | None => PNone end in
  Ret (PDict
    [("nodeId", node_id node);
     ("name", PStr (name node));
     ("address", PStr (address node));
     ("port", PInt (storage_port node));
     ("dashboardPort", PInt (dashboard_port node));
     ("version", version node);
     ("status", PStr (status_ node));
     ("allocatedSpace", total (disk_space node));
     ("usedSpace", used (disk_space node));
     ("availableSpace", available (disk_space node));
     ("bandwidthUsed", bwu);
     ("uptime", uptime node);
     ("lastSeen", last_contact node);
     ("config", PDict
        [("detectedFrom", PStr (detected_from node));
         ("containerId", opt_str (option_map container_id (container node)));
         ("containerName", opt_str (option_map container_name (container node)));
         ("image", match container node with
                   | Some c => image c
                   | None => PNone
                   end)])]).

Section WithWorld.
Context {W : Type} `{World W}.

(** [AuthManager.test_token]; Python's [None] is [PNone]. *)
Definition test_token (self : t) : M W pyval :=
  let url := [Lit (dashboard_url self); Lit "/auth/me"] in
  try_except
    (response <- http {| meth := GET; url := url;
                         bearer := Some (api_token self);
                         body := None; timeout := None |};;
     if status response =? 200 then
       user_data <- lift (json response);;
       email <- lift (py_get user_data "email" (PStr "Unknown"));;
       log INFO "Token valid for user: %s" [AVal email];;
       ret user_data
     else if status response =? 401 then
       log ERROR "Invalid API token" [];;
       ret PNone
     else
       log ERROR "Token validation failed: HTTP %d"
           [AVal (PInt (status response))];;
       ret PNone)
    (fun e =>
       log ERROR "Token validation error: %s" [AExn e];;
       ret PNone).

(** [AuthManager._update_existing_node]. *)
Definition _update_existing_node (self : t) (node : node)
           (node_data : pyval) : M W bool :=
  let url := [Lit (dashboard_url self); Lit "/storj/nodes/";
              Fmt (node_id node)] in
  try_except
    (response <- http {| meth := PATCH; url := url;
                         bearer := Some (api_token self);
                         body := Some node_data; timeout := None |};;
     if (status response =? 200) || (status response =? 204) then
       short <- lift (py_slice8 (node_id node));;
       log INFO "Updated node %s" [AVal short];;
       ret true
     else
       short <- lift (py_slice8 (node_id node));;
       log ERROR "Failed to update node %s: HTTP %d"
           [AVal short; AVal (PInt (status response))];;
       ret false)
    (fun e =>
       short <- lift (py_slice8 (node_id node));;
       log ERROR "Failed to update node %s: %s" [AVal short; AExn e];;
       ret false).

(** [AuthManager._register_single_node]. *)
Definition _register_single_node (self : t) (node : node) : M W bool :=
  let url := [Lit (dashboard_url self); Lit "/storj/nodes"] in
  node_data <- lift (payload node);;
  try_except
    (response <- http {| meth := POST; url := url;
                         bearer := Some (api_token self);
                         body := Some node_data; timeout := None |};;
     if (status response =? 200) || (status response =? 201) then
       short <- lift (py_slice8 (node_id node));;
       log INFO "Registered node %s (%s)" [AVal short; AVal (PStr (name node))];;
       ret true
     else if status response =? 409 then
       short <- lift (py_slice8 (node_id node));;
       log INFO "Node %s already exists, updating..." [AVal short];;
       _update_existing_node self node node_data
     else if status response =? 401 then
       log ERROR "Authentication failed - check API token" [];;
       ret false
     else
       error_text <- lift (text response);;
       short <- lift (py_slice8 (node_id node));;
       log ERROR "Failed to register node %s: HTTP %d - %s"
           [AVal short; AVal (PInt (status response)); AVal (PStr error_text)];;
       ret false)
    (fun e =>
       short <- lift (py_slice8 (node_id node));;
       log ERROR "Failed to register node %s: %s" [AVal short; AExn e];;
       ret false).

(** The [for node in nodes] loop of [register_nodes], from a count. *)
Fixpoint register_loop (self : t) (nodes : list node) (registered_count : Z)
  : M W Z :=
  match nodes with
  | [] => ret registered_count
  | node :: rest =>
      ok <- _register_single_node self node;;
      register_loop self rest
                    (if ok : bool then registered_count + 1
                     else registered_count)
  end.

(** [AuthManager.register_nodes]. *)
Definition register_nodes (self : t) (nodes : list node) : M W Z :=
  match nodes with
  | [] => ret 0
  | _ => register_loop self nodes 0
  end.

End WithWorld.

End AuthManager.

(* ================================================================== *)
(** ** storjcloud-client.py *)

Module Client.

(** Keys of [unique_nodes]: lists and dicts are unhashable. *)
Definition hashable (v : pyval) : bool :=
  match v with
  | PList _ | PDict _ => false
  | _ => true
  end.

(** A key is found in the dict when it is the key object itself or
    equals it: strings by their characters, [None] with itself, numbers
    ([bool], [int], [float]) by value.  A NaN equals nothing, but
    [json.loads] has one NaN object for every NaN it reads, so that a
    NaN key is found by identity. *)
Definition key_eqb (a b : pyval) : bool :=
  match a, b with
  | PNone, PNone => true
  | PStr x, PStr y => String.eqb x y
  | PFloat S754_nan, PFloat S754_nan => true
  | _, _ =>
      match as_num a, as_num b with
      | Some x, Some y =>
          match num_compare x y with Some Eq => true | _ => false end
      | _, _ => false
      end
  end.

(** [d[k] = n] on an insertion-ordered dict: an existing key keeps its
    place (and its key object) and takes the new value; a new key goes
    to the end. *)
Fixpoint setitem (k : pyval) (n : node) (d : list (pyval * node))
  : list (pyval * node) :=
  match d with
  | [] => [(k, n)]
  | (k', n') :: d' =>
      if key_eqb k' k then (k', n) :: d' else (k', n') :: setitem k n d'
  end.

(** The loop [for node in discovered_nodes: unique_nodes[node['node_id']] = node],
    from the dict built so far. *)
Fixpoint fill (discovered_nodes : list node) (unique_nodes : list (pyval * node))
  : outcome (list (pyval * node)) :=
  match discovered_nodes with
  | [] => Ret unique_nodes
  | node :: rest =>
      if hashable (node_id node)
      then fill rest (setitem (node_id node) node unique_nodes)
      else Raise TypeError
  end.

(** Lines 147-152 of [handle_discover]: the dict is filled and
    [list(unique_nodes.values())] is the new [discovered_nodes]. *)
Definition remove_duplicates (discovered_nodes : list node)
  : outcome (list node) :=
  let! unique_nodes := fill discovered_nodes [] in
  Ret (map snd unique_nodes).

(** The command line of [discover], after parsing: [ports] is the port
    list that [--ports], [--port-range] or [--auto] stands for, [None]
    when none of them is given. *)
Record args : Type := {
  from_docker : bool;
  server : option string;
  ports : option (list Z);
  timeout_arg : Z;
  json_out : bool
}.

Section WithWorld.
Context {W : Type} `{World W}.

(** The [for node in discovered_nodes: logger.info(...)] loop. *)
Fixpoint log_nodes (nodes : list node) : M W unit :=
  match nodes with
  | [] => ret tt
  | node :: rest =>
      short <- lift (py_slice8 (node_id node));;
      gb <- lift (py_truediv (used (disk_space node)) lit_1e9);;
      log INFO "Node %s on %s:%d (Status: %s, Used: %.2f GB)"
          [AVal short; AVal (PStr (address node));
           AVal (PInt (dashboard_port node)); AVal (PStr (status_ node));
           AVal gb];;
      log_nodes rest
  end.

(** [handle_discover]. *)
Definition handle_discover (a : args) (auth : AuthManager.t) : M W unit :=
  log INFO "Starting node discovery..." [];;
  docker_nodes <-
    (if from_docker a then
       docker_nodes <- DockerDiscovery.discover_nodes;;
       log INFO "Found %d nodes from Docker"
           [AVal (PInt (Z.of_nat (List.length docker_nodes)))];;
       ret docker_nodes
     else ret []);;
  port_nodes <-
    (match ports a with
     | Some ps =>
         let server_ip :=
           match server a with
           | Some ip => if String.eqb ip "" then "127.0.0.1" else ip
           | None => "127.0.0.1"
           end in
         let scanner :=
           {| PortScanner.host := server_ip;
              PortScanner.timeout_ := timeout_arg a |} in
         port_nodes <- PortScanner.scan_ports scanner ps;;
         log INFO "Found %d nodes from port scanning"
             [AVal (PInt (Z.of_nat (List.length port_nodes)))];;
         ret port_nodes
     | None => ret []
     end);;
  let discovered_nodes := (docker_nodes ++ port_nodes)%list in
  match discovered_nodes with
  | [] => log WARNING "No nodes discovered" []
  | _ =>
      discovered_nodes <- lift (remove_duplicates discovered_nodes);;
      log INFO "Total unique nodes found: %d"
          [AVal (PInt (Z.of_nat (List.length discovered_nodes)))];;
      (if json_out a then emit (Printed discovered_nodes)
       else log_nodes discovered_nodes);;
      registered <- AuthManager.register_nodes auth discovered_nodes;;
      log INFO "Successfully registered %d nodes with dashboard"
          [AVal (PInt registered)]
  end.

End WithWorld.

End Client.

(* ================================================================== *)
(** ** config.py *)

(** [s.lower()], on the ASCII letters.  (Python lowers every cased
    character; no other character lowers to an ASCII letter of the
    words that the result is compared with below.) *)
Definition lower_char (a : ascii) : ascii :=
  let n := nat_of_ascii a in
  if ((65 <=? n) && (n <=? 90))%nat then ascii_of_nat (n + 32) else a.

Fixpoint lower (s : string) : string :=
  match s with
  | EmptyString => EmptyString
  | String a s' => String (lower_char a) (lower s')
  end.

(** The dataclasses.  A field holds whatever the YAML file put there, so
    its type is that of the parsed values. *)
Module ApiConfig.
Record t : Type := {
  token : pyval;
  endpoint : pyval;
  timeout : pyval
}.
Definition default : t :=
  {| token := PStr "";
     endpoint := PStr "https://storj.cloud/api/v1";
     timeout := PInt 30 |}.
End ApiConfig.

Module DiscoveryConfig.
Record t : Type := {
  from_docker : pyval;
  docker_host : pyval;
  common_ports : pyval;
  port_range : pyval;
  timeout : pyval;
  retry_attempts : pyval
}.
Definition default : t :=
  {| from_docker := PBool true;
     docker_host := PStr "unix:///var/run/docker.sock";
     common_ports := PList [PInt 14000; PInt 14001; PInt 14002;
                            PInt 14003; PInt 14004; PInt 14005];
     port_range := PList [PInt 14000; PInt 14010];
     timeout := PInt 5;
     retry_attempts := PInt 3 |}.
End DiscoveryConfig.

Module SyncConfig.
Record t : Type := {
  interval : pyval;
  batch_size : pyval;
  retry_failed : pyval
}.
Definition default : t :=
  {| interval := PInt 300; batch_size := PInt 10; retry_failed := PBool true |}.
End SyncConfig.

Module LoggingConfig.
Record t : Type := {
  level : pyval;
  file : pyval
}.
Definition default : t := {| level := PStr "info"; file := PNone |}.
End LoggingConfig.

Module Config.

Record t : Type := {
  api : ApiConfig.t;
  discovery : DiscoveryConfig.t;
  sync : SyncConfig.t;
  logging : LoggingConfig.t
}.

(** [cls()]. *)
Definition default : t :=
  {| api := ApiConfig.default;
     discovery := DiscoveryConfig.default;
     sync := SyncConfig.default;
     logging := LoggingConfig.default |}.

(** The assignments [self.<section>.<field> = v]. *)
Definition set_api (f : pyval -> ApiConfig.t -> ApiConfig.t) (v : pyval)
           (self : t) : t :=
  {| api := f v (api self); discovery := discovery self;
     sync := sync self; logging := logging self |}.

Definition set_discovery
           (f : pyval -> DiscoveryConfig.t -> DiscoveryConfig.t) (v : pyval)
           (self : t) : t :=
  {| api := api self; discovery := f v (discovery self);
     sync := sync self; logging := logging self |}.

Definition set_sync (f : pyval -> SyncConfig.t -> SyncConfig.t) (v : pyval)
           (self : t) : t :=
  {| api := api self; discovery := discovery self;
     sync := f v (sync self); logging := logging self |}.

Definition set_logging (f : pyval -> LoggingConfig.t -> LoggingConfig.t)
           (v : pyval) (self : t) : t :=
  {| api := api self; discovery := discovery self;
     sync := sync self; logging := f v (logging self) |}.

Definition token (v : pyval) (a : ApiConfig.t) : ApiConfig.t :=
  {| ApiConfig.token := v; ApiConfig.endpoint := ApiConfig.endpoint a;
     ApiConfig.timeout := ApiConfig.timeout a |}.
Definition endpoint (v : pyval) (a : ApiConfig.t) : ApiConfig.t :=
  {| ApiConfig.token := ApiConfig.token a; ApiConfig.endpoint := v;
     ApiConfig.timeout := ApiConfig.timeout a |}.
Definition api_timeout (v : pyval) (a : ApiConfig.t) : ApiConfig.t :=
  {| ApiConfig.token := ApiConfig.token a;
     ApiConfig.endpoint := ApiConfig.endpoint a; ApiConfig.timeout := v |}.

Definition from_docker (v : pyval) (d : DiscoveryConfig.t) : DiscoveryConfig.t :=
  {| DiscoveryConfig.from_docker := v;
     DiscoveryConfig.docker_host := DiscoveryConfig.docker_host d;
     DiscoveryConfig.common_ports := DiscoveryConfig.common_ports d;
     DiscoveryConfig.port_range := DiscoveryConfig.port_range d;
     DiscoveryConfig.timeout := DiscoveryConfig.timeout d;
     DiscoveryConfig.retry_attempts := DiscoveryConfig.retry_attempts d |}.
Definition docker_host (v : pyval) (d : DiscoveryConfig.t) : DiscoveryConfig.t :=
  {| DiscoveryConfig.from_docker := DiscoveryConfig.from_docker d;
     DiscoveryConfig.docker_host := v;
     DiscoveryConfig.common_ports := DiscoveryConfig.common_ports d;
     DiscoveryConfig.port_range := DiscoveryConfig.port_range d;
     DiscoveryConfig.timeout := DiscoveryConfig.timeout d;
     DiscoveryConfig.retry_attempts := DiscoveryConfig.retry_attempts d |}.
Definition common_ports (v : pyval) (d : DiscoveryConfig.t) : DiscoveryConfig.t :=
  {| DiscoveryConfig.from_docker := DiscoveryConfig.from_docker d;
     DiscoveryConfig.docker_host := DiscoveryConfig.docker_host d;
     DiscoveryConfig.common_ports := v;
     DiscoveryConfig.port_range := DiscoveryConfig.port_range d;
     DiscoveryConfig.timeout := DiscoveryConfig.timeout d;
     DiscoveryConfig.retry_attempts := DiscoveryConfig.retry_attempts d |}.
Definition port_range (v : pyval) (d : DiscoveryConfig.t) : DiscoveryConfig.t :=
  {| DiscoveryConfig.from_docker := DiscoveryConfig.from_docker d;
     DiscoveryConfig.docker_host := DiscoveryConfig.docker_host d;
     DiscoveryConfig.common_ports := DiscoveryConfig.common_ports d;
     DiscoveryConfig.port_range := v;
     DiscoveryConfig.timeout := DiscoveryConfig.timeout d;
     DiscoveryConfig.retry_attempts := DiscoveryConfig.retry_attempts d |}.
Definition discovery_timeout (v : pyval) (d : DiscoveryConfig.t)
  : DiscoveryConfig.t :=
  {| DiscoveryConfig.from_docker := DiscoveryConfig.from_docker d;
     DiscoveryConfig.docker_host := DiscoveryConfig.docker_host d;
     DiscoveryConfig.common_ports := DiscoveryConfig.common_ports d;
     DiscoveryConfig.port_range := DiscoveryConfig.port_range d;
     DiscoveryConfig.timeout := v;
     DiscoveryConfig.retry_attempts := DiscoveryConfig.retry_attempts d |}.
Definition retry_attempts (v : pyval) (d : DiscoveryConfig.t)
  : DiscoveryConfig.t :=
  {| DiscoveryConfig.from_docker := DiscoveryConfig.from_docker d;
     DiscoveryConfig.docker_host := DiscoveryConfig.docker_host d;
     DiscoveryConfig.common_ports := DiscoveryConfig.common_ports d;
     DiscoveryConfig.port_range := DiscoveryConfig.port_range d;
     DiscoveryConfig.timeout := DiscoveryConfig.timeout d;
     DiscoveryConfig.retry_attempts := v |}.

Definition interval (v : pyval) (y : SyncConfig.t) : SyncConfig.t :=
  {| SyncConfig.interval := v;
     SyncConfig.batch_size := SyncConfig.batch_size y;
     SyncConfig.retry_failed := SyncConfig.retry_failed y |}.
Definition batch_size (v : pyval) (y : SyncConfig.t) : SyncConfig.t :=
  {| SyncConfig.interval := SyncConfig.interval y;
     SyncConfig.batch_size := v;
     SyncConfig.retry_failed := SyncConfig.retry_failed y |}.
Definition retry_failed (v : pyval) (y : SyncConfig.t) : SyncConfig.t :=
  {| SyncConfig.interval := SyncConfig.interval y;
     SyncConfig.batch_size := SyncConfig.batch_size y;
     SyncConfig.retry_failed := v |}.

Definition level (v : pyval) (g : LoggingConfig.t) : LoggingConfig.t :=
  {| LoggingConfig.level := v; LoggingConfig.file := LoggingConfig.file g |}.
Definition file (v : pyval) (g : LoggingConfig.t) : LoggingConfig.t :=
  {| LoggingConfig.level := LoggingConfig.level g; LoggingConfig.file := v |}.

(** Code that updates the configuration object and may raise: the object
    is as the statements before the raise left it. *)
Definition code (A : Type) : Type := t -> outcome A * t.

Definition cret {A} (a : A) : code A := fun self => (Ret a, self).

Definition cbind {A B} (m : code A) (k : A -> code B) : code B :=
  fun self => match m self with
              | (Ret a, self') => k a self'
              | (Raise e, self') => (Raise e, self')
              end.

Definition clift {A} (o : outcome A) : code A := fun self => (o, self).

Definition cseq (m k : code unit) : code unit := cbind m (fun _ => k).

(** [self.<field> = <section>.get(key, self.<field>)]. *)
Definition load_field (section_data : pyval) (key : string)
           (get : t -> pyval) (set : pyval -> t -> t) : code unit :=
  fun self =>
    match py_get section_data key (get self) with
    | Ret v => (Ret tt, set v self)
    | Raise e => (Raise e, self)
    end.

(** [if key in data: section_data = data[key]; <fields>]. *)
Definition load_section (data : pyval) (key : string)
           (fields : pyval -> code unit) : code unit :=
  cbind (clift (py_in key data)) (fun present =>
  if present : bool then
    cbind (clift (py_getitem data key)) fields
  else cret tt).

(** [Config._load_from_file]; [loaded] is what opening the file and
    [yaml.safe_load] give. *)
Definition _load_from_file (loaded : outcome pyval) : code unit :=
  fun self =>
    match
      cbind (clift loaded) (fun data =>
      cseq (load_section data "api" (fun api_data =>
        cseq (load_field api_data "token"
                (fun c => ApiConfig.token (api c)) (set_api token))
       (cseq (load_field api_data "endpoint"
                (fun c => ApiConfig.endpoint (api c)) (set_api endpoint))
             (load_field api_data "timeout"
                (fun c => ApiConfig.timeout (api c)) (set_api api_timeout)))))
     (cseq (load_section data "discovery" (fun disc_data =>
        cseq (load_field disc_data "from_docker"
                (fun c => DiscoveryConfig.from_docker (discovery c))
                (set_discovery from_docker))
       (cseq (load_field disc_data "docker_host"
                (fun c => DiscoveryConfig.docker_host (discovery c))
                (set_discovery docker_host))
       (cseq (load_field disc_data "common_ports"
                (fun c => DiscoveryConfig.common_ports (discovery c))
                (set_discovery common_ports))
       (cseq (load_field disc_data "port_range"
                (fun c => DiscoveryConfig.port_range (discovery c))
                (set_discovery port_range))
       (cseq (load_field disc_data "timeout"
                (fun c => DiscoveryConfig.timeout (discovery c))
                (set_discovery discovery_timeout))
             (load_field disc_data "retry_attempts"
                (fun c => DiscoveryConfig.retry_attempts (discovery c))
                (set_discovery retry_attempts))))))))
     (cseq (load_section data "sync" (fun sync_data =>
        cseq (load_field sync_data "interval"
                (fun c => SyncConfig.interval (sync c)) (set_sync interval))
       (cseq (load_field sync_data "batch_size"
                (fun c => SyncConfig.batch_size (sync c)) (set_sync batch_size))
             (load_field sync_data "retry_failed"
                (fun c => SyncConfig.retry_failed (sync c))
                (set_sync retry_failed)))))
           (load_section data "logging" (fun log_data =>
        cseq (load_field log_data "level"
                (fun c => LoggingConfig.level (logging c)) (set_logging level))
             (load_field log_data "file"
                (fun c => LoggingConfig.file (logging c))
                (set_logging file))))))) self
    with
    | (Ret tt, self') => (Ret tt, self')
    | (Raise _, self') => (Ret tt, self')
    end.

(** [os.getenv(name, default)]. *)
Definition getenv_or (getenv : string -> option string) (name : string)
           (default : pyval) : pyval :=
  match getenv name with
  | Some v => PStr v
  | None => default
  end.

(** [if v := os.getenv(name): try: <set>(int(v)) except ValueError: pass]. *)
Definition load_int (getenv : string -> option string) (name : string)
           (set : pyval -> t -> t) (self : t) : outcome t :=
  match getenv name with
  | Some v =>
      if negb (String.eqb v "") then
        match int_of_string v with
        | Ret n => Ret (set (PInt n) self)
        | Raise ValueError => Ret self
        | Raise e => Raise e
        end
      else Ret self
  | None => Ret self
  end.

(** [Config._load_from_env]. *)
Definition _load_from_env (getenv : string -> option string) (self : t)
  : outcome t :=
  let self := set_api token
                (getenv_or getenv "STORJCLOUD_API_TOKEN"
                           (ApiConfig.token (api self))) self in
  let self := set_api endpoint
                (getenv_or getenv "STORJCLOUD_DASHBOARD_URL"
                           (ApiConfig.endpoint (api self))) self in
  let! self := load_int getenv "STORJCLOUD_API_TIMEOUT"
                        (set_api api_timeout) self in
  let self := set_discovery docker_host
                (getenv_or getenv "DOCKER_HOST"
                           (DiscoveryConfig.docker_host (discovery self)))
                self in
  let self :=
    match getenv "STORJCLOUD_FROM_DOCKER" with
    | Some v =>
        if negb (String.eqb v "") then
          set_discovery from_docker
            (PBool (existsb (String.eqb (lower v)) ["true"; "1"; "yes"])) self
        else self
    | None => self
    end in
  let! self := load_int getenv "STORJCLOUD_SYNC_INTERVAL"
                        (set_sync interval) self in
  let self := set_logging level
                (getenv_or getenv "STORJCLOUD_LOG_LEVEL"
                           (LoggingConfig.level (logging self))) self in
  let self := set_logging file
                (getenv_or getenv "STORJCLOUD_LOG_FILE"
                           (LoggingConfig.file (logging self))) self in
  Ret self.

(** The places where a configuration file is looked for: the path of
    the command line, [~/.storjcloud/config.yaml],
    [/etc/storjcloud/config.yaml] and [config.yaml] in the working
    directory. *)
Inductive location : Type :=
| Given (config_path : string)
| Home
| Etc
| Local.

(** The file system, as [load] sees it: [Path.home()], which raises
    when there is no home directory, [Path(...).exists()], which raises
    on a path that cannot be examined (a name that is too long, a
    directory that may not be searched), and the parsed content of a
    file. *)
Record files : Type := {
  home : outcome unit;
  exists_ : location -> outcome bool;
  parsed : location -> outcome pyval
}.

(** The loop [for path in default_paths: if path.exists(): ...; break]. *)
Fixpoint load_first (fs : files) (default_paths : list location) (self : t)
  : outcome t :=
  match default_paths with
  | [] => Ret self
  | path :: rest =>
      let! found := exists_ fs path in
      if found : bool
      then Ret (snd (_load_from_file (parsed fs path) self))
      else load_first fs rest self
  end.

(** The [else] branch of [load]: the list of the default locations is
    built, then searched. *)
Definition load_default (fs : files) (self : t) : outcome t :=
  let! _ := home fs in
  load_first fs [Home; Etc; Local] self.

(** [Config.load]; neither [Path.home()] nor [exists()] is inside a
    [try]. *)
Definition load (fs : files) (getenv : string -> option string)
           (config_path : option string) : outcome t :=
  let config := default in
  let! config :=
    match config_path with
    | Some p =>
        if negb (String.eqb p "") then
          let! found := exists_ fs (Given p) in
          if found : bool
          then Ret (snd (_load_from_file (parsed fs (Given p)) config))
          else load_default fs config
        else load_default fs config
    | None => load_default fs config
    end in
  _load_from_env getenv config.

End Config.

(* ================================================================== *)
(** ** storjcloud-client.py, [main] *)

Module Main.

(** Lines 39-43 of [main]: [if args.token: config.api.token = args.token]
    and the same for [args.url] and the endpoint. *)
Definition override (token url : option string) (config : Config.t)
  : Config.t :=
  let config :=
    match token with
    | Some v => if negb (String.eqb v "")
                then Config.set_api Config.token (PStr v) config else config
    | None => config
    end in
  match url with
  | Some v => if negb (String.eqb v "")
              then Config.set_api Config.endpoint (PStr v) config else config
  | None => config
  end.

(** Lines 46-48 of [main]: whether it stops with the line about the
    missing API token and the exit status 1. *)
Definition token_missing (command : option string) (config : Config.t)
  : bool :=
  negb (truthy (ApiConfig.token (Config.api config))) &&
  negb (match command with
        | Some c => existsb (String.eqb c) ["install-service"; "help"]
        | None => false
        end).

End Main.

(* ================================================================== *)
(** ** pm2.py *)

Module PM2Manager.

(** What [get_service_status] reads of
    [subprocess.run(['pm2', 'jlist'], ...)]: the return code, and
    [json.loads] of the output. *)
Record completed : Type := {
  returncode : Z;
  stdout : outcome pyval
}.

(** [v == service_name], for a string [service_name]. *)
Definition py_eq_str (v : pyval) (service_name : string) : bool :=
  match v with
  | PStr x => String.eqb x service_name
  | _ => false
  end.

(** The dict display that [get_service_status] returns. *)
Definition summary (process : pyval) : outcome pyval :=
  let! name := py_get process "name" PNone in
  let! pid := py_get process "pid" PNone in
  let! env1 := py_get process "pm2_env" (PDict []) in
  let! status := py_get env1 "status" PNone in
  let! env2 := py_get process "pm2_env" (PDict []) in
  let! uptime := py_get env2 "pm_uptime" PNone in
  let! env3 := py_get process "pm2_env" (PDict []) in
  let! restarts := py_get env3 "restart_time" PNone in
  let! monit1 := py_get process "monit" (PDict []) in
  let! memory := py_get monit1 "memory" PNone in
  let! monit2 := py_get process "monit" (PDict []) in
  let! cpu := py_get monit2 "cpu" PNone in
  Ret (PDict [("name", name); ("pid", pid); ("status", status);
              ("uptime", uptime); ("restarts", restarts);
              ("memory", memory); ("cpu", cpu)]).

(** The loop [for process in processes]; Python's [None] when it runs
    out. *)
Fixpoint find_process (processes : list pyval) (service_name : string)
  : outcome pyval :=
  match processes with
  | [] => Ret PNone
  | process :: rest =>
      let! name := py_get process "name" PNone in
      if py_eq_str name service_name then summary process
      else find_process rest service_name
  end.

(** [PM2Manager.get_service_status]: the result and what is logged. *)
Definition get_service_status (ran : outcome completed) (service_name : string)
  : pyval * list event :=
  match
    (let! result := ran in
     if returncode result =? 0 then
       let! processes := stdout result in
       let! l := py_iter processes in
       find_process l service_name
     else Ret PNone)
  with
  | Ret v => (v, [])
  | Raise e =>
      (PNone, [Log ERROR "Failed to get service status: %s" [AExn e]])
  end.

End PM2Manager.

Unset Implicit Arguments.

(* ================================================================== *)
(** ** Vocabulary of the properties *)

(** The document is a JSON object whose [lastContactSuccess] is a truthy
    value: it contains a successful last-contact timestamp. *)
Definition has_last_contact (doc : pyval) : bool :=
  match doc with
  | PDict d =>
      match lookup "lastContactSuccess" d with
      | Some v => truthy v
      | None => false
      end
  | _ => false
  end.

(** The document marks the node as disqualified. *)
Definition marked_disqualified (doc : pyval) : bool :=
  match doc with
  | PDict d =>
      match lookup "disqualified" d with
      | Some v => truthy v
      | None => false
      end
  | _ => false
  end.

(** The binary64 numbers that the literals [0.1] and [0.5] denote. *)
Definition score_0_1 : pyfloat := S754_finite false 7205759403792794 (-56).
Definition score_0_5 : pyfloat := S754_finite false 4503599627370496 (-53).

(** The reputation block of the document is an object with the two
    given scores. *)
Definition has_scores (doc : pyval) (suspension audit : pyval) : Prop :=
  exists d rep,
    doc = PDict d /\
    lookup "reputation" d = Some (PDict rep) /\
    lookup "suspensionScore" rep = Some suspension /\
    lookup "auditScore" rep = Some audit.

(** Sample documents. *)
Definition doc_disqualified : pyval :=
  PDict [("nodeID", PStr "1GpR6f3nR5sHwq");
         ("lastContactSuccess", PStr "2024-01-01T00:00:00Z");
         ("disqualified", PBool true)].

Definition doc_suspended_and_low_audit : pyval :=
  PDict [("nodeID", PStr "1GpR6f3nR5sHwq");
         ("lastContactSuccess", PStr "2024-01-01T00:00:00Z");
         ("reputation", PDict [("suspensionScore", PFloat score_0_1);
                               ("auditScore", PFloat score_0_5)])].

(** The disk field of a record is derived from the document: [used] and
    [available] are the two readings of the document (0 when absent) and
    [total] is their Python sum, which on integers is the integer sum. *)
Definition disk_derived_from (doc : pyval) (n : node) : Prop :=
  disk_reading doc "used" = Ret (used (disk_space n)) /\
  disk_reading doc "available" = Ret (available (disk_space n)) /\
  py_add (used (disk_space n)) (available (disk_space n))
    = Ret (total (disk_space n)) /\
  (forall u a : Z,
      used (disk_space n) = PInt u ->
      available (disk_space n) = PInt a ->
      total (disk_space n) = PInt (u + a)).

(** A scripted outside: the requests are answered by the entries of a
    list, in order, and raise [ClientError] once the list is used up; the
    container runtime has one fixed answer. *)
Record script : Type := {
  answers : list (outcome response);
  runtime_answer : outcome (list container_obj)
}.

#[global] Instance script_world : World script := {
  send := fun _ w =>
    match answers w with
    | [] => (Raise ClientError, w)
    | a :: rest => (a, {| answers := rest; runtime_answer := runtime_answer w |})
    end;
  utcnow := fun _ => "2024-01-01T00:00:00";
  storj_containers := fun w => (runtime_answer w, w)
}.

Definition start (answers : list (outcome response)) : state script :=
  {| world := {| answers := answers; runtime_answer := Ret [] |};
     trace := [] |}.

(** The scripted world once its answers are used up. *)
Definition spent : script := {| answers := []; runtime_answer := Ret [] |}.

Definition answer (status : Z) (doc : pyval) : outcome response :=
  Ret {| status := status; json := Ret doc; text := Ret "" |}.

(** A status document that carries a [total] of its own. *)
Definition doc_with_total : pyval :=
  PDict [("nodeID", PStr "1GpR6f3nR5sHwq");
         ("diskSpace", PDict [("used", PInt 100); ("available", PInt 900);
                              ("total", PInt 5)]);
         ("lastContactSuccess", PStr "2024-01-01T00:00:00Z")].

Definition scanner : PortScanner.t :=
  {| PortScanner.host := "127.0.0.1"; PortScanner.timeout_ := 5 |}.

(** The attributes of a container that publishes the status port 14002
    on host port 14010 while its environment declares another console
    address. *)
Definition attrs_mapped_and_env : pyval :=
  PDict
    [("Name", PStr "/storagenode1");
     ("Config",
      PDict [("Image", PStr "storjlabs/storagenode:latest");
             ("Env", PList [PStr "PATH=/usr/local/bin";
                            PStr "CONSOLE_ADDRESS=0.0.0.0:15555"])]);
     ("NetworkSettings",
      PDict [("Ports",
              PDict [("14002/tcp",
                      PList [PDict [("HostIp", PStr "0.0.0.0");
                                    ("HostPort", PStr "14010")]]);
                     ("28967/tcp", PNone)])])].

Definition container1 : container_obj :=
  {| reload := Ret attrs_mapped_and_env;
     cid := "4f5c9a1b2d3e";
     cname := "storagenode1" |}.

(** The port table has no usable entry for [k]: the key is absent or
    its mapping is empty or null (a port exposed but not published). *)
Definition no_mapping (ports : pydict) (k : string) : Prop :=
  match lookup k ports with
  | Some m => truthy m = false
  | None => True
  end.

(** An environment entry that the [CONSOLE_ADDRESS] loop passes over: a
    string that does not start with the prefix, or whose address has no
    colon. *)
Definition passed_over (prefix : string) (v : pyval) : bool :=
  match v with
  | PStr e =>
      if startswith prefix e then
        match split1 "=" e with
        | _ :: address :: _ => negb (contains ":" address)
        | _ => false
        end
      else true
  | _ => false
  end.

(** The same container attributes without a mapping for 14002/tcp, but
    with a published port in the dashboard range. *)
Definition attrs_env_and_range : pyval :=
  PDict
    [("Name", PStr "/storagenode2");
     ("Config",
      PDict [("Image", PStr "storjlabs/storagenode:latest");
             ("Env", PList [PStr "PATH=/usr/local/bin";
                            PStr "CONSOLE_ADDRESS=0.0.0.0:15555"])]);
     ("NetworkSettings",
      PDict [("Ports",
              PDict [("14002/tcp", PNone);
                     ("14005/tcp",
                      PList [PDict [("HostIp", PStr "0.0.0.0");
                                    ("HostPort", PStr "14010")]])])])].

(** And with neither a mapping for 14002/tcp nor a console address. *)
Definition attrs_range_only : pyval :=
  PDict
    [("Name", PStr "/storagenode3");
     ("Config",
      PDict [("Image", PStr "storjlabs/storagenode:latest");
             ("Env", PList [PStr "PATH=/usr/local/bin"])]);
     ("NetworkSettings",
      PDict [("Ports",
              PDict [("14002/tcp", PNone);
                     ("14005/tcp",
                      PList [PDict [("HostIp", PStr "0.0.0.0");
                                    ("HostPort", PStr "14010")]])])])].

(** The key, or the [node_id] of a record, is the string [s]. *)
Definition key_is (s : string) (k : pyval) : bool :=
  match k with
  | PStr x => String.eqb x s
  | _ => false
  end.

Definition has_id (s : string) (n : node) : bool := key_is s (node_id n).

(** Every record carries a hashable value as its [node_id]: a string, a
    number, [None]; not a list or a dict. *)
Definition hashable_ids (l : list node) : Prop :=
  Forall (fun n => Client.hashable (node_id n) = true) l.

(** The last record of a list with the [node_id] [s]. *)
Fixpoint last_with_id (s : string) (l : list node) : option node :=
  match l with
  | [] => None
  | n :: rest =>
      match last_with_id s rest with
      | Some m => Some m
      | None => if has_id s n then Some n else None
      end
  end.

(** A status document that reports no [nodeID], and the record that the
    port scanner builds from it. *)
Definition doc_without_id : pyval :=
  PDict [("diskSpace", PDict [("used", PInt 100); ("available", PInt 900)]);
         ("lastContactSuccess", PStr "2024-01-01T00:00:00Z")].

Definition record_without_id : node :=
  {| node_id := PStr "";
     name := "Node-14002";
     address := "127.0.0.1";
     dashboard_port := 14002;
     storage_port := 28967;
     version := PStr "";
     status_ := "ONLINE";
     disk_space := {| used := PInt 100; available := PInt 900;
                      total := PInt 1000 |};
     bandwidth := PDict [];
     uptime := PInt 0;
     last_contact := PStr "2024-01-01T00:00:00Z";
     container := None;
     detected_from := "port_scan" |}.

(** Two records of one node, found by both discoverers with different
    health, and a record of another node. *)
Definition record_a_docker : node :=
  {| node_id := PStr "1GpR6f3nR5sHwq";
     name := "storagenode1";
     address := "127.0.0.1";
     dashboard_port := 14010;
     storage_port := 28967;
     version := PStr "1.95.1";
     status_ := "ONLINE";
     disk_space := {| used := PInt 100; available := PInt 900;
                      total := PInt 1000 |};
     bandwidth := PDict [];
     uptime := PInt 0;
     last_contact := PStr "2024-01-01T00:00:00Z";
     container := Some {| container_id := "4f5c9a1b2d3e";
                          container_name := "storagenode1";
                          image := PStr "storjlabs/storagenode:latest" |};
     detected_from := "docker" |}.

Definition record_a_scan : node :=
  {| node_id := PStr "1GpR6f3nR5sHwq";
     name := "Node-14010";
     address := "127.0.0.1";
     dashboard_port := 14010;
     storage_port := 28967;
     version := PStr "1.95.1";
     status_ := "WARNING";
     disk_space := {| used := PInt 100; available := PInt 900;
                      total := PInt 1000 |};
     bandwidth := PDict [];
     uptime := PInt 0;
     last_contact := PStr "2024-01-01T00:00:00Z";
     container := None;
     detected_from := "port_scan" |}.

Definition record_b_scan : node :=
  {| node_id := PStr "12tTzRcuYxA9Kk";
     name := "Node-14011";
     address := "127.0.0.1";
     dashboard_port := 14011;
     storage_port := 28967;
     version := PStr "1.95.1";
     status_ := "ONLINE";
     disk_space := {| used := PInt 5; available := PInt 7; total := PInt 12 |};
     bandwidth := PDict [];
     uptime := PInt 0;
     last_contact := PStr "2024-01-01T00:00:00Z";
     container := None;
     detected_from := "port_scan" |}.

(** The request of [test_token]. *)
Definition me_request (self : AuthManager.t) : request :=
  {| meth := GET;
     url := [Lit (AuthManager.dashboard_url self); Lit "/auth/me"];
     bearer := Some (AuthManager.api_token self);
     body := None;
     timeout := None |}.

Definition auth0 : AuthManager.t :=
  {| AuthManager.api_token := "sk_live_0123456789";
     AuthManager.dashboard_url := "https://storj.cloud/api" |}.

Definition account0 : pyval :=
  PDict [("email", PStr "operator@example.org");
         ("permissions", PList [PStr "nodes:write"])].

(** A response with a status and a text body that is not JSON. *)
Definition answer_text (status : Z) (body : string) : outcome response :=
  Ret {| status := status; json := Raise JSONDecodeError; text := Ret body |}.

(** The two requests of a registration. *)
Definition post_request (self : AuthManager.t) (node_data : pyval) : request :=
  {| meth := POST;
     url := [Lit (AuthManager.dashboard_url self); Lit "/storj/nodes"];
     bearer := Some (AuthManager.api_token self);
     body := Some node_data;
     timeout := None |}.

Definition patch_request (self : AuthManager.t) (n : node) (node_data : pyval)
  : request :=
  {| meth := PATCH;
     url := [Lit (AuthManager.dashboard_url self); Lit "/storj/nodes/";
             Fmt (node_id n)];
     bearer := Some (AuthManager.api_token self);
     body := Some node_data;
     timeout := None |}.

(** "2xx", in the words of the specification. *)
Definition is_2xx (status : Z) : bool := (200 <=? status) && (status <? 300).

(** The statuses that the code takes for a success of the POST and of
    the PATCH. *)
Definition post_ok (status : Z) : bool := (status =? 200) || (status =? 201).
Definition patch_ok (status : Z) : bool := (status =? 200) || (status =? 204).

(** A record that [_register_single_node] can handle without raising:
    its [node_id] is a string, so that [node_id[:8]] is defined, and its
    [bandwidth] is a dict, so that [.get('used', 0)] is. *)
Definition registrable (n : node) : bool :=
  match node_id n, bandwidth n with
  | PStr _, PDict _ => true
  | _, _ => false
  end.

Section Reference.
Context {W : Type} `{World W}.

(** The registration of one record, in the words of the specification
    with the statuses of the code: POST; on 200 or 201 a success; on 409
    a PATCH with the same payload, a success if that returns 200 or 204;
    any other outcome a failure.  The result is paired with the world
    after the exchange. *)
Definition registers (self : AuthManager.t) (n : node) (node_data : pyval)
           (w : W) : bool * W :=
  match send (post_request self node_data) w with
  | (Ret r, w1) =>
      if post_ok (status r) then (true, w1)
      else if status r =? 409 then
        match send (patch_request self n node_data) w1 with
        | (Ret r', w2) => (patch_ok (status r'), w2)
        | (Raise _, w2) => (false, w2)
        end
      else (false, w1)
  | (Raise _, w1) => (false, w1)
  end.

(** The number of records that register, each tried in turn whatever
    became of the ones before. *)
Fixpoint count_registered (self : AuthManager.t) (nodes : list node) (w : W)
  : Z * W :=
  match nodes with
  | [] => (0, w)
  | n :: rest =>
      match AuthManager.payload n with
      | Ret node_data =>
          let (ok, w1) := registers self n node_data w in
          let (c, w2) := count_registered self rest w1 in
          ((if ok then 1 else 0) + c, w2)
      | Raise _ => (0, w)
      end
  end.

End Reference.

(** The payloads of the POST requests of a trace, newest first. *)
Fixpoint posted (tr : list event) : list pyval :=
  match tr with
  | [] => []
  | Sent {| meth := POST; body := Some b |} :: rest => b :: posted rest
  | _ :: rest => posted rest
  end.

(** The payloads of a list of records, in order. *)
Fixpoint payloads (nodes : list node) : list pyval :=
  match nodes with
  | [] => []
  | n :: rest =>
      match AuthManager.payload n with
      | Ret p => p :: payloads rest
      | Raise _ => payloads rest
      end
  end.

(** The probe that the sync sends for a registered node. *)
Definition probe_request (node : pydict) : request :=
  {| meth := GET;
     url := [Lit "http://";
             Fmt (match lookup "address" node with
                  | Some a => a
                  | None => PStr "127.0.0.1"
                  end);
             Lit ":";
             Fmt (py_or (match lookup "dashboardPort" node with
                         | Some p => p
                         | None => PNone
                         end) (PInt 14002));
             Lit "/api/sno"];
     bearer := None;
     body := None;
     timeout := Some 10 |}.

(** [old] is what is left of the trace [new] when its newest events are
    taken away: the trace has only grown. *)
Inductive grown (old : list event) : list event -> Prop :=
| grown_refl : grown old old
| grown_cons ev new : grown old new -> grown old (ev :: new).

(** The line by which [_sync_batch] reports the results of a batch. *)
Definition batch_report (successes errors : Z) : event :=
  Log WARNING "Batch sync: %d success, %d errors"
      [AVal (PInt successes); AVal (PInt errors)].

Definition sync0 : NodeSync.t :=
  {| NodeSync.api_token := "sk_live_0123456789";
     NodeSync.dashboard_url := "https://storj.cloud/api";
     NodeSync.batch_size := 10 |}.

(** Five registered nodes, on ports 14001 to 14005. *)
Definition registered (id : string) (port : Z) : pydict :=
  [("id", PStr id); ("nodeId", PStr "1GpR6f3nR5sHwq");
   ("address", PStr "10.0.0.5"); ("dashboardPort", PInt port)].

Definition five_nodes : list pydict :=
  [registered "a1" 14001; registered "a2" 14002; registered "a3" 14003;
   registered "a4" 14004; registered "a5" 14005].

Definition doc_online : pyval :=
  PDict [("nodeID", PStr "1GpR6f3nR5sHwq");
         ("diskSpace", PDict [("used", PInt 100); ("available", PInt 900)]);
         ("lastContactSuccess", PStr "2024-01-01T00:00:00Z")].

(** The probes of nodes 1, 2, 4 and 5 are answered and their updates
    accepted; the probe of node 3 times out. *)
Definition node3_times_out : list (outcome response) :=
  [answer 200 doc_online; answer 200 PNone;
   answer 200 doc_online; answer 204 PNone;
   Raise TimeoutError;
   answer 200 doc_online; answer 200 PNone;
   answer 200 doc_online; answer 200 PNone].

(** A record whose [bandwidth] is not a dict, as the discoverers build
    it from a status document with ["bandwidth": null]. *)
Definition record_null_bandwidth : node :=
  {| node_id := PStr "12tTzRcuYxA9Kk";
     name := "Node-14011";
     address := "127.0.0.1";
     dashboard_port := 14011;
     storage_port := 28967;
     version := PStr "1.95.1";
     status_ := "ONLINE";
     disk_space := {| used := PInt 5; available := PInt 7; total := PInt 12 |};
     bandwidth := PNone;
     uptime := PInt 0;
     last_contact := PStr "2024-01-01T00:00:00Z";
     container := None;
     detected_from := "port_scan" |}.

(** A record whose [node_id] is a list. *)
Definition record_list_id : node :=
  {| node_id := PList [PStr "1GpR6f3nR5sHwq"];
     name := "Node-14011";
     address := "127.0.0.1";
     dashboard_port := 14011;
     storage_port := 28967;
     version := PStr "1.95.1";
     status_ := "ONLINE";
     disk_space := {| used := PInt 5; available := PInt 7; total := PInt 12 |};
     bandwidth := PDict [];
     uptime := PInt 0;
     last_contact := PStr "2024-01-01T00:00:00Z";
     container := None;
     detected_from := "port_scan" |}.

(** The request by which the sync lists the registered nodes. *)
Definition list_request (self : NodeSync.t) : request :=
  {| meth := GET;
     url := [Lit (NodeSync.dashboard_url self); Lit "/storj/nodes"];
     bearer := Some (NodeSync.api_token self);
     body := None;
     timeout := None |}.

(** The same service with batches of two. *)
Definition sync_by_two : NodeSync.t :=
  {| NodeSync.api_token := "sk_live_0123456789";
     NodeSync.dashboard_url := "https://storj.cloud/api";
     NodeSync.batch_size := 2 |}.

(** [unique_nodes] is well formed when a key is a string exactly when
    the record under it has that string as its [node_id], and no two
    entries hold records with the same string id. *)
Fixpoint well_formed (d : list (pyval * node)) : Prop :=
  match d with
  | [] => True
  | (k, n) :: d' =>
      (forall s, key_is s k = has_id s n) /\
      (forall s, key_is s k = true -> filter (has_id s) (map snd d') = []) /\
      well_formed d'
  end.

(** A computation that leaves the events of the trace in place. *)
Definition grows {W A} (m : M W A) : Prop :=
  forall s o s', m s = (o, s') -> grown (trace s) (trace s').

(** The five health strings. *)
Definition health_strings : list string :=
  ["OFFLINE"; "DISQUALIFIED"; "SUSPENDED"; "WARNING"; "ONLINE"].

(** The reputation data that could lower the health is missing: there is
    no reputation block, or it is an object with neither score. *)
Definition no_scores (d : pydict) : Prop :=
  lookup "reputation" d = None \/
  exists rep,
    lookup "reputation" d = Some (PDict rep) /\
    lookup "suspensionScore" rep = None /\
    lookup "auditScore" rep = None.

(** A status document whose suspension score is null. *)
Definition doc_null_score : pyval :=
  PDict [("nodeID", PStr "1GpR6f3nR5sHwq");
         ("lastContactSuccess", PStr "2024-01-01T00:00:00Z");
         ("reputation", PDict [("suspensionScore", PNone);
                               ("auditScore", PInt 1)])].

(** A status document with an empty reputation block. *)
Definition doc_empty_reputation : pyval :=
  PDict [("nodeID", PStr "1GpR6f3nR5sHwq");
         ("lastContactSuccess", PStr "2024-01-01T00:00:00Z");
         ("reputation", PDict [])].

(** The requests of a trace, newest first. *)
Fixpoint requests (tr : list event) : list request :=
  match tr with
  | [] => []
  | Sent r :: rest => r :: requests rest
  | _ :: rest => requests rest
  end.

(** The probe of a status endpoint by a discoverer. *)
Definition status_request (host : string) (port timeout : Z) : request :=
  {| meth := GET;
     url := [Lit "http://"; Lit host; Lit ":"; Fmt (PInt port); Lit "/api/sno"];
     bearer := None;
     body := None;
     timeout := Some timeout |}.

Definition scan_request (self : PortScanner.t) (port : Z) : request :=
  status_request (PortScanner.host self) port (PortScanner.timeout_ self).

(** [l1] is [l2] with some elements left out, the order kept. *)
Inductive sublist {A : Type} : list A -> list A -> Prop :=
| sublist_nil : sublist [] []
| sublist_skip x l1 l2 : sublist l1 l2 -> sublist l1 (x :: l2)
| sublist_keep x l1 l2 : sublist l1 l2 -> sublist (x :: l1) (x :: l2).

(** The resolved status port is usable: it is a number other than 0. *)
Definition usable_port (o : outcome (option Z)) : option Z :=
  match o with
  | Ret (Some 0) => None
  | Ret (Some p) => Some p
  | _ => None
  end.

(** The scripted world when the container runtime cannot be reached. *)
Definition docker_down : state script :=
  {| world := {| answers := []; runtime_answer := Raise DockerException |};
     trace := [] |}.

(** [data.get('nodes', [])] on the JSON object of a listing. *)
Definition listed (data : pydict) : pyval :=
  match lookup "nodes" data with
  | Some v => v
  | None => PList []
  end.

(** A cycle seen as the batches it syncs, one after the other. *)
Fixpoint run_batches {W} `{World W} (self : NodeSync.t)
         (batches : list (list pyval)) : M W unit :=
  match batches with
  | [] => ret tt
  | batch :: rest => NodeSync._sync_batch self batch;; run_batches self rest
  end.

(** The update that the sync sends for a registered node. *)
Definition update_request (self : NodeSync.t) (id payload : pyval) : request :=
  {| meth := PATCH;
     url := [Lit (NodeSync.dashboard_url self); Lit "/storj/nodes/"; Fmt id];
     bearer := Some (NodeSync.api_token self);
     body := Some payload;
     timeout := None |}.

(** What a status probe makes of the outcome of its request: the parsed
    body of a 200, Python's [None] otherwise. *)
Definition probe_result (o : outcome response) : pyval :=
  match o with
  | Ret r =>
      if status r =? 200 then
        match json r with
        | Ret doc => doc
        | Raise _ => PNone
        end
      else PNone
  | Raise _ => PNone
  end.

(** The outcome of a PATCH that [_update_node] takes for a success. *)
Definition accepted (o : outcome response) : bool :=
  match o with
  | Ret r => (status r =? 200) || (status r =? 204)
  | Raise _ => false
  end.

(** The id of a record, when it is a string. *)
Definition string_id (n : node) : string :=
  match node_id n with
  | PStr s => s
  | _ => ""
  end.

(** Strings in the order in which they are first seen. *)
Definition see (acc : list string) (x : string) : list string :=
  if existsb (String.eqb x) acc then acc else (acc ++ [x])%list.

Definition first_seen (ids : list string) : list string :=
  fold_left see ids [].

(** Dicts whose keys are the string ids of their values. *)
Definition keyed (d : list (pyval * node)) : Prop :=
  Forall (fun kn => fst kn = PStr (string_id (snd kn))) d.

(** A service whose batch size is 0. *)
Definition sync_by_zero : NodeSync.t :=
  {| NodeSync.api_token := "sk_live_0123456789";
     NodeSync.dashboard_url := "https://storj.cloud/api";
     NodeSync.batch_size := 0 |}.

(** The listing of the five registered nodes. *)
Definition listing_of_five : pyval :=
  PDict [("nodes", PList (map PDict five_nodes))].

(** [section.get(key, old)] on a section that is a mapping. *)
Definition field (a : pydict) (key : string) (old : pyval) : pyval :=
  match lookup key a with
  | Some v => v
  | None => old
  end.

(** The four sections of a configuration file, laid over the values
    that the configuration has. *)
Definition api_of (a : pydict) (old : ApiConfig.t) : ApiConfig.t :=
  {| ApiConfig.token := field a "token" (ApiConfig.token old);
     ApiConfig.endpoint := field a "endpoint" (ApiConfig.endpoint old);
     ApiConfig.timeout := field a "timeout" (ApiConfig.timeout old) |}.

Definition discovery_of (a : pydict) (old : DiscoveryConfig.t)
  : DiscoveryConfig.t :=
  {| DiscoveryConfig.from_docker :=
       field a "from_docker" (DiscoveryConfig.from_docker old);
     DiscoveryConfig.docker_host :=
       field a "docker_host" (DiscoveryConfig.docker_host old);
     DiscoveryConfig.common_ports :=
       field a "common_ports" (DiscoveryConfig.common_ports old);
     DiscoveryConfig.port_range :=
       field a "port_range" (DiscoveryConfig.port_range old);
     DiscoveryConfig.timeout := field a "timeout" (DiscoveryConfig.timeout old);
     DiscoveryConfig.retry_attempts :=
       field a "retry_attempts" (DiscoveryConfig.retry_attempts old) |}.

Definition sync_of (a : pydict) (old : SyncConfig.t) : SyncConfig.t :=
  {| SyncConfig.interval := field a "interval" (SyncConfig.interval old);
     SyncConfig.batch_size := field a "batch_size" (SyncConfig.batch_size old);
     SyncConfig.retry_failed :=
       field a "retry_failed" (SyncConfig.retry_failed old) |}.

Definition logging_of (a : pydict) (old : LoggingConfig.t) : LoggingConfig.t :=
  {| LoggingConfig.level := field a "level" (LoggingConfig.level old);
     LoggingConfig.file := field a "file" (LoggingConfig.file old) |}.

(** A section of the file [d] laid over [old]: nothing changes when the
    section is missing or is not a mapping. *)
Definition section_of {T} (d : pydict) (key : string) (lay : pydict -> T -> T)
           (old : T) : T :=
  match lookup key d with
  | Some (PDict a) => lay a old
  | _ => old
  end.

(** The section [key] of the file [d] does not stop the loading: it is
    missing, or it is a mapping. *)
Definition loadable (d : pydict) (key : string) : bool :=
  match lookup key d with
  | None | Some (PDict _) => true
  | Some _ => false
  end.

(** The search of the default locations: the first that exists, if
    any, or the exception of the test that raises. *)
Fixpoint first_existing (fs : Config.files) (paths : list Config.location)
  : outcome (option Config.location) :=
  match paths with
  | [] => Ret None
  | path :: rest =>
      match Config.exists_ fs path with
      | Ret true => Ret (Some path)
      | Ret false => first_existing fs rest
      | Raise e => Raise e
      end
  end.

(** The configuration file that [load] reads, if any: the given path
    when it is not empty and exists, otherwise the first default
    location that exists; or the exception that the search raises. *)
Definition config_file (fs : Config.files) (config_path : option string)
  : outcome (option Config.location) :=
  let first_default :=
    match Config.home fs with
    | Ret _ => first_existing fs [Config.Home; Config.Etc; Config.Local]
    | Raise e => Raise e
    end in
  match config_path with
  | Some p =>
      if String.eqb p "" then first_default
      else match Config.exists_ fs (Config.Given p) with
           | Ret true => Ret (Some (Config.Given p))
           | Ret false => first_default
           | Raise e => Raise e
           end
  | None => first_default
  end.

(** The configuration after the file stage of [load], given the file
    that is read. *)
Definition from_file (fs : Config.files) (file : option Config.location)
  : Config.t :=
  match file with
  | Some path =>
      snd (Config._load_from_file (Config.parsed fs path) Config.default)
  | None => Config.default
  end.

(** A file system without configuration files. *)
Definition no_files : Config.files :=
  {| Config.home := Ret tt;
     Config.exists_ := fun _ => Ret false;
     Config.parsed := fun _ => Raise ValueError |}.

(** A file system in which the given path cannot be examined. *)
Definition no_access : Config.files :=
  {| Config.home := Ret tt;
     Config.exists_ := fun path =>
       match path with
       | Config.Given _ => Raise OSError
       | _ => Ret false
       end;
     Config.parsed := fun _ => Raise OSError |}.

(** An environment given by its variables. *)
Fixpoint environ (vars : list (string * string)) (name : string)
  : option string :=
  match vars with
  | [] => None
  | (k, v) :: rest => if String.eqb name k then Some v else environ rest name
  end.

(** A configuration file whose [discovery] section is a list. *)
Definition file_with_bad_discovery : pyval :=
  PDict [("sync", PDict [("batch_size", PInt 2)]);
         ("discovery", PList [PStr "docker"]);
         ("api", PDict [("token", PStr "sk_file_0123")])].

(** A file system with that file in the home directory and another one
    in [/etc]. *)
Definition home_and_etc : Config.files :=
  {| Config.home := Ret tt;
     Config.exists_ := fun path =>
       match path with
       | Config.Home | Config.Etc => Ret true
       | _ => Ret false
       end;
     Config.parsed := fun path =>
       match path with
       | Config.Home => Ret file_with_bad_discovery
       | Config.Etc => Ret (PDict [("api", PDict [("token", PStr "sk_etc")])])
       | _ => Raise ValueError
       end |}.

Definition environ0 : string -> option string :=
  environ [("STORJCLOUD_API_TOKEN", "");
           ("STORJCLOUD_API_TIMEOUT", "soon");
           ("STORJCLOUD_FROM_DOCKER", "Yes")].

(** The container port of an entry of the port table, when the entry is
    a published tcp port: [int(port_spec.split('/')[0])]. *)
Definition published_tcp (item : string * pyval) : outcome (option Z) :=
  let (port_spec, mapping) := item in
  if truthy mapping && endswith "/tcp" port_spec then
    let! head := first_item (split "/" port_spec) in
    let! p := int_of_string head in
    Ret (Some p)
  else Ret None.

(** An entry that the last loop of [_get_dashboard_port] passes over: it
    is not a published tcp port, or its container port is outside
    14000..15000. *)
Definition outside_range (item : string * pyval) : bool :=
  match published_tcp item with
  | Ret None => true
  | Ret (Some p) => negb ((14000 <=? p) && (p <=? 15000))
  | Raise _ => false
  end.

(** An entry of the process list that is a JSON object with another
    name than [service_name]. *)
Definition other_process (service_name : string) (process : pyval) : bool :=
  match process with
  | PDict p =>
      negb (PM2Manager.py_eq_str (field p "name" PNone) service_name)
  | _ => false
  end.

(** The [pm2_env] and [monit] of a process entry are mappings, when it
    has them. *)
Definition plain_process (p : pydict) : bool :=
  match lookup "pm2_env" p, lookup "monit" p with
  | (None | Some (PDict _)), (None | Some (PDict _)) => true
  | _, _ => false
  end.

(** [section.get(key)] of [process.get(section, {})]. *)
Definition nested (p : pydict) (section key : string) : pyval :=
  match lookup section p with
  | Some (PDict e) => field e key PNone
  | _ => PNone
  end.

(** The answer of [pm2 jlist] with the return code 0. *)
Definition listed_processes (processes : list pyval)
  : outcome PM2Manager.completed :=
  Ret {| PM2Manager.returncode := 0;
         PM2Manager.stdout := Ret (PList processes) |}.

(** The scanner that [handle_discover] builds from the command line. *)
Definition scanner_of (a : Client.args) : PortScanner.t :=
  {| PortScanner.host :=
       match Client.server a with
       | Some ip => if String.eqb ip "" then "127.0.0.1" else ip
       | None => "127.0.0.1"
       end;
     PortScanner.timeout_ := Client.timeout_arg a |}.

(** The state after the first line of [handle_discover]. *)
Definition started {W} (s : state W) : state W :=
  {| world := world s;
     trace := Log INFO "Starting node discovery..." [] :: trace s |}.

(** The payloads of the POST requests of a list of requests. *)
Fixpoint post_bodies (rs : list request) : list pyval :=
  match rs with
  | [] => []
  | {| meth := POST; body := Some b |} :: rest => b :: post_bodies rest
  | _ :: rest => post_bodies rest
  end.

(** A [discover] command line that scans two ports and prints JSON. *)
Definition scan_two_ports : Client.args :=
  {| Client.from_docker := false;
     Client.server := None;
     Client.ports := Some [14001; 14002];
     Client.timeout_arg := 5;
     Client.json_out := true |}.

(* ================================================================== *)
(** ** Properties of the health classifiers *)

Lemma has_last_contact_get doc :
  has_last_contact doc = true ->
  exists d v, doc = PDict d /\
              py_get doc "lastContactSuccess" PNone = Ret v /\ truthy v = true.
Proof.
  destruct doc as [| | | | | |d]; try discriminate.
  unfold has_last_contact, py_get.
  destruct (lookup "lastContactSuccess" d) as [v|]; try discriminate.
  intros Hv. exists d, v. auto.
Qed.

(** The sync classifier answers [DISQUALIFIED] on every document with a
    successful last contact that marks the node as disqualified. *)
Lemma NodeSync_disqualified doc :
  has_last_contact doc = true ->
  marked_disqualified doc = true ->
  NodeSync._determine_status doc = Ret "DISQUALIFIED".
Proof.
  intros Hl Hd.
  destruct (has_last_contact_get doc Hl) as (d & v & -> & Hg & Hv).
  unfold NodeSync._determine_status. rewrite Hg. simpl. rewrite Hv. simpl.
  simpl in Hd.
  destruct (lookup "disqualified" d) as [w|]; try discriminate.
  rewrite Hd. reflexivity.
Qed.

(** Neither discovery classifier ever answers [DISQUALIFIED]. *)
Lemma DockerDiscovery_never_disqualified doc :
  DockerDiscovery._determine_status doc <> Ret "DISQUALIFIED".
Proof.
  unfold DockerDiscovery._determine_status, obind.
  repeat match goal with
         | |- context [match ?x with _ => _ end] => destruct x
         end; discriminate.
Qed.

Lemma PortScanner_never_disqualified doc :
  PortScanner._determine_status doc <> Ret "DISQUALIFIED".
Proof. apply DockerDiscovery_never_disqualified. Qed.

(** In the sync classifier the last-contact check comes first: without a
    successful last contact a disqualified node is [OFFLINE]. *)
Lemma NodeSync_offline_first d :
  has_last_contact (PDict d) = false ->
  NodeSync._determine_status (PDict d) = Ret "OFFLINE".
Proof.
  unfold has_last_contact, NodeSync._determine_status. simpl.
  destruct (lookup "lastContactSuccess" d) as [v|]; simpl.
  - now intros ->.
  - reflexivity.
Qed.

(** C1.  A status document with a successful last contact that marks the
    node as disqualified must be classified [DISQUALIFIED] by every
    classifier.  The sync classifier does so; on the document
    [doc_disqualified] both discovery classifiers answer [ONLINE]: they
    have no disqualification check at all. *)
Theorem C1_discovery_ignores_disqualified :
  has_last_contact doc_disqualified = true /\
  marked_disqualified doc_disqualified = true /\
  NodeSync._determine_status doc_disqualified = Ret "DISQUALIFIED" /\
  DockerDiscovery._determine_status doc_disqualified = Ret "ONLINE" /\
  PortScanner._determine_status doc_disqualified = Ret "ONLINE".
Proof. repeat split; reflexivity. Qed.

(** C7.  With a successful last contact, no disqualification mark, a
    suspension score of 0.1 and an audit score of 0.5, both the
    suspension test [> 0] and the audit test [< 0.95] succeed, and every
    classifier answers [SUSPENDED]: the suspension check comes before
    the audit check. *)
Theorem C7_suspension_before_audit (doc : pyval) :
  has_last_contact doc = true ->
  marked_disqualified doc = false ->
  has_scores doc (PFloat score_0_1) (PFloat score_0_5) ->
  (py_gt (PFloat score_0_1) lit_0 = Ret true /\
   py_lt (PFloat score_0_5) lit_0_95 = Ret true) /\
  NodeSync._determine_status doc = Ret "SUSPENDED" /\
  DockerDiscovery._determine_status doc = Ret "SUSPENDED" /\
  PortScanner._determine_status doc = Ret "SUSPENDED".
Proof.
  intros Hl Hd (d & rep & -> & Hrep & Hs & Ha).
  split; [split; reflexivity|].
  simpl in Hl, Hd.
  unfold NodeSync._determine_status, DockerDiscovery._determine_status,
    PortScanner._determine_status.
  simpl. rewrite Hrep. simpl. rewrite Hs, Ha.
  destruct (lookup "lastContactSuccess" d) as [v|]; try discriminate.
  rewrite Hl. simpl.
  destruct (lookup "disqualified" d) as [w|].
  - rewrite Hd. repeat split; reflexivity.
  - repeat split; reflexivity.
Qed.

Lemma C7_suspension_before_audit_witness :
  (py_gt (PFloat score_0_1) lit_0 = Ret true /\
   py_lt (PFloat score_0_5) lit_0_95 = Ret true) /\
  NodeSync._determine_status doc_suspended_and_low_audit = Ret "SUSPENDED" /\
  DockerDiscovery._determine_status doc_suspended_and_low_audit = Ret "SUSPENDED" /\
  PortScanner._determine_status doc_suspended_and_low_audit = Ret "SUSPENDED".
Proof.
  apply (C7_suspension_before_audit doc_suspended_and_low_audit).
  - reflexivity.
  - reflexivity.
  - eexists _, _. repeat split; reflexivity.
Defined.

(** C10.  The two discovery classifiers agree on every status document:
    same health string, or the same exception. *)
Theorem C10_discovery_classifiers_agree (doc : pyval) :
  DockerDiscovery._determine_status doc = PortScanner._determine_status doc.
Proof. reflexivity. Qed.

(* ================================================================== *)
(** ** Running the monad *)

Section Inversion.
Context {W : Type} `{World W}.

Lemma ret_inv {A} (a : A) (s : state W) o s' :
  ret a s = (o, s') -> o = Ret a /\ s' = s.
Proof. unfold ret. intros E. now inversion E. Qed.

Lemma lift_inv {A} (x : outcome A) (s : state W) o s' :
  lift x s = (o, s') -> x = o /\ s' = s.
Proof. unfold lift. intros E. now inversion E. Qed.

Lemma emit_inv ev (s : state W) o s' :
  emit ev s = (o, s') ->
  o = Ret tt /\ s' = {| world := world s; trace := ev :: trace s |}.
Proof. unfold emit. intros E. now inversion E. Qed.

Lemma log_inv lv fmt args (s : state W) o s' :
  log lv fmt args s = (o, s') ->
  o = Ret tt /\
  s' = {| world := world s; trace := Log lv fmt args :: trace s |}.
Proof. apply emit_inv. Qed.

Lemma clock_inv (s : state W) o s' :
  clock s = (o, s') -> o = Ret (utcnow (world s)) /\ s' = s.
Proof. unfold clock. intros E. now inversion E. Qed.

Lemma http_inv r (s : state W) o s' :
  http r s = (o, s') ->
  exists w, send r (world s) = (o, w) /\
            s' = {| world := w; trace := Sent r :: trace s |}.
Proof.
  unfold http. destruct (send r (world s)) as [o1 w]. intros E.
  inversion E; subst. eauto.
Qed.

Lemma bind_inv {A B} (m : M W A) (k : A -> M W B) s o s' :
  bind m k s = (o, s') ->
  (exists a s1, m s = (Ret a, s1) /\ k a s1 = (o, s')) \/
  (exists e, m s = (Raise e, s') /\ o = Raise e).
Proof.
  unfold bind. destruct (m s) as [[a|e] s1]; intros E.
  - left. eauto.
  - right. inversion E; subst. eauto.
Qed.

Lemma bind_ret_inv {A B} (m : M W A) (k : A -> M W B) s b s' :
  bind m k s = (Ret b, s') ->
  exists a s1, m s = (Ret a, s1) /\ k a s1 = (Ret b, s').
Proof.
  intros E. apply bind_inv in E.
  destruct E as [E | (e & _ & E)]; [exact E | discriminate].
Qed.

Lemma try_except_inv {A} (m : M W A) (h : exn -> M W A) s o s' :
  try_except m h s = (o, s') ->
  (exists a, m s = (Ret a, s') /\ o = Ret a) \/
  (exists e s1, m s = (Raise e, s1) /\ h e s1 = (o, s')).
Proof.
  unfold try_except. destruct (m s) as [[a|e] s1]; intros E.
  - left. inversion E; subst. eauto.
  - right. eauto.
Qed.

(** Running a computation whose steps are known. *)
Lemma bind_run {A B} (m : M W A) (k : A -> M W B) s a s1 :
  m s = (Ret a, s1) -> bind m k s = k a s1.
Proof. unfold bind. now intros ->. Qed.

Lemma bind_raise {A B} (m : M W A) (k : A -> M W B) s e s1 :
  m s = (Raise e, s1) -> bind m k s = (Raise e, s1).
Proof. unfold bind. now intros ->. Qed.

End Inversion.

(** One step of inversion on a hypothesis that runs monadic code. *)
Ltac inv_step :=
  match goal with
  | H : ret _ _ = _ |- _ => apply ret_inv in H; destruct H; subst
  | H : lift _ _ = _ |- _ => apply lift_inv in H; destruct H; subst
  | H : log _ _ _ _ = _ |- _ => apply log_inv in H; destruct H; subst
  | H : emit _ _ = _ |- _ => apply emit_inv in H; destruct H; subst
  | H : clock _ = _ |- _ => apply clock_inv in H; destruct H; subst
  | H : http _ _ = _ |- _ => apply http_inv in H; destruct H as (? & H & ?); subst
  | H : bind _ _ _ = (Ret _, _) |- _ =>
      apply bind_ret_inv in H; destruct H as (? & ? & ? & H)
  | H : bind _ _ _ = _ |- _ =>
      apply bind_inv in H; destruct H as [(? & ? & ? & H) | (? & H & ?)]
  | H : try_except _ _ _ = _ |- _ =>
      apply try_except_inv in H; destruct H as [(? & H & ?) | (? & ? & ? & H)]
  | H : (if ?c then _ else _) _ = _ |- _ => destruct c eqn:?
  | H : (match ?x with _ => _ end) _ = _ |- _ => destruct x eqn:?
  | H : Ret _ = Ret _ |- _ => inversion H; subst; clear H
  | H : Ret _ = Raise _ |- _ => discriminate H
  | H : Raise _ = Ret _ |- _ => discriminate H
  | H : (_, _) = (_, _) |- _ => inversion H; subst; clear H
  end.

Ltac inv_run := repeat inv_step.

Ltac step H :=
  match type of H with
  | context [match ?x with _ => _ end] => destruct x eqn:?; try discriminate H
  | context [if ?x then _ else _] => destruct x eqn:?; try discriminate H
  end.

(* ================================================================== *)
(** ** Properties of the node records *)

Lemma py_add_int (x y : pyval) (u a : Z) (t : pyval) :
  py_add x y = Ret t -> x = PInt u -> y = PInt a -> t = PInt (u + a).
Proof. intros H -> ->. unfold py_add in H. simpl in H. now inversion H. Qed.

Lemma docker_record_disk c attrs name image port doc n :
  DockerDiscovery.node_record c attrs name image port doc = Ret n ->
  disk_derived_from doc n.
Proof.
  unfold DockerDiscovery.node_record, obind. intros H.
  repeat step H. inversion H; subst; clear H. unfold disk_derived_from; simpl.
  repeat split; auto. intros u v. now apply py_add_int.
Qed.

Lemma scan_record_disk self port doc n :
  PortScanner.node_record self port doc = Ret n ->
  disk_derived_from doc n.
Proof.
  unfold PortScanner.node_record, obind. intros H.
  repeat step H. inversion H; subst; clear H. unfold disk_derived_from; simpl.
  repeat split; auto. intros u v. now apply py_add_int.
Qed.

(** What [_check_port] returns is the record built from the document
    that the port answered with. *)
Lemma check_port_inv {W} `{World W} self port (s s' : state W) n :
  PortScanner._check_port self port s = (Ret (Some n), s') ->
  exists req r w doc,
    send req (world s) = (Ret r, w) /\ json r = Ret doc /\
    PortScanner.node_record self port doc = Ret n.
Proof.
  unfold PortScanner._check_port. intros E.
  inv_run; try discriminate; eauto 8.
Qed.

Lemma docker_fetch_inv {W} `{World W} host port (s s' : state W) doc :
  DockerDiscovery._fetch_node_data host port s = (Ret doc, s') ->
  truthy doc = true ->
  exists req r w, send req (world s) = (Ret r, w) /\ json r = Ret doc.
Proof.
  unfold DockerDiscovery._fetch_node_data. intros E T.
  inv_run; try discriminate; eauto 8.
Qed.

(** Likewise for [_extract_node_info]. *)
Lemma extract_node_info_inv {W} `{World W} c (s s' : state W) n :
  DockerDiscovery._extract_node_info c s = (Ret (Some n), s') ->
  exists req r w doc attrs name image port,
    send req (world s) = (Ret r, w) /\ json r = Ret doc /\
    DockerDiscovery.node_record c attrs name image port doc = Ret n.
Proof.
  unfold DockerDiscovery._extract_node_info. intros E.
  inv_run; try discriminate;
    match goal with
    | F : DockerDiscovery._fetch_node_data _ _ _ = _, T : negb (truthy _) = false |- _ =>
        apply negb_false_iff in T;
        destruct (docker_fetch_inv _ _ _ _ _ F T) as (req & r & w & Es & Ej)
    end; eauto 12.
Qed.

Lemma disk_reading_absent d k :
  lookup "diskSpace" d = None \/
  (exists ds, lookup "diskSpace" d = Some (PDict ds) /\ lookup k ds = None) ->
  disk_reading (PDict d) k = Ret (PInt 0).
Proof.
  unfold disk_reading. simpl.
  intros [-> | (ds & -> & L)]; simpl; [reflexivity|now rewrite L].
Qed.

Lemma disk_total_determined doc doc' n n' :
  disk_derived_from doc n -> disk_derived_from doc' n' ->
  disk_reading doc "used" = disk_reading doc' "used" ->
  disk_reading doc "available" = disk_reading doc' "available" ->
  total (disk_space n) = total (disk_space n').
Proof.
  intros (U & A & T & _) (U' & A' & T' & _) EU EA.
  assert (used (disk_space n) = used (disk_space n')) as Hu by congruence.
  assert (available (disk_space n) = available (disk_space n')) as Ha
      by congruence.
  rewrite Hu, Ha in T. congruence.
Qed.

(** C9.  Whenever a discoverer builds a node record, it builds it from
    the status document [doc] that the probed port answered with, and
    the disk field of the record is derived from it: [used] and
    [available] are the document's readings, which are 0 when absent,
    and [total] is [used + available], the integer sum when both are
    integers.  No other field of the document enters [total]: two
    documents with the same two readings give the same [total]. *)
Theorem C9_disk_total_is_used_plus_available {W} `{World W} :
  (forall c (s s' : state W) n,
      DockerDiscovery._extract_node_info c s = (Ret (Some n), s') ->
      exists req r w doc,
        send req (world s) = (Ret r, w) /\ json r = Ret doc /\
        disk_derived_from doc n) /\
  (forall self port (s s' : state W) n,
      PortScanner._check_port self port s = (Ret (Some n), s') ->
      exists req r w doc,
        send req (world s) = (Ret r, w) /\ json r = Ret doc /\
        disk_derived_from doc n) /\
  (forall d k,
      lookup "diskSpace" d = None \/
      (exists ds, lookup "diskSpace" d = Some (PDict ds) /\ lookup k ds = None) ->
      disk_reading (PDict d) k = Ret (PInt 0)) /\
  (forall doc doc' n n',
      disk_derived_from doc n -> disk_derived_from doc' n' ->
      disk_reading doc "used" = disk_reading doc' "used" ->
      disk_reading doc "available" = disk_reading doc' "available" ->
      total (disk_space n) = total (disk_space n')).
Proof.
  split; [|split; [|split]].
  - intros c s s' n E.
    destruct (extract_node_info_inv _ _ _ _ E)
      as (req & r & w & doc & attrs & nm & img & p & Es & Ej & R).
    exists req, r, w, doc. repeat split; auto.
    all: eapply docker_record_disk; eauto.
  - intros self port s s' n E.
    destruct (check_port_inv _ _ _ _ _ E) as (req & r & w & doc & Es & Ej & R).
    exists req, r, w, doc. repeat split; auto.
    all: eapply scan_record_disk; eauto.
  - exact disk_reading_absent.
  - exact disk_total_determined.
Qed.

Lemma C9_disk_total_is_used_plus_available_witness :
  (exists n s',
      DockerDiscovery._extract_node_info container1
        (start [answer 200 doc_with_total]) = (Ret (Some n), s') /\
      total (disk_space n) = PInt 1000 /\
      exists req r w doc,
        send req (world (start [answer 200 doc_with_total])) = (Ret r, w) /\
        json r = Ret doc /\ disk_derived_from doc n) /\
  (exists n s',
      PortScanner._check_port scanner 14002
        (start [answer 200 doc_with_total]) = (Ret (Some n), s') /\
      total (disk_space n) = PInt 1000 /\
      exists req r w doc,
        send req (world (start [answer 200 doc_with_total])) = (Ret r, w) /\
        json r = Ret doc /\ disk_derived_from doc n).
Proof.
  split.
  - eexists _, _. split; [vm_compute; reflexivity|]. split; [reflexivity|].
    eapply (proj1 C9_disk_total_is_used_plus_available container1
                  (start [answer 200 doc_with_total])).
    vm_compute; reflexivity.
  - eexists _, _. split; [vm_compute; reflexivity|]. split; [reflexivity|].
    eapply (proj1 (proj2 C9_disk_total_is_used_plus_available) scanner 14002
                  (start [answer 200 doc_with_total])).
    vm_compute; reflexivity.
Defined.

(* ================================================================== *)
(** ** Properties of the port resolution *)

Lemma env_port_passed_over prefix pre rest :
  Forall (fun v => passed_over prefix v = true) pre ->
  DockerDiscovery.env_port prefix (pre ++ rest)
  = DockerDiscovery.env_port prefix rest.
Proof.
  induction 1 as [|v pre Hv _ IH]; [reflexivity|].
  destruct v; try discriminate. simpl in *.
  destruct (startswith prefix s); simpl; [|exact IH].
  destruct (split1 "=" s) as [|x [|address l]]; try discriminate.
  simpl. apply negb_true_iff in Hv. rewrite Hv. exact IH.
Qed.

Lemma env_port_none prefix vars :
  Forall (fun v => passed_over prefix v = true) vars ->
  DockerDiscovery.env_port prefix vars = Ret None.
Proof.
  intros F. rewrite <- (app_nil_r vars). now rewrite env_port_passed_over.
Qed.

Lemma mapped_true ports k m0 rest :
  lookup k ports = Some (PList (m0 :: rest)) ->
  DockerDiscovery.mapped (PDict ports) k = Ret true.
Proof. intros L. unfold DockerDiscovery.mapped. simpl. now rewrite L. Qed.

Lemma mapped_false ports k :
  no_mapping ports k -> DockerDiscovery.mapped (PDict ports) k = Ret false.
Proof.
  unfold no_mapping, DockerDiscovery.mapped. simpl.
  destruct (lookup k ports); simpl; [now intros ->|reflexivity].
Qed.

(** C8.  The status port of a container is resolved in three steps.
    (a) When the port table maps 14002/tcp, the host port of that mapping
    is the answer, whatever the environment declares.  (b) The
    [CONSOLE_ADDRESS] variable decides only when there is no such
    mapping, and then whatever other ports are mapped.  (c) The ports in
    the range 14000-15000 are looked at only when there is no such
    mapping and no entry of the environment declares a port. *)
Theorem C8_status_port_resolution_order :
  (forall attrs ports m0 rest hp,
      DockerDiscovery.get_ports attrs = Ret (PDict ports) ->
      lookup "14002/tcp" ports = Some (PList (PDict m0 :: rest)) ->
      lookup "HostPort" m0 = Some hp ->
      DockerDiscovery._get_dashboard_port attrs
      = (let! n := py_int hp in Ret (Some n))) /\
  (forall attrs ports pre addr post,
      DockerDiscovery.get_ports attrs = Ret (PDict ports) ->
      no_mapping ports "14002/tcp" ->
      DockerDiscovery.get_env attrs
      = Ret (PList (pre ++ PStr ("CONSOLE_ADDRESS=" ++ addr) :: post)) ->
      Forall (fun v => passed_over "CONSOLE_ADDRESS=" v = true) pre ->
      contains ":" addr = true ->
      DockerDiscovery._get_dashboard_port attrs
      = (let! p := last_item (split ":" addr) in
         let! n := int_of_string p in Ret (Some n))) /\
  (forall attrs ports vars,
      DockerDiscovery.get_ports attrs = Ret (PDict ports) ->
      no_mapping ports "14002/tcp" ->
      DockerDiscovery.get_env attrs = Ret (PList vars) ->
      Forall (fun v => passed_over "CONSOLE_ADDRESS=" v = true) vars ->
      DockerDiscovery._get_dashboard_port attrs
      = DockerDiscovery.range_port ports).
Proof.
  repeat split.
  - intros attrs ports m0 rest hp P L HP.
    unfold DockerDiscovery._get_dashboard_port. rewrite P. simpl.
    rewrite (mapped_true _ _ _ _ L). simpl.
    unfold DockerDiscovery.host_port_of. simpl. rewrite L. simpl.
    rewrite HP. reflexivity.
  - intros attrs ports pre addr post P N E F C.
    unfold DockerDiscovery._get_dashboard_port. rewrite P. simpl.
    rewrite (mapped_false _ _ N). simpl. rewrite E. simpl.
    rewrite env_port_passed_over by assumption.
    simpl. rewrite C. unfold obind.
    destruct (last_item (split ":" addr)); [|reflexivity].
    destruct (int_of_string a); reflexivity.
  - intros attrs ports vars P N E F.
    unfold DockerDiscovery._get_dashboard_port. rewrite P. simpl.
    rewrite (mapped_false _ _ N). simpl. rewrite E. simpl.
    rewrite env_port_none by assumption. reflexivity.
Qed.

Lemma C8_status_port_resolution_order_witness :
  DockerDiscovery._get_dashboard_port attrs_mapped_and_env = Ret (Some 14010) /\
  DockerDiscovery._get_dashboard_port attrs_env_and_range = Ret (Some 15555) /\
  DockerDiscovery._get_dashboard_port attrs_range_only = Ret (Some 14010).
Proof.
  destruct C8_status_port_resolution_order as (Ha & Hb & Hc).
  split; [|split].
  - apply (Ha attrs_mapped_and_env
              [("14002/tcp", PList [PDict [("HostIp", PStr "0.0.0.0");
                                           ("HostPort", PStr "14010")]]);
               ("28967/tcp", PNone)]
              [("HostIp", PStr "0.0.0.0"); ("HostPort", PStr "14010")]
              [] (PStr "14010")); reflexivity.
  - apply (Hb attrs_env_and_range
              [("14002/tcp", PNone);
               ("14005/tcp", PList [PDict [("HostIp", PStr "0.0.0.0");
                                           ("HostPort", PStr "14010")]])]
              [PStr "PATH=/usr/local/bin"] "0.0.0.0:15555" []).
    + reflexivity.
    + reflexivity.
    + reflexivity.
    + repeat constructor.
    + reflexivity.
  - rewrite (Hc attrs_range_only
              [("14002/tcp", PNone);
               ("14005/tcp", PList [PDict [("HostIp", PStr "0.0.0.0");
                                           ("HostPort", PStr "14010")]])]
              [PStr "PATH=/usr/local/bin"]).
    + reflexivity.
    + reflexivity.
    + reflexivity.
    + reflexivity.
    + repeat constructor.
Defined.

(* ================================================================== *)
(** ** Properties of the aggregation *)

Section Dedup.

Import Client.

Lemma key_is_inj s k : key_is s k = true -> k = PStr s.
Proof.
  destruct k; simpl; try discriminate.
  intros E. apply String.eqb_eq in E. now subst.
Qed.

Lemma key_eqb_key_is k' k s :
  key_eqb k' k = true -> key_is s k' = key_is s k.
Proof.
  destruct k' as [| | |[]| | |], k as [| | |[]| | |]; simpl;
    try discriminate; try reflexivity; try (destruct b; discriminate).
  intros E. apply String.eqb_eq in E. now subst.
Qed.

Lemma key_eqb_same s : key_eqb (PStr s) (PStr s) = true.
Proof. simpl. apply String.eqb_refl. Qed.

(** The records with id [s] after [unique_nodes[node['node_id']] = n]. *)
Lemma setitem_filter n d s :
  well_formed d ->
  filter (has_id s) (map snd (setitem (node_id n) n d))
  = if has_id s n then [n] else filter (has_id s) (map snd d).
Proof.
  induction d as [|[k' n'] d IH]; intros WF.
  - simpl. destruct (has_id s n); reflexivity.
  - destruct WF as (Hk & Hu & WF). simpl.
    destruct (key_eqb k' (node_id n)) eqn:E; simpl.
    + pose proof (key_eqb_key_is _ _ s E) as Hs. fold (has_id s n) in Hs.
      rewrite <- Hk, Hs.
      destruct (has_id s n) eqn:Hn; [|reflexivity].
      rewrite Hu; [reflexivity|]. now rewrite Hs.
    + rewrite (IH WF).
      destruct (has_id s n') eqn:Hn'; [|reflexivity].
      destruct (has_id s n) eqn:Hn; [|reflexivity].
      rewrite <- Hk in Hn'. apply key_is_inj in Hn'. apply key_is_inj in Hn.
      rewrite Hn', Hn, key_eqb_same in E. discriminate.
Qed.

Lemma setitem_well_formed n d :
  well_formed d -> well_formed (setitem (node_id n) n d).
Proof.
  induction d as [|[k' n'] d IH]; intros WF.
  - simpl. repeat split; auto.
  - pose proof WF as (Hk & Hu & WF'). simpl.
    destruct (key_eqb k' (node_id n)) eqn:E; simpl.
    + repeat split; auto. intros s. apply (key_eqb_key_is _ _ s E).
    + repeat split; auto. intros s Hs.
      rewrite (setitem_filter n d s WF').
      destruct (has_id s n) eqn:Hn; [|now apply Hu].
      apply key_is_inj in Hs. apply key_is_inj in Hn.
      rewrite Hs, Hn, key_eqb_same in E. discriminate.
Qed.

(** The loop runs to its end on records with hashable ids. *)
Lemma fill_total l d :
  hashable_ids l -> exists d', fill l d = Ret d'.
Proof.
  intros F. revert d. induction F as [|n l Hn _ IH]; intros d; simpl.
  - eauto.
  - rewrite Hn. apply IH.
Qed.

(** The records with id [s] after the loop. *)
Lemma fill_filter l : forall d d' s,
  fill l d = Ret d' ->
  well_formed d ->
  filter (has_id s) (map snd d')
  = match last_with_id s l with
    | Some m => [m]
    | None => filter (has_id s) (map snd d)
    end.
Proof.
  induction l as [|n l IH]; intros d d' s E WF; simpl in *.
  - now inversion E.
  - destruct (hashable (node_id n)); [|discriminate].
    rewrite (IH _ _ s E (setitem_well_formed n d WF)).
    destruct (last_with_id s l); [reflexivity|].
    rewrite (setitem_filter n d s WF).
    destruct (has_id s n); reflexivity.
Qed.

Lemma last_with_id_split s l1 m l2 :
  has_id s m = true ->
  (forall x, In x l2 -> has_id s x = false) ->
  last_with_id s (l1 ++ m :: l2) = Some m.
Proof.
  intros Hm Hl2.
  assert (N : last_with_id s l2 = None).
  { induction l2 as [|x l2 IH]; simpl; [reflexivity|].
    rewrite IH by (intros; apply Hl2; now right).
    now rewrite (Hl2 x) by now left. }
  induction l1 as [|y l1 IH]; simpl.
  - now rewrite N, Hm.
  - now rewrite IH.
Qed.

Lemma last_with_id_some s l m :
  last_with_id s l = Some m -> In m l /\ has_id s m = true.
Proof.
  induction l as [|x l IH]; simpl; [discriminate|].
  destruct (last_with_id s l) as [m'|].
  - intros E; inversion E; subst. destruct (IH eq_refl). auto.
  - destruct (has_id s x) eqn:Hx; intros E; inversion E; subst. auto.
Qed.

Lemma last_with_id_in s l n :
  In n l -> has_id s n = true -> exists m, last_with_id s l = Some m.
Proof.
  induction l as [|x l IH]; simpl; [tauto|].
  intros [->|I] Hn.
  - destruct (last_with_id s l); [eauto|]. rewrite Hn. eauto.
  - destruct (IH I Hn) as (m & ->). eauto.
Qed.

(** The aggregation on records with hashable ids: it returns a list, in
    which the records with a given string id are the last input record
    with that id and no other. *)
Lemma remove_duplicates_spec l :
  hashable_ids l ->
  exists out,
    remove_duplicates l = Ret out /\
    forall s, filter (has_id s) out
              = match last_with_id s l with Some m => [m] | None => [] end.
Proof.
  intros F. destruct (fill_total l [] F) as (d' & E).
  exists (map snd d'). unfold remove_duplicates. rewrite E. split; [reflexivity|].
  intros s. now rewrite (fill_filter l [] d' s E I).
Qed.

End Dedup.

(** A document without a [nodeID] gives a record whose [node_id] is the
    empty string, with either discoverer. *)
Lemma node_id_defaults_to_empty :
  (forall self port d n,
      lookup "nodeID" d = None ->
      PortScanner.node_record self port (PDict d) = Ret n ->
      node_id n = PStr "") /\
  (forall c attrs name image port d n,
      lookup "nodeID" d = None ->
      DockerDiscovery.node_record c attrs name image port (PDict d) = Ret n ->
      node_id n = PStr "").
Proof.
  split.
  - intros self port d n L. unfold PortScanner.node_record. simpl. rewrite L.
    unfold obind. intros H. repeat step H; now inversion H.
  - intros c attrs name image port d n L.
    unfold DockerDiscovery.node_record. simpl. rewrite L.
    unfold obind. intros H. repeat step H; now inversion H.
Qed.

(** C2, as stated, fails.  The port scanner builds [record_without_id]
    from a document without [nodeID]; the aggregation of that one record
    returns it: a record with an empty [node_id] is in the output. *)
Lemma C2_empty_node_id_not_dropped :
  PortScanner.node_record scanner 14002 doc_without_id = Ret record_without_id /\
  node_id record_without_id = PStr "" /\
  Client.remove_duplicates [record_without_id] = Ret [record_without_id].
Proof. repeat split; reflexivity. Qed.

(** C2, amended.  Records with an empty [node_id] are not dropped: the
    empty string is a key like any other.  When the input holds records
    with an empty [node_id], the output holds exactly one of them, the
    last in the input.  Both discoverers give a record the empty
    [node_id] when the status document has no [nodeID]. *)
Theorem C2_empty_node_id_collapses_to_last (l : list node) :
  hashable_ids l ->
  exists out,
    Client.remove_duplicates l = Ret out /\
    (forall l1 m l2,
        l = (l1 ++ m :: l2)%list ->
        node_id m = PStr "" ->
        (forall x, In x l2 -> node_id x <> PStr "") ->
        filter (has_id "") out = [m]) /\
    (forall self port d n,
        lookup "nodeID" d = None ->
        PortScanner.node_record self port (PDict d) = Ret n ->
        node_id n = PStr "") /\
    (forall c attrs name image port d n,
        lookup "nodeID" d = None ->
        DockerDiscovery.node_record c attrs name image port (PDict d) = Ret n ->
        node_id n = PStr "").
Proof.
  intros F. destruct (remove_duplicates_spec l F) as (out & E & S).
  exists out. split; [exact E|]. split; [|exact node_id_defaults_to_empty].
  intros l1 m l2 -> Hm Hl2. rewrite S, last_with_id_split; auto.
  - unfold has_id. now rewrite Hm.
  - intros x Ix. specialize (Hl2 x Ix). unfold has_id.
    destruct (key_is "" (node_id x)) eqn:K; [|reflexivity].
    apply key_is_inj in K. contradiction.
Qed.

Lemma hashable_ids_sample :
  hashable_ids [record_without_id; record_a_docker; record_without_id].
Proof. repeat constructor. Defined.

Lemma C2_empty_node_id_collapses_to_last_witness :
  exists out,
    Client.remove_duplicates [record_without_id; record_a_docker; record_without_id]
    = Ret out /\
    filter (has_id "") out = [record_without_id].
Proof.
  destruct (C2_empty_node_id_collapses_to_last
              [record_without_id; record_a_docker; record_without_id]
              hashable_ids_sample) as (out & E & S & _).
  exists out. split; [exact E|].
  apply (S [record_without_id; record_a_docker] record_without_id []).
  - reflexivity.
  - reflexivity.
  - intros x [].
Defined.

(** Outside the hypothesis of the two theorems: a [node_id] that is a
    list, as a status document can report it, is unhashable, and the
    aggregation raises. *)
Remark remove_duplicates_unhashable :
  Client.remove_duplicates [record_a_docker; record_list_id] = Raise TypeError.
Proof. reflexivity. Qed.

(** C6.  On the concatenation of the discoverers' outputs, for a
    non-empty [node_id] [s] that occurs in it: the output holds exactly
    one record with that id, and it is the one that comes last in the
    concatenation, so that a record of the port scan overrides one from
    the containers.  Every [node_id] of the input is the [node_id] of a
    record of the output. *)
Theorem C6_last_write_wins (docker_nodes port_nodes : list node) :
  hashable_ids (docker_nodes ++ port_nodes) ->
  exists out,
    Client.remove_duplicates (docker_nodes ++ port_nodes) = Ret out /\
    (forall s l1 m l2,
        s <> "" ->
        (docker_nodes ++ port_nodes = l1 ++ m :: l2)%list ->
        node_id m = PStr s ->
        (forall x, In x l2 -> node_id x <> PStr s) ->
        filter (has_id s) out = [m]) /\
    (forall s m,
        last_with_id s port_nodes = Some m ->
        filter (has_id s) out = [m]) /\
    (forall n s,
        In n (docker_nodes ++ port_nodes) -> node_id n = PStr s ->
        exists m, In m out /\ node_id m = PStr s).
Proof.
  intros F. destruct (remove_duplicates_spec _ F) as (out & E & S).
  exists out. split; [exact E|]. split; [|split].
  - intros s l1 m l2 _ D Hm Hl2. rewrite S, D, last_with_id_split; auto.
    + unfold has_id. rewrite Hm. simpl. apply String.eqb_refl.
    + intros x Ix. specialize (Hl2 x Ix). unfold has_id.
      destruct (key_is s (node_id x)) eqn:K; [|reflexivity].
      apply key_is_inj in K. contradiction.
  - intros s m L. rewrite S.
    assert (A : last_with_id s (docker_nodes ++ port_nodes) = Some m).
    { clear -L. induction docker_nodes as [|x l IH]; simpl; [exact L|].
      now rewrite IH. }
    now rewrite A.
  - intros n s I Hn.
    assert (Hs : has_id s n = true).
    { unfold has_id. rewrite Hn. simpl. apply String.eqb_refl. }
    destruct (last_with_id_in s _ n I Hs) as (m & L).
    destruct (last_with_id_some _ _ _ L) as (_ & Hm).
    exists m. split.
    + assert (Im : In m (filter (has_id s) out)) by (rewrite S, L; now left).
      apply filter_In in Im. tauto.
    + now apply key_is_inj in Hm.
Qed.

Lemma hashable_ids_two_discoverers :
  hashable_ids ([record_a_docker] ++ [record_b_scan; record_a_scan]).
Proof. repeat constructor. Defined.

Lemma C6_last_write_wins_witness :
  exists out,
    Client.remove_duplicates ([record_a_docker] ++ [record_b_scan; record_a_scan])
    = Ret out /\
    filter (has_id "1GpR6f3nR5sHwq") out = [record_a_scan] /\
    exists m, In m out /\ node_id m = PStr "12tTzRcuYxA9Kk".
Proof.
  destruct (C6_last_write_wins [record_a_docker] [record_b_scan; record_a_scan]
              hashable_ids_two_discoverers) as (out & E & S & _ & R).
  exists out. split; [exact E|]. split.
  - apply (S "1GpR6f3nR5sHwq" [record_a_docker; record_b_scan] record_a_scan []).
    + discriminate.
    + reflexivity.
    + reflexivity.
    + intros x [].
  - apply (R record_b_scan); [simpl; auto|reflexivity].
Defined.

(* ================================================================== *)
(** ** Properties of the credential check *)

(** C4, as stated, fails.  On a 401 and on a 500 [test_token] raises
    nothing and returns the same value, [None]: the caller cannot tell
    an unauthorized credential from a transport error. *)
Lemma C4_failures_return_the_same_none :
  fst (AuthManager.test_token auth0 (start [answer_text 401 "Unauthorized"]))
  = Ret PNone /\
  fst (AuthManager.test_token auth0
         (start [answer_text 500 "Internal Server Error"]))
  = Ret PNone.
Proof. split; reflexivity. Qed.

(** C4, amended.  [test_token] sends one GET and never raises.  It
    returns the parsed account info when the status is 200 and the body
    parses to a JSON object, after logging the email of the account,
    and returns [None] in every other case: after logging the
    exception when the body of a 200 is not a JSON object or does not
    parse, after logging "Invalid API token" on a 401, after logging
    the status code (not the body) on any other status, and after
    logging the exception when the request raises.  A value other than
    [None] is returned only on a 200 and is the JSON object of its
    body; the failures all return [None] and differ in the log line
    only.  A caller that tests the result for truth takes a 200 whose
    body is the empty object for a failure. *)
Theorem C4_test_token_outcomes {W} `{World W}
        (self : AuthManager.t) (s : state W) o w :
  send (me_request self) (world s) = (o, w) ->
  let sent := Sent (me_request self) :: trace s in
  exists v s',
    AuthManager.test_token self s = (Ret v, s') /\
    world s' = w /\
    requests (trace s') = me_request self :: requests (trace s) /\
    (forall r d,
        o = Ret r -> status r = 200 -> json r = Ret (PDict d) ->
        v = PDict d /\
        trace s' = Log INFO "Token valid for user: %s"
                       [AVal (match lookup "email" d with
                              | Some email => email
                              | None => PStr "Unknown"
                              end)] :: sent) /\
    (forall r x,
        o = Ret r -> status r = 200 -> json r = Ret x ->
        (forall d, x <> PDict d) ->
        v = PNone /\
        trace s' = Log ERROR "Token validation error: %s"
                       [AExn AttributeError] :: sent) /\
    (forall r e,
        o = Ret r -> status r = 200 -> json r = Raise e ->
        v = PNone /\
        trace s' = Log ERROR "Token validation error: %s" [AExn e] :: sent) /\
    (forall r,
        o = Ret r -> status r = 401 ->
        v = PNone /\
        trace s' = Log ERROR "Invalid API token" [] :: sent) /\
    (forall r,
        o = Ret r -> status r <> 200 -> status r <> 401 ->
        v = PNone /\
        trace s' = Log ERROR "Token validation failed: HTTP %d"
                       [AVal (PInt (status r))] :: sent) /\
    (forall e,
        o = Raise e ->
        v = PNone /\
        trace s' = Log ERROR "Token validation error: %s" [AExn e] :: sent) /\
    (v <> PNone ->
     exists r d,
       o = Ret r /\ status r = 200 /\ json r = Ret (PDict d) /\ v = PDict d) /\
    (truthy v = true <->
     exists r d,
       o = Ret r /\ status r = 200 /\ json r = Ret (PDict d) /\ d <> []).
Proof.
  intros E sent. subst sent.
  unfold AuthManager.test_token. fold (me_request self).
  unfold try_except, bind, http, lift, log, emit, ret. rewrite E.
  destruct o as [r|e]; simpl.
  - destruct (status r =? 200) eqn:S2.
    + apply Z.eqb_eq in S2.
      destruct (json r) as [x|e] eqn:J; simpl.
      * destruct x as [| | | | | |d]; simpl.
        7: { exists (PDict d). eexists.
             split; [reflexivity|]. split; [reflexivity|].
             split; [reflexivity|]. simpl.
             split; [intros r0 d0 R0 _ J0; inversion R0; subst r0;
                     rewrite J in J0; inversion J0; subst d0; auto|].
             split; [intros r0 x0 R0 _ J0 N; inversion R0; subst r0;
                     rewrite J in J0; inversion J0; subst x0;
                     now destruct (N d)|].
             split; [intros r0 e0 R0 _ J0; inversion R0; subst r0;
                     congruence|].
             split; [intros r0 R0 S4; inversion R0; subst r0; congruence|].
             split; [intros r0 R0 N2; inversion R0; subst r0; contradiction|].
             split; [discriminate|].
             split; [intros _; exists r, d; auto|].
             split.
             - intros T. exists r, d. repeat split; auto.
               intros ->. discriminate.
             - intros (r0 & d0 & R0 & _ & J0 & N). inversion R0; subst r0.
               rewrite J in J0. inversion J0; subst d0.
               destruct d; [contradiction|reflexivity]. }
        all: exists PNone; eexists.
        all: split; [reflexivity|]; split; [reflexivity|].
        all: split; [reflexivity|]; simpl.
        all: split; [intros r0 d0 R0 _ J0; inversion R0; subst r0;
                     congruence|].
        all: split; [intros r0 x0 R0 _ J0 N; inversion R0; subst r0;
                     auto|].
        all: split; [intros r0 e0 R0 _ J0; inversion R0; subst r0;
                     congruence|].
        all: split; [intros r0 R0 S4; inversion R0; subst r0; congruence|].
        all: split; [intros r0 R0 N2; inversion R0; subst r0; contradiction|].
        all: split; [discriminate|].
        all: split; [congruence|].
        all: split; [discriminate|].
        all: intros (r0 & d0 & R0 & _ & J0 & _); inversion R0; subst r0;
          congruence.
      * exists PNone. eexists.
        split; [reflexivity|]. split; [reflexivity|].
        split; [reflexivity|]. simpl.
        split; [intros r0 d0 R0 _ J0; inversion R0; subst r0; congruence|].
        split; [intros r0 x0 R0 _ J0; inversion R0; subst r0; congruence|].
        split; [intros r0 e0 R0 _ J0; inversion R0; subst r0;
                rewrite J in J0; inversion J0; auto|].
        split; [intros r0 R0 S4; inversion R0; subst r0; congruence|].
        split; [intros r0 R0 N2; inversion R0; subst r0; contradiction|].
        split; [discriminate|].
        split; [congruence|].
        split; [discriminate|].
        intros (r0 & d0 & R0 & _ & J0 & _); inversion R0; subst r0;
          congruence.
    + apply Z.eqb_neq in S2.
      destruct (status r =? 401) eqn:S4; simpl.
      * apply Z.eqb_eq in S4. exists PNone. eexists.
        split; [reflexivity|]. split; [reflexivity|].
        split; [reflexivity|]. simpl.
        split; [intros r0 d0 R0 S0; inversion R0; subst r0; contradiction|].
        split; [intros r0 x0 R0 S0; inversion R0; subst r0; contradiction|].
        split; [intros r0 e0 R0 S0; inversion R0; subst r0; contradiction|].
        split; [auto|].
        split; [intros r0 R0 _ N4; inversion R0; subst r0; contradiction|].
        split; [discriminate|].
        split; [congruence|].
        split; [discriminate|].
        intros (r0 & d0 & R0 & S0 & _); inversion R0; subst r0; contradiction.
      * apply Z.eqb_neq in S4. exists PNone. eexists.
        split; [reflexivity|]. split; [reflexivity|].
        split; [reflexivity|]. simpl.
        split; [intros r0 d0 R0 S0; inversion R0; subst r0; contradiction|].
        split; [intros r0 x0 R0 S0; inversion R0; subst r0; contradiction|].
        split; [intros r0 e0 R0 S0; inversion R0; subst r0; contradiction|].
        split; [intros r0 R0 S0; inversion R0; subst r0; contradiction|].
        split; [intros r0 R0 _ _; inversion R0; subst r0; auto|].
        split; [discriminate|].
        split; [congruence|].
        split; [discriminate|].
        intros (r0 & d0 & R0 & S0 & _); inversion R0; subst r0; contradiction.
  - exists PNone. eexists.
    split; [reflexivity|]. split; [reflexivity|].
    split; [reflexivity|]. simpl.
    split; [discriminate|]. split; [discriminate|]. split; [discriminate|].
    split; [discriminate|]. split; [discriminate|].
    split; [intros e0 E0; inversion E0; auto|].
    split; [congruence|].
    split; [discriminate|].
    intros (r0 & d0 & R0 & _); discriminate.
Qed.

Lemma C4_test_token_outcomes_witness :
  (exists s', AuthManager.test_token auth0 (start [answer 200 account0])
              = (Ret account0, s') /\
              requests (trace s') = [me_request auth0]) /\
  (exists s', AuthManager.test_token auth0
                (start [answer 200 (PList [PStr "operator@example.org"])])
              = (Ret PNone, s')) /\
  (exists s', AuthManager.test_token auth0 (start [answer_text 401 "Unauthorized"])
              = (Ret PNone, s')) /\
  (exists s', AuthManager.test_token auth0
                (start [answer_text 500 "Internal Server Error"])
              = (Ret PNone, s')) /\
  (exists s', AuthManager.test_token auth0 (start [Raise TimeoutError])
              = (Ret PNone, s')).
Proof.
  split; [|split; [|split; [|split]]].
  - destruct (@C4_test_token_outcomes script script_world auth0
                (start [answer 200 account0]) (answer 200 account0) spent
                eq_refl)
      as (v & s' & E & _ & Rq & F & _).
    destruct (F _ _ eq_refl eq_refl eq_refl) as (-> & _).
    exists s'. split; [exact E|exact Rq].
  - destruct (@C4_test_token_outcomes script script_world auth0
                (start [answer 200 (PList [PStr "operator@example.org"])])
                (answer 200 (PList [PStr "operator@example.org"])) spent
                eq_refl)
      as (v & s' & E & _ & _ & _ & F & _).
    destruct (F _ _ eq_refl eq_refl eq_refl) as (-> & _); [discriminate|].
    exists s'. exact E.
  - destruct (@C4_test_token_outcomes script script_world auth0
                (start [answer_text 401 "Unauthorized"])
                (answer_text 401 "Unauthorized") spent eq_refl)
      as (v & s' & E & _ & _ & _ & _ & _ & F & _).
    destruct (F _ eq_refl eq_refl) as (-> & _).
    exists s'. exact E.
  - destruct (@C4_test_token_outcomes script script_world auth0
                (start [answer_text 500 "Internal Server Error"])
                (answer_text 500 "Internal Server Error") spent eq_refl)
      as (v & s' & E & _ & _ & _ & _ & _ & _ & F & _).
    destruct (F _ eq_refl) as (-> & _); [discriminate|discriminate|].
    exists s'. exact E.
  - destruct (@C4_test_token_outcomes script script_world auth0
                (start [Raise TimeoutError]) (Raise TimeoutError) spent
                eq_refl)
      as (v & s' & E & _ & _ & _ & _ & _ & _ & _ & F & _).
    destruct (F _ eq_refl) as (-> & _).
    exists s'. exact E.
Defined.

(* ================================================================== *)
(** ** Properties of the registration *)

(** C3, as stated, fails.  A POST answered with 204, a 2xx status, is
    not counted as a success: of one record, none is registered. *)
Lemma C3_post_204_is_not_a_success :
  (forall req, fst (send req (world (start [answer 204 PNone])))
               = answer 204 PNone) /\
  is_2xx 204 = true /\
  fst (AuthManager.register_nodes auth0 [record_a_scan] (start [answer 204 PNone]))
  = Ret 0.
Proof. repeat split; reflexivity. Qed.

Section Registration.
Context {W : Type} `{World W}.

Lemma registrable_payload n :
  registrable n = true -> exists p, AuthManager.payload n = Ret p.
Proof.
  unfold registrable, AuthManager.payload.
  destruct (node_id n); try discriminate.
  destruct (bandwidth n); try discriminate. simpl. eauto.
Qed.

(** One record: the code computes [registers], and sends one POST. *)
Lemma register_single_node_spec self n (s : state W) :
  registrable n = true ->
  exists node_data s',
    AuthManager.payload n = Ret node_data /\
    AuthManager._register_single_node self n s
    = (Ret (fst (registers self n node_data (world s))), s') /\
    world s' = snd (registers self n node_data (world s)) /\
    posted (trace s') = node_data :: posted (trace s).
Proof.
  intros R. destruct (registrable_payload n R) as (p & P). exists p.
  unfold registrable in R.
  destruct (node_id n) as [| | | |sid| |] eqn:Hid; try discriminate.
  unfold AuthManager._register_single_node, AuthManager._update_existing_node,
    registers, post_request, patch_request.
  rewrite P, Hid.
  unfold try_except, bind, http, lift, log, emit, ret. simpl.
  match goal with
  | |- context [send ?q (world s)] =>
      destruct (send q (world s)) as [[r|e] w1]
  end; simpl.
  - unfold post_ok.
    destruct ((status r =? 200) || (status r =? 201)); simpl.
    + eexists; repeat split; reflexivity.
    + destruct (status r =? 409); simpl.
      * match goal with
        | |- context [send ?q w1] => destruct (send q w1) as [[r'|e'] w2]
        end; simpl.
        -- unfold patch_ok.
           destruct ((status r' =? 200) || (status r' =? 204)); simpl;
             eexists; repeat split; reflexivity.
        -- eexists; repeat split; reflexivity.
      * destruct (status r =? 401); simpl.
        -- eexists; repeat split; reflexivity.
        -- destruct (text r); simpl; eexists; repeat split; reflexivity.
  - eexists; repeat split; reflexivity.
Qed.

(** The loop, from any count. *)
Lemma register_loop_spec self nodes : forall (s : state W) count,
  Forall (fun n => registrable n = true) nodes ->
  exists s',
    AuthManager.register_loop self nodes count s
    = (Ret (count + fst (count_registered self nodes (world s))), s') /\
    world s' = snd (count_registered self nodes (world s)) /\
    posted (trace s') = (rev (payloads nodes) ++ posted (trace s))%list.
Proof.
  induction nodes as [|n rest IH]; intros s count F.
  - exists s. simpl. unfold ret. rewrite Z.add_0_r. auto.
  - inversion F as [|? ? Rn Frest]; subst.
    destruct (register_single_node_spec self n s Rn)
      as (node_data & s1 & P & E & Wd & T).
    cbn [AuthManager.register_loop count_registered payloads].
    rewrite P.
    destruct (registers self n node_data (world s)) as [ok w1] eqn:Rg.
    simpl in E, Wd.
    destruct (IH s1 (if ok then count + 1 else count) Frest) as (s' & E' & Wd' & T').
    exists s'. rewrite (bind_run _ _ _ _ _ E), E', Wd', T', T, Wd.
    destruct (count_registered self rest w1) as [c w2]. simpl.
    repeat split.
    + f_equal. f_equal. destruct ok; lia.
    + now rewrite <- app_assoc.
Qed.

End Registration.

(** C3, amended.  For records that [_register_single_node] can handle
    (string [node_id], dict [bandwidth]), [register_nodes] raises
    nothing, sends the POST of every record, once and in order, whatever
    the outcomes of the earlier ones, and returns the number of records
    that succeed, where a record succeeds if its POST returns 200 or
    201, or if its POST returns 409 and the PATCH with the same payload
    returns 200 or 204.  Any other outcome, a 401 among them, is a
    failure of that record alone. *)
Theorem C3_register_counts_successes {W} `{World W}
        (self : AuthManager.t) (nodes : list node) (s : state W) :
  Forall (fun n => registrable n = true) nodes ->
  exists s',
    AuthManager.register_nodes self nodes s
    = (Ret (fst (count_registered self nodes (world s))), s') /\
    world s' = snd (count_registered self nodes (world s)) /\
    posted (trace s') = (rev (payloads nodes) ++ posted (trace s))%list /\
    List.length (payloads nodes) = List.length nodes /\
    0 <= fst (count_registered self nodes (world s)) <= Z.of_nat (List.length nodes).
Proof.
  intros F.
  assert (L : List.length (payloads nodes) = List.length nodes).
  { induction F as [|n rest Rn _ IH]; simpl; [reflexivity|].
    destruct (registrable_payload n Rn) as (p & ->). simpl. now rewrite IH. }
  assert (B : forall w, 0 <= fst (count_registered self nodes w)
                        <= Z.of_nat (List.length nodes)).
  { clear L. induction F as [|n rest Rn _ IH]; intros w; simpl; [lia|].
    destruct (registrable_payload n Rn) as (p & ->).
    destruct (registers self n p w) as [ok w1].
    specialize (IH w1). destruct (count_registered self rest w1) as [c w2].
    simpl in *. destruct ok; lia. }
  destruct nodes as [|n rest].
  - exists s. simpl. unfold ret. repeat split; auto; lia.
  - destruct (register_loop_spec self (n :: rest) s 0 F) as (s' & E & Wd & T).
    exists s'. unfold AuthManager.register_nodes.
    rewrite E, Z.add_0_l. repeat split; auto; apply B.
Qed.

(** Outside the hypothesis of the theorem: the payload of a record is
    built before the [try], so a record whose [bandwidth] is not a dict
    raises out of [register_nodes], and the records after it are not
    tried. *)
Remark register_nodes_raises_on_payload :
  AuthManager.register_nodes auth0 [record_null_bandwidth; record_a_scan]
                             (start [answer 201 PNone])
  = (Raise AttributeError, start [answer 201 PNone]).
Proof. reflexivity. Qed.

Lemma registrable_three :
  Forall (fun n => registrable n = true)
         [record_a_docker; record_b_scan; record_a_scan].
Proof. repeat constructor. Defined.

(** Three records: the first is created, the second is refused with a
    401, the third exists already and is updated. *)
Lemma C3_register_counts_successes_witness :
  fst (AuthManager.register_nodes auth0
         [record_a_docker; record_b_scan; record_a_scan]
         (start [answer 201 PNone;
                 answer_text 401 "Unauthorized";
                 answer_text 409 "Conflict"; answer 200 PNone]))
  = Ret 2.
Proof.
  destruct (@C3_register_counts_successes script script_world auth0
              [record_a_docker; record_b_scan; record_a_scan]
              (start [answer 201 PNone;
                      answer_text 401 "Unauthorized";
                      answer_text 409 "Conflict"; answer 200 PNone])
              registrable_three) as (s' & E & _).
  rewrite E. reflexivity.
Defined.

(* ================================================================== *)
(** ** Properties of the sync *)

Lemma grown_trans t1 t2 t3 : grown t1 t2 -> grown t2 t3 -> grown t1 t3.
Proof. intros G1 G2. induction G2; [assumption|now constructor]. Qed.

Lemma grown_in t1 t2 ev : grown t1 t2 -> In ev t1 -> In ev t2.
Proof. intros G I. induction G; [assumption|now right]. Qed.

Section Sync.
Context {W : Type} `{World W}.

Lemma grows_ret {A} (a : A) : grows (W:=W) (ret a).
Proof. intros s o s' E. apply ret_inv in E as [_ ->]. constructor. Qed.

Lemma grows_lift {A} (x : outcome A) : grows (W:=W) (lift x).
Proof. intros s o s' E. apply lift_inv in E as [_ ->]. constructor. Qed.

Lemma grows_clock : grows (W:=W) clock.
Proof. intros s o s' E. apply clock_inv in E as [_ ->]. constructor. Qed.

Lemma grows_log lv fmt args : grows (W:=W) (log lv fmt args).
Proof.
  intros s o s' E. apply log_inv in E as [_ ->]. simpl. repeat constructor.
Qed.

Lemma grows_http r : grows (W:=W) (http r).
Proof.
  intros s o s' E. apply http_inv in E as (w & _ & ->). simpl.
  repeat constructor.
Qed.

Lemma grows_bind {A B} (m : M W A) (k : A -> M W B) :
  grows m -> (forall a, grows (k a)) -> grows (bind m k).
Proof.
  intros Gm Gk s o s' E. apply bind_inv in E.
  destruct E as [(a & s1 & Em & Ek) | (e & Em & _)].
  - eapply grown_trans; [eapply Gm|eapply Gk]; eauto.
  - eapply Gm; eauto.
Qed.

Lemma grows_try_except {A} (m : M W A) (h : exn -> M W A) :
  grows m -> (forall e, grows (h e)) -> grows (try_except m h).
Proof.
  intros Gm Gh s o s' E. apply try_except_inv in E.
  destruct E as [(a & Em & _) | (e & s1 & Em & Eh)].
  - eapply Gm; eauto.
  - eapply grown_trans; [eapply Gm|eapply Gh]; eauto.
Qed.

End Sync.

(** Decomposition of a goal [grows m] along the structure of [m]. *)
Ltac grow :=
  repeat first
    [ apply grows_ret | apply grows_lift | apply grows_log
    | apply grows_clock | apply grows_http
    | apply grows_bind; [|intros ?]
    | apply grows_try_except; [|intros ?]
    | match goal with
      | |- grows (if ?c then _ else _) => destruct c
      | |- grows (match ?x with _ => _ end) => destruct x
      end ].

Section SyncBatch.
Context {W : Type} `{World W}.

Lemma grows_fetch_node_data node : grows (NodeSync._fetch_node_data node).
Proof. unfold NodeSync._fetch_node_data. grow. Qed.

Lemma grows_update_node self id node_data :
  grows (NodeSync._update_node self id node_data).
Proof. unfold NodeSync._update_node. grow. Qed.

Lemma grows_sync_node self node : grows (NodeSync._sync_node self node).
Proof.
  unfold NodeSync._sync_node.
  apply grows_try_except; [|intros e; grow].
  apply grows_bind; [apply grows_fetch_node_data|intros node_data].
  destruct (negb (truthy node_data)); [grow|].
  apply grows_bind; [grow|intros id].
  apply grows_bind; [apply grows_update_node|intros success]. grow.
Qed.

(** The probe of a registered node is sent, whatever comes of it, and
    fetching raises nothing. *)
Lemma fetch_node_data_probes d (s : state W) :
  exists v s',
    NodeSync._fetch_node_data (PDict d) s = (Ret v, s') /\
    In (Sent (probe_request d)) (trace s').
Proof.
  unfold NodeSync._fetch_node_data, probe_request.
  unfold try_except, bind, http, lift, log, ret, emit. simpl.
  match goal with
  | |- context [send ?q (world s)] =>
      destruct (send q (world s)) as [[r|e] w]
  end; simpl.
  - destruct (status r =? 200).
    + destruct (json r); simpl; eexists _, _; split; try reflexivity;
        simpl; auto.
    + eexists _, _; split; [reflexivity|]. simpl; auto.
  - eexists _, _; split; [reflexivity|]. simpl; auto.
Qed.

(** Syncing a registered node raises nothing and sends its probe. *)
Lemma sync_node_probes self d (s : state W) :
  exists b s',
    NodeSync._sync_node self (PDict d) s = (Ret b, s') /\
    In (Sent (probe_request d)) (trace s').
Proof.
  destruct (fetch_node_data_probes d s) as (v & s1 & E & I).
  unfold NodeSync._sync_node, try_except.
  rewrite (bind_run _ _ _ _ _ E).
  match goal with
  | |- context [match ?k s1 with _ => _ end] =>
      assert (G : grows k); [|destruct (k s1) as [[b|e] s2] eqn:K]
  end.
  - destruct (negb (truthy v)); [grow|].
    apply grows_bind; [grow|intros id].
    apply grows_bind; [apply grows_update_node|intros success]. grow.
  - exists b, s2. split; [reflexivity|].
    eapply grown_in; [eapply G; eauto|assumption].
  - eexists _, _. split; [reflexivity|]. simpl. right.
    eapply grown_in; [eapply G; eauto|assumption].
Qed.

(** The batch: one result per node, the probe of every registered node
    sent. *)
Lemma gather_sync_nodes self (nodes : list pyval) : forall s : state W,
  exists results s',
    gather (map (NodeSync._sync_node self) nodes) s = (Ret results, s') /\
    List.length results = List.length nodes /\
    grown (trace s) (trace s') /\
    (forall d, In (PDict d) nodes ->
               In (Sent (probe_request d)) (trace s')).
Proof.
  induction nodes as [|node rest IH]; intros s.
  - exists [], s. repeat split; try constructor. intros d [].
  - cbn [map gather].
    destruct (NodeSync._sync_node self node s) as [o s1] eqn:E.
    destruct (IH s1) as (results & s' & Eg & L & G & P).
    exists (o :: results), s'.
    rewrite (bind_run _ _ _ _ _ Eg). unfold ret.
    pose proof (grows_sync_node self node s o s1 E) as G1.
    repeat split.
    + simpl. now rewrite L.
    + eapply grown_trans; eauto.
    + intros d [->|I]; [|now apply P].
      destruct (sync_node_probes self d s) as (b & s1' & E' & I').
      rewrite E in E'. inversion E'; subst.
      eapply grown_in; eauto.
Qed.

Lemma success_count_bounds results :
  0 <= NodeSync.success_count results <= Z.of_nat (List.length results).
Proof.
  unfold NodeSync.success_count. split; [lia|].
  apply Nat2Z.inj_le. apply filter_length_le.
Qed.

End SyncBatch.

Section SyncCycle.
Context {W : Type} `{World W}.

Lemma sync_batch_spec self nodes (s : state W) :
  exists s',
    NodeSync._sync_batch self nodes s = (Ret tt, s') /\
    grown (trace s) (trace s') /\
    (forall d, In (PDict d) nodes -> In (Sent (probe_request d)) (trace s')).
Proof.
  destruct (gather_sync_nodes self nodes s) as (results & s1 & E & _ & G & P).
  unfold NodeSync._sync_batch. rewrite (bind_run _ _ _ _ _ E).
  destruct (_ >? 0).
  - eexists. split; [reflexivity|]. simpl. split; [now constructor|].
    intros d I. right. now apply P.
  - exists s1. auto.
Qed.

(** The batches of a cycle follow one another to the last. *)
Lemma sync_batches_spec self l starts : forall s : state W,
  exists s',
    NodeSync.sync_batches self (PList l) starts s = (Ret tt, s') /\
    grown (trace s) (trace s') /\
    (forall i d,
        In i starts ->
        In (PDict d)
           (firstn (Z.to_nat (NodeSync.batch_size self)) (skipn (Z.to_nat i) l)) ->
        In (Sent (probe_request d)) (trace s')).
Proof.
  induction starts as [|i rest IH]; intros s.
  - exists s. repeat split; try constructor. intros i d [].
  - cbn [NodeSync.sync_batches]. unfold py_slice.
    replace (i + NodeSync.batch_size self - i)
      with (NodeSync.batch_size self) by lia.
    rewrite (bind_run _ _ _ _ _ (eq_refl : lift (Ret _) s = (Ret _, s))).
    destruct (sync_batch_spec self
                (firstn (Z.to_nat (NodeSync.batch_size self))
                        (skipn (Z.to_nat i) l)) s) as (s1 & E1 & G1 & P1).
    rewrite (bind_run _ _ _ _ _ E1).
    destruct (IH s1) as (s' & E' & G' & P').
    exists s'. split; [exact E'|]. split; [eapply grown_trans; eauto|].
    intros j d [<-|I] Hd.
    + eapply grown_in; eauto.
    + eapply P'; eauto.
Qed.

(** Every element of a list is in one of the slices that the cycle
    takes. *)
Lemma batches_cover {A} (l : list A) (x : A) (bs : Z) :
  0 < bs -> In x l ->
  exists starts i,
    py_range (Z.of_nat (List.length l)) bs = Ret starts /\
    In i starts /\
    In x (firstn (Z.to_nat bs) (skipn (Z.to_nat i) l)).
Proof.
  intros Hbs I. apply In_nth_error in I as (j & Hj).
  assert (Hlen : (j < List.length l)%nat).
  { apply nth_error_Some. congruence. }
  unfold py_range.
  replace (bs =? 0) with false by (symmetry; apply Z.eqb_neq; lia).
  replace (bs <? 0) with false by (symmetry; apply Z.ltb_ge; lia).
  set (b := Z.to_nat bs). assert (Hb : (0 < b)%nat) by (subst b; lia).
  set (k := (j / b)%nat).
  eexists. exists (Z.of_nat k * bs). split; [reflexivity|]. split.
  - apply in_map_iff. exists k. split; [reflexivity|].
    apply in_seq. split; [lia|]. simpl.
    assert (Hk : (b * k <= j)%nat) by (apply Nat.Div0.mul_div_le).
    set (n := Z.of_nat (List.length l)) in *.
    assert (Hq : n + bs - 1 < bs * ((n + bs - 1) / bs + 1)).
    { pose proof (Z.mul_succ_div_gt (n + bs - 1) bs Hbs). lia. }
    assert (Z.of_nat k < (n + bs - 1) / bs); [|lia].
    assert (Z.of_nat b = bs) by (subst b; lia).
    assert (bs * Z.of_nat k <= Z.of_nat j) by nia.
    assert (Z.of_nat j < n) by (subst n; lia).
    nia.
  - replace (Z.to_nat (Z.of_nat k * bs)) with (b * k)%nat by (subst b; nia).
    apply nth_error_In with (n := (j mod b)%nat).
    rewrite nth_error_firstn.
    replace ((j mod b <? b)%nat) with true
      by (symmetry; apply Nat.ltb_lt; apply Nat.mod_upper_bound; lia).
    rewrite nth_error_skipn.
    replace (b * k + j mod b)%nat with j; [exact Hj|].
    subst k. apply Nat.div_mod_eq.
Qed.

(** A cycle over the list that the registry answers with: it raises
    nothing and the probe of every registered node is sent. *)
Lemma sync_cycle_probes self (s : state W) r w data l :
  0 < NodeSync.batch_size self ->
  send (list_request self) (world s) = (Ret r, w) ->
  status r = 200 ->
  json r = Ret (PDict data) ->
  lookup "nodes" data = Some (PList l) ->
  exists s',
    NodeSync._sync_cycle self s = (Ret tt, s') /\
    (forall d, In (PDict d) l -> In (Sent (probe_request d)) (trace s')).
Proof.
  intros Hbs Es St Js Ln.
  assert (E0 : NodeSync._get_registered_nodes self s
               = (Ret (PList l),
                  {| world := w; trace := Sent (list_request self) :: trace s |})).
  { unfold NodeSync._get_registered_nodes. fold (list_request self).
    unfold try_except, bind, http, lift. rewrite Es, St, Js. simpl.
    now rewrite Ln. }
  unfold NodeSync._sync_cycle, try_except.
  rewrite (bind_run _ _ _ _ _ E0).
  destruct l as [|x l']; [eexists; split; [reflexivity|intros d []]|].
  set (l := x :: l') in *.
  change (negb (truthy (PList l))) with false. cbv iota.
  unfold py_len.
  rewrite (bind_run _ _ _ _ _ (eq_refl : lift (Ret _) _ = (Ret _, _))).
  rewrite (bind_run _ _ _ _ _ (eq_refl : log _ _ _ _ = (Ret tt, _))).
  rewrite (bind_run _ _ _ _ _ (eq_refl : lift (Ret _) _ = (Ret _, _))).
  destruct (batches_cover l x (NodeSync.batch_size self) Hbs (or_introl eq_refl))
    as (starts & _ & R & _).
  rewrite R.
  rewrite (bind_run _ _ _ _ _ (eq_refl : lift (Ret _) _ = (Ret _, _))).
  match goal with
  | |- context [bind (NodeSync.sync_batches self (PList l) starts) _ ?s0] =>
      destruct (sync_batches_spec self l starts s0) as (s' & E' & G' & P')
  end.
  rewrite (bind_run _ _ _ _ _ E').
  eexists. split; [reflexivity|].
  intros d I. simpl. right.
  destruct (batches_cover l (PDict d) (NodeSync.batch_size self) Hbs I)
    as (starts' & i & R' & Ii & Id).
  rewrite R in R'. inversion R'; subst starts'.
  eapply P'; eauto.
Qed.

End SyncCycle.

(** C5.  In a batch every node gets a result, and the probe of every
    registered node is sent, whatever the probes and updates of the
    other nodes do: time out, raise, or fail.  [_sync_batch] raises
    nothing; it counts the failures and, when there are any, reports the
    two counts, which add up to the size of the batch.  The sync cycle
    raises nothing either, and a cycle over the list of the registry
    sends the probe of every registered node, batch after batch. *)
Theorem C5_batch_isolation {W} `{World W} (self : NodeSync.t) :
  (forall (nodes : list pyval) (s : state W),
      exists results s1,
        gather (map (NodeSync._sync_node self) nodes) s = (Ret results, s1) /\
        List.length results = List.length nodes /\
        (forall d, In (PDict d) nodes ->
                   In (Sent (probe_request d)) (trace s1)) /\
        exists successes errors,
          successes = NodeSync.success_count results /\
          0 <= successes /\ 0 <= errors /\
          successes + errors = Z.of_nat (List.length nodes) /\
          NodeSync._sync_batch self nodes s
          = (Ret tt,
             if errors >? 0
             then {| world := world s1;
                     trace := batch_report successes errors :: trace s1 |}
             else s1)) /\
  (forall s : state W,
      exists s', NodeSync._sync_cycle self s = (Ret tt, s')) /\
  (forall (s : state W) r w data l,
      0 < NodeSync.batch_size self ->
      send (list_request self) (world s) = (Ret r, w) ->
      status r = 200 ->
      json r = Ret (PDict data) ->
      lookup "nodes" data = Some (PList l) ->
      exists s',
        NodeSync._sync_cycle self s = (Ret tt, s') /\
        (forall d, In (PDict d) l -> In (Sent (probe_request d)) (trace s'))).
Proof.
  split; [|split].
  - intros nodes s.
    destruct (gather_sync_nodes self nodes s) as (results & s1 & E & L & _ & P).
    exists results, s1. repeat split; auto.
    exists (NodeSync.success_count results),
           (Z.of_nat (List.length results) - NodeSync.success_count results).
    pose proof (success_count_bounds results) as B.
    repeat split; try lia.
    unfold NodeSync._sync_batch. rewrite (bind_run _ _ _ _ _ E).
    destruct (_ >? 0); reflexivity.
  - intros s. unfold NodeSync._sync_cycle, try_except.
    match goal with
    | |- context [match ?m s with _ => _ end] =>
        destruct (m s) as [[[]|e] s1]
    end.
    + eauto.
    + eexists. reflexivity.
  - apply sync_cycle_probes.
Qed.

(** An entry of the registry's list that is not a JSON object is not
    probed; its task raises, and [gather] puts the exception in its
    place among the results. *)
Remark sync_node_of_a_string :
  fst (gather (map (NodeSync._sync_node sync0) [PStr "a1"]) (start []))
  = Ret [Raise AttributeError].
Proof. reflexivity. Qed.

(** A batch of five nodes in which the probe of node 3 times out: the
    other four are probed and updated, and the results are reported as
    four successes and one error.  A cycle over the same five nodes in
    batches of two sends all five probes. *)
Lemma C5_batch_isolation_witness :
  (exists results s1,
      gather (map (NodeSync._sync_node sync0) (map PDict five_nodes))
             (start node3_times_out) = (Ret results, s1) /\
      results = [Ret true; Ret true; Ret false; Ret true; Ret true] /\
      In (Sent (probe_request (registered "a4" 14004))) (trace s1) /\
      In (Sent (probe_request (registered "a5" 14005))) (trace s1) /\
      NodeSync._sync_batch sync0 (map PDict five_nodes) (start node3_times_out)
      = (Ret tt, {| world := world s1;
                    trace := batch_report 4 1 :: trace s1 |})) /\
  (exists s',
      NodeSync._sync_cycle sync_by_two
        (start (answer 200 (PDict [("nodes", PList (map PDict five_nodes))])
                  :: node3_times_out))
      = (Ret tt, s') /\
      In (Sent (probe_request (registered "a3" 14003))) (trace s') /\
      In (Sent (probe_request (registered "a5" 14005))) (trace s')).
Proof.
  split.
  - destruct (proj1 (@C5_batch_isolation script script_world sync0)
                (map PDict five_nodes) (start node3_times_out))
      as (results & s1 & E & L & P & sc & ec & Hsc & _ & _ & Hsum & B).
    assert (R : results = [Ret true; Ret true; Ret false; Ret true; Ret true]).
    { vm_compute in E. now inversion E. }
    exists results, s1. split; [exact E|]. split; [exact R|].
    split; [apply P; simpl; auto 6|]. split; [apply P; simpl; auto 6|].
    rewrite B. subst results. vm_compute in Hsc. subst sc.
    change (Z.of_nat (List.length (map PDict five_nodes))) with 5 in Hsum.
    assert (ec = 1) by lia. subst ec. reflexivity.
  - destruct (proj2 (proj2 (@C5_batch_isolation script script_world sync_by_two))
                (start (answer 200 (PDict [("nodes", PList (map PDict five_nodes))])
                          :: node3_times_out))
                {| status := 200;
                   json := Ret (PDict [("nodes", PList (map PDict five_nodes))]);
                   text := Ret "" |}
                {| answers := node3_times_out; runtime_answer := Ret [] |}
                [("nodes", PList (map PDict five_nodes))]
                (map PDict five_nodes))
      as (s' & E & P); try reflexivity.
    exists s'. split; [exact E|].
    split; apply P; simpl; auto 6.
Defined.

(* ================================================================== *)
(** ** Further properties of the health classifiers *)

(** How the two classifiers relate. *)
Lemma sync_status_unfold (doc : pyval) :
  NodeSync._determine_status doc
  = if has_last_contact doc && marked_disqualified doc
    then Ret "DISQUALIFIED"
    else DockerDiscovery._determine_status doc.
Proof.
  destruct doc as [| | | | | |d]; try reflexivity.
  unfold NodeSync._determine_status, DockerDiscovery._determine_status,
    has_last_contact, marked_disqualified.
  simpl py_get. unfold obind.
  destruct (lookup "lastContactSuccess" d) as [v|]; simpl;
    [destruct (truthy v); simpl|]; try reflexivity.
  destruct (lookup "disqualified" d) as [w|]; simpl;
    [destruct (truthy w)|]; reflexivity.
Qed.

(** X1.  The sync classifier is the discovery classifier with one more
    rule: on a document with a successful last contact that marks the
    node as disqualified it answers [DISQUALIFIED]; on every other
    document the two give the same answer, or raise the same
    exception. *)
Theorem sync_classifier_extends_discovery (doc : pyval) :
  NodeSync._determine_status doc
  = if has_last_contact doc && marked_disqualified doc
    then Ret "DISQUALIFIED"
    else DockerDiscovery._determine_status doc.
Proof. exact (sync_status_unfold doc). Qed.

Lemma discovery_health doc h :
  DockerDiscovery._determine_status doc = Ret h ->
  In h ["OFFLINE"; "SUSPENDED"; "WARNING"; "ONLINE"] /\
  (h = "OFFLINE" <-> has_last_contact doc = false).
Proof.
  destruct doc as [| | | | | |d]; try discriminate.
  unfold DockerDiscovery._determine_status, has_last_contact.
  simpl py_get. unfold obind.
  destruct (lookup "lastContactSuccess" d) as [v|]; simpl.
  - destruct (truthy v); simpl.
    + intros E.
      assert (In h ["SUSPENDED"; "WARNING"; "ONLINE"]) as I.
      { repeat step E; inversion E; simpl; auto. }
      split; [simpl in *; tauto|].
      split; [|discriminate].
      intros ->. simpl in I. intuition discriminate.
    + intros E. inversion E. simpl. tauto.
  - intros E. inversion E. simpl. tauto.
Qed.

(** X2.  When a classifier answers, the answer is one of the five health
    strings, and it is [OFFLINE] exactly when the document has no
    successful last contact (the field is missing, null, empty or
    zero), whatever its other fields say. *)
Theorem health_is_one_of_five (doc : pyval) (h : string) :
  (NodeSync._determine_status doc = Ret h ->
   In h health_strings /\ (h = "OFFLINE" <-> has_last_contact doc = false)) /\
  (DockerDiscovery._determine_status doc = Ret h ->
   In h health_strings /\ (h = "OFFLINE" <-> has_last_contact doc = false)) /\
  (PortScanner._determine_status doc = Ret h ->
   In h health_strings /\ (h = "OFFLINE" <-> has_last_contact doc = false)).
Proof.
  assert (D : DockerDiscovery._determine_status doc = Ret h ->
              In h health_strings /\
              (h = "OFFLINE" <-> has_last_contact doc = false)).
  { intros E. destruct (discovery_health doc h E) as (I & O).
    split; [|exact O]. unfold health_strings. simpl in *. tauto. }
  split; [|split]; try exact D.
  rewrite sync_status_unfold.
  destruct (has_last_contact doc && marked_disqualified doc) eqn:B;
    [|exact D].
  apply andb_true_iff in B as (L & _).
  intros E. inversion E. split; [simpl; auto|].
  split; [discriminate|congruence].
Qed.

Lemma health_is_one_of_five_witness :
  In "SUSPENDED" health_strings /\
  ("SUSPENDED" = "OFFLINE" <->
   has_last_contact doc_suspended_and_low_audit = false).
Proof.
  apply (proj1 (health_is_one_of_five doc_suspended_and_low_audit "SUSPENDED")).
  reflexivity.
Defined.

(** X3.  Missing reputation data never lowers the health: with a
    successful last contact and no disqualification mark, a document
    without a reputation block, or with a block that has neither score,
    is [ONLINE] for all three classifiers (the audit score defaults to
    1.0 and the suspension score to 0.0). *)
Theorem missing_reputation_is_online (d : pydict) :
  has_last_contact (PDict d) = true ->
  marked_disqualified (PDict d) = false ->
  no_scores d ->
  NodeSync._determine_status (PDict d) = Ret "ONLINE" /\
  DockerDiscovery._determine_status (PDict d) = Ret "ONLINE" /\
  PortScanner._determine_status (PDict d) = Ret "ONLINE".
Proof.
  intros L Q N.
  assert (D : DockerDiscovery._determine_status (PDict d) = Ret "ONLINE").
  { unfold DockerDiscovery._determine_status, has_last_contact in *.
    simpl py_get. simpl py_in. unfold obind.
    destruct (lookup "lastContactSuccess" d) as [v|]; [|discriminate].
    rewrite L. simpl.
    destruct N as [-> | (rep & -> & S & A)]; [reflexivity|].
    simpl. rewrite S, A. reflexivity. }
  rewrite sync_status_unfold, Q, andb_false_r. auto.
Qed.

Lemma missing_reputation_is_online_witness :
  NodeSync._determine_status doc_empty_reputation = Ret "ONLINE" /\
  DockerDiscovery._determine_status doc_empty_reputation = Ret "ONLINE" /\
  PortScanner._determine_status doc_empty_reputation = Ret "ONLINE".
Proof.
  apply missing_reputation_is_online.
  - reflexivity.
  - reflexivity.
  - right. exists []. repeat split; reflexivity.
Defined.

(* ================================================================== *)
(** ** Further properties of the discovery *)

Section Discovery.
Context {W : Type} `{World W}.

(** X4.  The status probe of the container discoverer sends one GET and
    never raises: it returns the parsed document when the answer is a
    200 whose body parses, and [None] in every other case (another
    status, a body that is not JSON, a refused or timed out
    connection). *)
Theorem status_probe_is_absent_on_failure
        (host : string) (port : Z) (s : state W) o w :
  send (status_request host port 5) (world s) = (o, w) ->
  exists v s',
    DockerDiscovery._fetch_node_data host port s = (Ret v, s') /\
    world s' = w /\
    requests (trace s') = status_request host port 5 :: requests (trace s) /\
    (forall r doc,
        o = Ret r -> status r = 200 -> json r = Ret doc -> v = doc) /\
    (v <> PNone -> exists r, o = Ret r /\ status r = 200 /\ json r = Ret v).
Proof.
  intros E. unfold DockerDiscovery._fetch_node_data.
  fold (status_request host port 5).
  unfold try_except, bind, http, lift, log, emit, ret. rewrite E.
  destruct o as [r|e]; simpl.
  - destruct (status r =? 200) eqn:S.
    + apply Z.eqb_eq in S. destruct (json r) as [doc|e] eqn:J; simpl.
      * exists doc. eexists. repeat split; try reflexivity.
        -- intros r0 doc0 R _ J0. inversion R; subst. congruence.
        -- intros _. exists r. auto.
      * exists PNone. eexists. repeat split; try reflexivity.
        -- intros r0 doc0 R _ J0. inversion R; subst. congruence.
        -- congruence.
    + apply Z.eqb_neq in S.
      exists PNone. eexists. repeat split; try reflexivity.
      * intros r0 doc0 R S0. inversion R; subst. contradiction.
      * congruence.
  - exists PNone. eexists. repeat split; try reflexivity.
    + discriminate.
    + congruence.
Qed.

(** The fields of a record that do not come from the document. *)
Lemma scan_record_fields self port doc n :
  PortScanner.node_record self port doc = Ret n ->
  dashboard_port n = port /\
  address n = PortScanner.host self /\
  storage_port n = 28967 /\
  name n = "Node-" ++ str_of_Z port /\
  container n = None /\
  detected_from n = "port_scan".
Proof.
  unfold PortScanner.node_record, obind. intros E.
  repeat step E; inversion E; simpl; auto 10.
Qed.

(** One port of the scan. *)
Lemma check_port_spec (self : PortScanner.t) (port : Z) (s : state W) o w :
  send (scan_request self port) (world s) = (o, w) ->
  exists res s',
    PortScanner._check_port self port s = (Ret res, s') /\
    world s' = w /\
    requests (trace s') = scan_request self port :: requests (trace s) /\
    (forall n,
        res = Some n ->
        (exists r doc,
            o = Ret r /\ status r = 200 /\ json r = Ret doc /\
            PortScanner.node_record self port doc = Ret n) /\
        dashboard_port n = port /\
        address n = PortScanner.host self /\
        storage_port n = 28967 /\
        name n = "Node-" ++ str_of_Z port /\
        container n = None /\
        detected_from n = "port_scan") /\
    (forall r,
        o = Ret r -> status r <> 200 ->
        res = None /\ trace s' = Sent (scan_request self port) :: trace s).
Proof.
  intros E. unfold PortScanner._check_port.
  fold (status_request (PortScanner.host self) port (PortScanner.timeout_ self)).
  fold (scan_request self port).
  unfold try_except, bind, http, lift, log, emit, ret. rewrite E.
  destruct o as [r|e]; simpl.
  - destruct (status r =? 200) eqn:S.
    + apply Z.eqb_eq in S. destruct (json r) as [doc|e] eqn:J; simpl.
      * destruct (PortScanner.node_record self port doc) as [n|e] eqn:R; simpl.
        -- exists (Some n). eexists.
           split; [reflexivity|]. split; [reflexivity|]. split; [reflexivity|].
           split.
           ++ intros m N. inversion N; subst m.
              split; [exists r, doc; auto|].
              exact (scan_record_fields _ _ _ _ R).
           ++ intros r0 R0 S0. inversion R0; subst. contradiction.
        -- exists None. eexists.
           split; [reflexivity|]. split; [reflexivity|]. split; [reflexivity|].
           split; [discriminate|].
           intros r0 R0 S0. inversion R0; subst. contradiction.
      * exists None. eexists.
        split; [reflexivity|]. split; [reflexivity|]. split; [reflexivity|].
        split; [discriminate|].
        intros r0 R0 S0. inversion R0; subst. contradiction.
    + exists None. eexists.
      split; [reflexivity|]. split; [reflexivity|]. split; [reflexivity|].
      split; [discriminate|]. auto.
  - exists None. eexists.
    split; [reflexivity|]. split; [reflexivity|]. split; [reflexivity|].
    split; discriminate.
Qed.

(** X5.  Checking a port sends one GET and never raises.  A record comes
    back only from a 200 whose body parses, and then it carries the
    scanned port and host, the default data port 28967, the name
    [Node-<port>] and no container keys.  A port that answers with
    another status is left out without a line in the log. *)
Theorem check_port_contract (self : PortScanner.t) (port : Z) (s : state W) o w :
  send (scan_request self port) (world s) = (o, w) ->
  exists res s',
    PortScanner._check_port self port s = (Ret res, s') /\
    world s' = w /\
    requests (trace s') = scan_request self port :: requests (trace s) /\
    (forall n,
        res = Some n ->
        (exists r doc,
            o = Ret r /\ status r = 200 /\ json r = Ret doc /\
            PortScanner.node_record self port doc = Ret n) /\
        dashboard_port n = port /\
        address n = PortScanner.host self /\
        storage_port n = 28967 /\
        name n = "Node-" ++ str_of_Z port /\
        container n = None /\
        detected_from n = "port_scan") /\
    (forall r,
        o = Ret r -> status r <> 200 ->
        res = None /\ trace s' = Sent (scan_request self port) :: trace s).
Proof. exact (check_port_spec self port s o w). Qed.

(** X6.  A port that answers 200 with a document on which the
    classification raises (a string or a null where a score should be)
    is left out of the scan: the exception is caught, logged at debug
    level, and no record is built. *)
Theorem check_port_drops_unclassifiable
        (self : PortScanner.t) (port : Z) (s : state W) r w d e :
  send (scan_request self port) (world s) = (Ret r, w) ->
  status r = 200 ->
  json r = Ret (PDict d) ->
  PortScanner._determine_status (PDict d) = Raise e ->
  PortScanner._check_port self port s
  = (Ret None,
     {| world := w;
        trace := Log DEBUG "Port %d check failed: %s" [AVal (PInt port); AExn e]
                 :: Sent (scan_request self port) :: trace s |}).
Proof.
  intros E S J C. unfold PortScanner._check_port.
  fold (status_request (PortScanner.host self) port (PortScanner.timeout_ self)).
  fold (scan_request self port).
  unfold try_except, bind, http, lift, log, emit, ret. rewrite E, S, J. simpl.
  unfold PortScanner.node_record. simpl py_get. unfold obind at 1 2.
  rewrite C. reflexivity.
Qed.

(** The scan, port by port. *)
Lemma gather_check_ports self (ports : list Z) : forall s : state W,
  exists results s',
    gather (map (PortScanner._check_port self) ports) s = (Ret results, s') /\
    requests (trace s')
    = (rev (map (scan_request self) ports) ++ requests (trace s))%list /\
    sublist (map dashboard_port (PortScanner.dict_results results)) ports.
Proof.
  induction ports as [|port rest IH]; intros s.
  - exists [], s. repeat split. constructor.
  - cbn [map gather].
    destruct (send (scan_request self port) (world s)) as [o w] eqn:E.
    destruct (check_port_spec self port s o w E)
      as (res & s1 & C & _ & Rq & F & _).
    rewrite C.
    destruct (IH s1) as (results & s' & G & Rq' & Sub).
    exists (Ret res :: results), s'.
    rewrite (bind_run _ _ _ _ _ G). unfold ret. repeat split.
    + rewrite Rq', Rq. simpl. now rewrite <- app_assoc.
    + destruct res as [n|]; simpl.
      * destruct (F n eq_refl) as (_ & -> & _). now constructor.
      * now constructor.
Qed.

Lemma sublist_length {A} (l1 l2 : list A) :
  sublist l1 l2 -> (List.length l1 <= List.length l2)%nat.
Proof. induction 1; simpl; lia. Qed.

Lemma sublist_in {A} (l1 l2 : list A) x :
  sublist l1 l2 -> In x l1 -> In x l2.
Proof. induction 1; simpl; intuition. Qed.

End Discovery.

(** X7.  A port scan never raises and sends exactly one GET per port, in
    the order of the list.  The records it returns come in the order of
    the ports they answer on, at most one per port, so that there are no
    more records than ports and every record is on a port of the
    list. *)
Theorem scan_ports_one_probe_per_port {W} `{World W}
        (self : PortScanner.t) (ports : list Z) (s : state W) :
  exists nodes s',
    PortScanner.scan_ports self ports s = (Ret nodes, s') /\
    requests (trace s')
    = (rev (map (scan_request self) ports) ++ requests (trace s))%list /\
    sublist (map dashboard_port nodes) ports /\
    (List.length nodes <= List.length ports)%nat /\
    (forall n, In n nodes -> In (dashboard_port n) ports).
Proof.
  destruct (gather_check_ports self ports s) as (results & s' & G & Rq & Sub).
  exists (PortScanner.dict_results results), s'.
  unfold PortScanner.scan_ports. rewrite (bind_run _ _ _ _ _ G). unfold ret.
  repeat split; auto.
  - apply sublist_length in Sub. now rewrite length_map in Sub.
  - intros n I. eapply sublist_in; [exact Sub|]. now apply in_map.
Qed.

Lemma status_probe_is_absent_on_failure_witness :
  (exists s', DockerDiscovery._fetch_node_data "127.0.0.1" 14010
                (start [answer 200 doc_online]) = (Ret doc_online, s')) /\
  (exists s', DockerDiscovery._fetch_node_data "127.0.0.1" 14010
                (start [answer_text 404 "not found"]) = (Ret PNone, s')).
Proof.
  split.
  - destruct (@status_probe_is_absent_on_failure script script_world
                "127.0.0.1" 14010 (start [answer 200 doc_online])
                (answer 200 doc_online) spent eq_refl)
      as (v & s' & E & _ & _ & V & _).
    exists s'. rewrite E.
    now rewrite (V _ doc_online eq_refl eq_refl eq_refl).
  - destruct (@status_probe_is_absent_on_failure script script_world
                "127.0.0.1" 14010 (start [answer_text 404 "not found"])
                (answer_text 404 "not found") spent eq_refl)
      as (v & s' & E & _ & _ & _ & V).
    exists s'. rewrite E. f_equal. f_equal.
    destruct v; try reflexivity;
      (destruct V as (r & R & S & _); [discriminate|];
       inversion R; subst; discriminate).
Defined.

Lemma check_port_contract_witness :
  (exists n s',
      PortScanner._check_port scanner 14002 (start [answer 200 doc_online])
      = (Ret (Some n), s') /\
      dashboard_port n = 14002 /\ name n = "Node-14002") /\
  (exists s',
      PortScanner._check_port scanner 14002 (start [answer_text 404 "not found"])
      = (Ret None, s') /\
      trace s' = [Sent (scan_request scanner 14002)]).
Proof.
  split.
  - destruct (@check_port_contract script script_world scanner 14002
                (start [answer 200 doc_online]) (answer 200 doc_online) spent
                eq_refl) as (res & s' & E & _ & _ & F & _).
    assert (R : exists n, res = Some n).
    { vm_compute in E. inversion E. eauto. }
    destruct R as (n & ->). exists n, s'. split; [exact E|].
    destruct (F n eq_refl) as (_ & D & _ & _ & N & _). auto.
  - destruct (@check_port_contract script script_world scanner 14002
                (start [answer_text 404 "not found"])
                (answer_text 404 "not found") spent eq_refl)
      as (res & s' & E & _ & _ & _ & F).
    destruct (F _ eq_refl) as (-> & T); [discriminate|].
    exists s'. auto.
Defined.

Lemma check_port_drops_unclassifiable_witness :
  fst (PortScanner._check_port scanner 14002 (start [answer 200 doc_null_score]))
  = Ret None.
Proof.
  rewrite (@check_port_drops_unclassifiable script script_world scanner 14002
             (start [answer 200 doc_null_score])
             {| status := 200; json := Ret doc_null_score; text := Ret "" |}
             spent
             [("nodeID", PStr "1GpR6f3nR5sHwq");
              ("lastContactSuccess", PStr "2024-01-01T00:00:00Z");
              ("reputation", PDict [("suspensionScore", PNone);
                                    ("auditScore", PInt 1)])]
             TypeError eq_refl eq_refl eq_refl eq_refl).
  reflexivity.
Defined.

(** Three ports of which the second does not answer. *)
Lemma scan_ports_one_probe_per_port_witness :
  exists nodes s',
    PortScanner.scan_ports scanner [14001; 14002; 14003]
      (start [answer 200 doc_online; Raise ClientError; answer 200 doc_online])
    = (Ret nodes, s') /\
    map dashboard_port nodes = [14001; 14003] /\
    List.length (requests (trace s')) = 3%nat.
Proof.
  destruct (@scan_ports_one_probe_per_port script script_world scanner
              [14001; 14002; 14003]
              (start [answer 200 doc_online; Raise ClientError;
                      answer 200 doc_online]))
    as (nodes & s' & E & Rq & _).
  exists nodes, s'. split; [exact E|]. split.
  - vm_compute in E. now inversion E.
  - now rewrite Rq.
Defined.

Section Containers.
Context {W : Type} `{World W}.

Lemma docker_fetch_spec host port (s : state W) :
  exists v s1,
    DockerDiscovery._fetch_node_data host port s = (Ret v, s1) /\
    requests (trace s1) = status_request host port 5 :: requests (trace s).
Proof.
  unfold DockerDiscovery._fetch_node_data.
  fold (status_request host port 5).
  unfold try_except, bind, http, lift, log, emit, ret.
  destruct (send (status_request host port 5) (world s)) as [[r|e] w]; simpl.
  - destruct (status r =? 200); [destruct (json r)|]; simpl;
      eexists _, _; split; reflexivity.
  - eexists _, _; split; reflexivity.
Qed.

Lemma docker_record_fields c attrs nm img port doc n :
  DockerDiscovery.node_record c attrs nm img port doc = Ret n ->
  dashboard_port n = port /\
  DockerDiscovery._get_storage_port attrs = Ret (storage_port n) /\
  name n = nm /\
  address n = "127.0.0.1" /\
  detected_from n = "docker" /\
  container n = Some {| container_id := cid c;
                        container_name := nm;
                        image := img |}.
Proof.
  unfold DockerDiscovery.node_record, obind. intros E.
  repeat step E; inversion E; simpl; auto 10.
Qed.

Lemma extract_node_info_total c (s : state W) :
  exists res s', DockerDiscovery._extract_node_info c s = (Ret res, s').
Proof.
  unfold DockerDiscovery._extract_node_info, try_except.
  match goal with
  | |- context [match ?m s with _ => _ end] => destruct (m s) as [[res|e] s1]
  end; eexists _, _; reflexivity.
Qed.

Lemma extract_node_info_facts c (s s' : state W) res :
  DockerDiscovery._extract_node_info c s = (Ret res, s') ->
  (forall n,
      res = Some n ->
      exists attrs p,
        reload c = Ret attrs /\
        usable_port (DockerDiscovery._get_dashboard_port attrs) = Some p /\
        dashboard_port n = p /\
        DockerDiscovery._get_storage_port attrs = Ret (storage_port n) /\
        address n = "127.0.0.1" /\
        detected_from n = "docker" /\
        option_map container_id (container n) = Some (cid c) /\
        requests (trace s')
        = status_request "127.0.0.1" p 5 :: requests (trace s)) /\
  (forall attrs,
      reload c = Ret attrs ->
      usable_port (DockerDiscovery._get_dashboard_port attrs) = None ->
      res = None /\ requests (trace s') = requests (trace s)) /\
  (List.length (requests (trace s'))
   <= S (List.length (requests (trace s))))%nat.
Proof.
  unfold DockerDiscovery._extract_node_info, DockerDiscovery._fetch_node_data.
  intros E. inv_run.
  all: try discriminate.
  all: split; [intros n0 N0; try discriminate|split; [intros attrs0 R0 U0|]].
  all: simpl; try lia.
  all: try match goal with
           | Hr : reload ?k = Ret ?a, R0 : reload ?k = Ret ?b |- _ =>
               assert (b = a) by congruence; subst b
           end.
  all: try match goal with
           | Hd : DockerDiscovery._get_dashboard_port ?x = _,
             U : usable_port (DockerDiscovery._get_dashboard_port ?x) = None
             |- _ => rewrite Hd in U; simpl in U; discriminate
           end.
  all: try solve [auto].
  all: match goal with
       | Hr : reload ?k = Ret ?a,
         Hd : DockerDiscovery._get_dashboard_port ?a = Ret (Some ?p),
         Hn : DockerDiscovery.node_record _ _ _ _ _ _ = Ret _ |- _ =>
           exists a, p;
           destruct (docker_record_fields _ _ _ _ _ _ _ Hn)
             as (? & ? & ? & ? & ? & Hc);
           inversion N0; subst; rewrite Hd; simpl; rewrite Hc;
           repeat split; auto
       end.
Qed.

(** The loop over the containers. *)
Lemma extract_all_spec (cs : list container_obj) : forall s : state W,
  exists nodes s',
    DockerDiscovery.extract_all cs s = (Ret nodes, s') /\
    (List.length nodes <= List.length cs)%nat /\
    (List.length (requests (trace s'))
     <= List.length cs + List.length (requests (trace s)))%nat /\
    (forall n, In n nodes ->
               detected_from n = "docker" /\ address n = "127.0.0.1" /\
               exists c, In c cs /\
                         option_map container_id (container n) = Some (cid c)).
Proof.
  induction cs as [|c rest IH]; intros s.
  - exists [], s. split; [reflexivity|]. simpl.
    split; [lia|]. split; [lia|]. intros n [].
  - cbn [DockerDiscovery.extract_all].
    destruct (extract_node_info_total c s) as (res & s1 & E).
    destruct (extract_node_info_facts c s s1 res E) as (F & _ & L).
    rewrite (bind_run _ _ _ _ _ E).
    destruct (IH s1) as (nodes & s' & E' & Ln & Lr & P).
    rewrite (bind_run _ _ _ _ _ E'). unfold ret.
    eexists _, _. split; [reflexivity|].
    destruct res as [n|]; simpl; (split; [lia|split; [lia|]]).
    + intros m [<-|I].
      * destruct (F n eq_refl) as (attrs & p & _ & _ & _ & _ & A & D & Ci & _).
        repeat split; auto. exists c. auto.
      * destruct (P m I) as (D & A & c' & Ic & Ci). repeat split; auto.
        exists c'. auto.
    + intros m I.
      destruct (P m I) as (D & A & c' & Ic & Ci). repeat split; auto.
      exists c'. auto.
Qed.

End Containers.

(** X8.  Extracting a container never raises and sends at most one
    request.  When the status port cannot be resolved (no rule applies,
    a rule raises, or the port is 0) the container is skipped before
    any request is sent.  A record, when there is one, is for the
    loopback address and the resolved ports, is marked as coming from
    the container runtime and carries the id of the container. *)
Theorem extract_node_info_contract {W} `{World W}
        (c : container_obj) (s : state W) :
  exists res s',
    DockerDiscovery._extract_node_info c s = (Ret res, s') /\
    (forall n,
        res = Some n ->
        exists attrs p,
          reload c = Ret attrs /\
          usable_port (DockerDiscovery._get_dashboard_port attrs) = Some p /\
          dashboard_port n = p /\
          DockerDiscovery._get_storage_port attrs = Ret (storage_port n) /\
          address n = "127.0.0.1" /\
          detected_from n = "docker" /\
          option_map container_id (container n) = Some (cid c) /\
          requests (trace s')
          = status_request "127.0.0.1" p 5 :: requests (trace s)) /\
    (forall attrs,
        reload c = Ret attrs ->
        usable_port (DockerDiscovery._get_dashboard_port attrs) = None ->
        res = None /\ requests (trace s') = requests (trace s)) /\
    (List.length (requests (trace s'))
     <= S (List.length (requests (trace s))))%nat.
Proof.
  destruct (extract_node_info_total c s) as (res & s' & E).
  exists res, s'. split; [exact E|].
  exact (extract_node_info_facts c s s' res E).
Qed.

(** X9.  Container discovery returns the empty list, after an error
    line, when the runtime is unreachable ([DockerException]); it does
    not catch any other exception of the runtime.  When the runtime
    answers, discovery never raises: it returns at most one record per
    container, each marked as coming from the runtime and tied to one of
    the containers, and sends at most one request per container. *)
Theorem discover_nodes_contract {W} `{World W} (s : state W) o w :
  storj_containers (world s) = (o, w) ->
  let s0 := {| world := w; trace := trace s |} in
  (o = Raise DockerException ->
   DockerDiscovery.discover_nodes s
   = (Ret [],
      {| world := w;
         trace := Log ERROR "Docker connection failed: %s"
                      [AExn DockerException] :: trace s |})) /\
  (forall e,
      o = Raise e -> e <> DockerException ->
      DockerDiscovery.discover_nodes s = (Raise e, s0)) /\
  (forall cs,
      o = Ret cs ->
      exists nodes s',
        DockerDiscovery.discover_nodes s = (Ret nodes, s') /\
        (List.length nodes <= List.length cs)%nat /\
        (List.length (requests (trace s'))
         <= List.length cs + List.length (requests (trace s)))%nat /\
        (forall n, In n nodes ->
                   detected_from n = "docker" /\ address n = "127.0.0.1" /\
                   exists c, In c cs /\
                             option_map container_id (container n)
                             = Some (cid c))).
Proof.
  intros E s0.
  assert (R : forall o', o = o' -> @runtime W _ s = (o', s0))
    by (intros o' <-; unfold runtime; now rewrite E).
  unfold DockerDiscovery.discover_nodes, try_except_docker.
  split; [|split].
  - intros Eo. now rewrite (bind_raise _ _ _ _ _ (R _ Eo)).
  - intros e Eo Ne. rewrite (bind_raise _ _ _ _ _ (R _ Eo)).
    destruct e; try reflexivity. now destruct Ne.
  - intros cs Eo. rewrite (bind_run _ _ _ _ _ (R _ Eo)).
    rewrite (bind_run _ _ _ _ _ (eq_refl : log _ _ _ s0 = (Ret tt, _))).
    match goal with
    | |- context [DockerDiscovery.extract_all cs ?s1] =>
        destruct (extract_all_spec cs s1) as (nodes & s' & X & Ln & Lr & P)
    end.
    rewrite X. exists nodes, s'. split; [reflexivity|].
    split; [exact Ln|]. split; [exact Lr|exact P].
Qed.

Lemma extract_node_info_contract_witness :
  exists n s',
    DockerDiscovery._extract_node_info container1
      (start [answer 200 doc_online])
    = (Ret (Some n), s') /\
    dashboard_port n = 14010 /\
    requests (trace s') = [status_request "127.0.0.1" 14010 5].
Proof.
  destruct (@extract_node_info_contract script script_world container1
              (start [answer 200 doc_online]))
    as (res & s' & E & F & _ & _).
  assert (R : exists n, res = Some n).
  { vm_compute in E. inversion E. eauto. }
  destruct R as (n & ->). exists n, s'. split; [exact E|].
  destruct (F n eq_refl) as (attrs & p & Ra & U & D & _ & _ & _ & _ & Rq).
  assert (P : p = 14010).
  { inversion Ra; subst attrs. vm_compute in U. now inversion U. }
  rewrite P in D, Rq. split; [exact D|exact Rq].
Defined.

Lemma discover_nodes_contract_witness :
  DockerDiscovery.discover_nodes docker_down
  = (Ret [],
     {| world := world docker_down;
        trace := [Log ERROR "Docker connection failed: %s"
                      [AExn DockerException]] |}).
Proof.
  destruct (@discover_nodes_contract script script_world docker_down
              (Raise DockerException) (world docker_down) eq_refl)
    as (A & _ & _).
  exact (A eq_refl).
Defined.

(** X10.  The data port of a container is resolved in three steps and is
    never absent.  (a) When the port table maps 28967/tcp, the host port
    of that mapping is the answer, whatever the environment declares.
    (b) Otherwise the first [ADDRESS=] variable whose value has a colon
    decides, by the text after its last colon.  (c) When neither
    applies, which includes an environment that only has the
    [CONSOLE_ADDRESS=] variable of the status port, the answer is the
    default 28967. *)
Theorem storage_port_resolution_order :
  (forall attrs ports m0 rest hp,
      DockerDiscovery.get_ports attrs = Ret (PDict ports) ->
      lookup "28967/tcp" ports = Some (PList (PDict m0 :: rest)) ->
      lookup "HostPort" m0 = Some hp ->
      DockerDiscovery._get_storage_port attrs = py_int hp) /\
  (forall attrs ports pre addr post,
      DockerDiscovery.get_ports attrs = Ret (PDict ports) ->
      no_mapping ports "28967/tcp" ->
      DockerDiscovery.get_env attrs
      = Ret (PList (pre ++ PStr ("ADDRESS=" ++ addr) :: post)) ->
      Forall (fun v => passed_over "ADDRESS=" v = true) pre ->
      contains ":" addr = true ->
      DockerDiscovery._get_storage_port attrs
      = (let! p := last_item (split ":" addr) in int_of_string p)) /\
  (forall attrs ports vars,
      DockerDiscovery.get_ports attrs = Ret (PDict ports) ->
      no_mapping ports "28967/tcp" ->
      DockerDiscovery.get_env attrs = Ret (PList vars) ->
      Forall (fun v => passed_over "ADDRESS=" v = true) vars ->
      DockerDiscovery._get_storage_port attrs = Ret 28967).
Proof.
  split; [|split].
  - intros attrs ports m0 rest hp P L HP.
    unfold DockerDiscovery._get_storage_port. rewrite P. simpl.
    rewrite (mapped_true _ _ _ _ L). simpl.
    unfold DockerDiscovery.host_port_of. simpl. rewrite L. simpl.
    rewrite HP. reflexivity.
  - intros attrs ports pre addr post P N E F C.
    unfold DockerDiscovery._get_storage_port. rewrite P. simpl.
    rewrite (mapped_false _ _ N). simpl. rewrite E. simpl.
    rewrite env_port_passed_over by assumption.
    simpl. rewrite C. unfold obind.
    destruct (last_item (split ":" addr)); [|reflexivity].
    destruct (int_of_string a); reflexivity.
  - intros attrs ports vars P N E F.
    unfold DockerDiscovery._get_storage_port. rewrite P. simpl.
    rewrite (mapped_false _ _ N). simpl. rewrite E. simpl.
    rewrite env_port_none by assumption. reflexivity.
Qed.

Lemma storage_port_resolution_order_witness :
  DockerDiscovery._get_storage_port attrs_mapped_and_env = Ret 28967.
Proof.
  apply (proj2 (proj2 storage_port_resolution_order) attrs_mapped_and_env
           [("14002/tcp", PList [PDict [("HostIp", PStr "0.0.0.0");
                                        ("HostPort", PStr "14010")]]);
            ("28967/tcp", PNone)]
           [PStr "PATH=/usr/local/bin"; PStr "CONSOLE_ADDRESS=0.0.0.0:15555"]).
  - reflexivity.
  - reflexivity.
  - reflexivity.
  - repeat constructor.
Defined.

(* ================================================================== *)
(** ** Further properties of the sync *)

Section Registry.
Context {W : Type} `{World W}.

(** The listing of the registered nodes, case by case. *)
Lemma registered_nodes_spec self (s : state W) o w :
  send (list_request self) (world s) = (o, w) ->
  let sent := Sent (list_request self) :: trace s in
  exists v s',
    NodeSync._get_registered_nodes self s = (Ret v, s') /\
    world s' = w /\
    requests (trace s') = list_request self :: requests (trace s) /\
    (forall r data,
        o = Ret r -> status r = 200 -> json r = Ret (PDict data) ->
        v = listed data /\ trace s' = sent) /\
    (forall r,
        o = Ret r -> status r <> 200 ->
        v = PList [] /\
        trace s' = Log ERROR "Failed to get nodes: HTTP %d"
                       [AVal (PInt (status r))] :: sent) /\
    (forall e,
        o = Raise e ->
        v = PList [] /\
        trace s' = Log ERROR "Failed to get registered nodes: %s" [AExn e]
                   :: sent) /\
    (v <> PList [] ->
     exists r data,
       o = Ret r /\ status r = 200 /\ json r = Ret (PDict data) /\
       lookup "nodes" data = Some v).
Proof.
  intros E sent. subst sent. unfold NodeSync._get_registered_nodes.
  fold (list_request self).
  unfold try_except, bind, http, lift, log, emit, ret. rewrite E.
  destruct o as [r|e]; simpl.
  - destruct (status r =? 200) eqn:S.
    + apply Z.eqb_eq in S. destruct (json r) as [doc|e] eqn:J; simpl.
      * destruct doc as [| | | | | |data]; simpl.
        7: { unfold listed. destruct (lookup "nodes" data) as [x|] eqn:L.
             - exists x. eexists.
               split; [reflexivity|]. split; [reflexivity|].
               split; [reflexivity|]. split.
               + intros r0 d0 R0 _ J0. inversion R0; subst r0.
                 rewrite J in J0. inversion J0; subst d0.
                 rewrite L. auto.
               + split; [intros r0 R0 S0; inversion R0; subst; contradiction|].
                 split; [discriminate|].
                 intros _. exists r, data. auto.
             - exists (PList []). eexists.
               split; [reflexivity|]. split; [reflexivity|].
               split; [reflexivity|]. split.
               + intros r0 d0 R0 _ J0. inversion R0; subst r0.
                 rewrite J in J0. inversion J0; subst d0.
                 rewrite L. auto.
               + split; [intros r0 R0 S0; inversion R0; subst; contradiction|].
                 split; [discriminate|]. congruence. }
        all: exists (PList []); eexists.
        all: split; [reflexivity|]; split; [reflexivity|].
        all: split; [reflexivity|]; split;
          [intros r0 d0 R0 _ J0; inversion R0; subst r0; congruence|].
        all: split; [intros r0 R0 S0; inversion R0; subst; contradiction|].
        all: split; [discriminate|congruence].
      * exists (PList []). eexists.
        split; [reflexivity|]. split; [reflexivity|]. split; [reflexivity|].
        split; [intros r0 d0 R0 _ J0; inversion R0; subst r0; congruence|].
        split; [intros r0 R0 S0; inversion R0; subst; contradiction|].
        split; [discriminate|congruence].
    + apply Z.eqb_neq in S.
      exists (PList []). eexists.
      split; [reflexivity|]. split; [reflexivity|]. split; [reflexivity|].
      split; [intros r0 d0 R0 S0; inversion R0; subst; contradiction|].
      split; [intros r0 R0 _; inversion R0; subst; auto|].
      split; [discriminate|congruence].
  - exists (PList []). eexists.
    split; [reflexivity|]. split; [reflexivity|]. split; [reflexivity|].
    split; [discriminate|]. split; [discriminate|].
    split; [intros e0 E0; inversion E0; subst; auto|congruence].
Qed.

End Registry.

(** X11.  Listing the registered nodes sends one GET to
    [<dashboard>/storj/nodes] and never raises.  A 200 whose body is a
    JSON object gives the value under [nodes], or the empty list when
    the key is missing, with no line in the log.  Every other outcome
    (another status, a body that is not a JSON object, a failed
    connection) gives the empty list, and an error line for a wrong
    status or an exception. *)
Theorem registered_nodes_contract {W} `{World W}
        (self : NodeSync.t) (s : state W) o w :
  send (list_request self) (world s) = (o, w) ->
  let sent := Sent (list_request self) :: trace s in
  exists v s',
    NodeSync._get_registered_nodes self s = (Ret v, s') /\
    world s' = w /\
    requests (trace s') = list_request self :: requests (trace s) /\
    (forall r data,
        o = Ret r -> status r = 200 -> json r = Ret (PDict data) ->
        v = listed data /\ trace s' = sent) /\
    (forall r,
        o = Ret r -> status r <> 200 ->
        v = PList [] /\
        trace s' = Log ERROR "Failed to get nodes: HTTP %d"
                       [AVal (PInt (status r))] :: sent) /\
    (forall e,
        o = Raise e ->
        v = PList [] /\
        trace s' = Log ERROR "Failed to get registered nodes: %s" [AExn e]
                   :: sent) /\
    (v <> PList [] ->
     exists r data,
       o = Ret r /\ status r = 200 /\ json r = Ret (PDict data) /\
       lookup "nodes" data = Some v).
Proof. exact (registered_nodes_spec self s o w). Qed.

Lemma registered_nodes_contract_witness :
  (exists s',
      NodeSync._get_registered_nodes sync0
        (start [answer 200 (PDict [("nodes", PList (map PDict five_nodes))])])
      = (Ret (PList (map PDict five_nodes)), s')) /\
  (exists s',
      NodeSync._get_registered_nodes sync0 (start [answer_text 503 "busy"])
      = (Ret (PList []), s')).
Proof.
  split.
  - destruct (@registered_nodes_contract script script_world sync0
                (start [answer 200 (PDict [("nodes", PList (map PDict five_nodes))])])
                (answer 200 (PDict [("nodes", PList (map PDict five_nodes))]))
                spent eq_refl)
      as (v & s' & E & _ & _ & F & _).
    destruct (F _ _ eq_refl eq_refl eq_refl) as (-> & _).
    exists s'. exact E.
  - destruct (@registered_nodes_contract script script_world sync0
                (start [answer_text 503 "busy"])
                (answer_text 503 "busy") spent eq_refl)
      as (v & s' & E & _ & _ & _ & F & _).
    destruct (F _ eq_refl) as (-> & _); [discriminate|].
    exists s'. exact E.
Defined.

Section Cycle.
Context {W : Type} `{World W}.

(** X12.  A sync cycle stops after the listing unless the listing is a
    200 whose JSON object has a non-empty value under [nodes]: for a
    failed request, another status, a body that is not a JSON object, a
    missing, null or empty [nodes], the listing is the only request of
    the cycle, no node is probed, and the cycle ends with the debug line
    [No registered nodes found]. *)
Theorem sync_cycle_stops_without_listing self (s : state W) o w :
  send (list_request self) (world s) = (o, w) ->
  (forall r data,
      o = Ret r -> status r = 200 -> json r = Ret (PDict data) ->
      truthy (listed data) = false) ->
  exists s',
    NodeSync._sync_cycle self s = (Ret tt, s') /\
    world s' = w /\
    requests (trace s') = list_request self :: requests (trace s) /\
    In (Log DEBUG "No registered nodes found" []) (trace s').
Proof.
  intros E N.
  destruct (registered_nodes_spec self s o w E)
    as (v & s1 & E1 & Wo & Rq & _ & _ & _ & F).
  assert (T : truthy v = false).
  { destruct v as [| | | | |l|d]; try reflexivity.
    all: try (destruct F as (r & data & Ro & St & Js & L); [discriminate|];
              specialize (N r data Ro St Js); unfold listed in N;
              now rewrite L in N).
    destruct l; [reflexivity|].
    destruct F as (r & data & Ro & St & Js & L); [discriminate|].
    specialize (N r data Ro St Js). unfold listed in N. now rewrite L in N. }
  unfold NodeSync._sync_cycle, try_except.
  rewrite (bind_run _ _ _ _ _ E1), T. simpl.
  eexists. split; [reflexivity|]. simpl. auto.
Qed.

(** X13.  A batch size that is not positive syncs nothing.  With a
    non-empty listing and a batch size of 0 the cycle fails on the
    [range] of its loop: it logs [Sync cycle failed] with a
    [ValueError], after the listing and the [Syncing %d nodes] line, and
    probes no node.  With a negative batch size the loop has no
    iteration: the cycle logs [Sync cycle completed] although no node
    was probed. *)
Theorem sync_cycle_degenerate_batch_size self (s : state W) r w data l :
  send (list_request self) (world s) = (Ret r, w) ->
  status r = 200 ->
  json r = Ret (PDict data) ->
  lookup "nodes" data = Some (PList l) ->
  l <> [] ->
  NodeSync.batch_size self <= 0 ->
  NodeSync._sync_cycle self s
  = (Ret tt,
     {| world := w;
        trace := (if NodeSync.batch_size self =? 0
                  then Log ERROR "Sync cycle failed: %s" [AExn ValueError]
                  else Log INFO "Sync cycle completed" [])
                 :: Log INFO "Syncing %d nodes"
                        [AVal (PInt (Z.of_nat (List.length l)))]
                 :: Sent (list_request self) :: trace s |}).
Proof.
  intros E St Js L Ne B.
  destruct (registered_nodes_spec self s (Ret r) w E)
    as (v & s1 & E1 & Wo & _ & F & _).
  destruct (F r data eq_refl St Js) as (V & T).
  unfold listed in V. rewrite L in V. subst v.
  unfold NodeSync._sync_cycle, try_except.
  rewrite (bind_run _ _ _ _ _ E1).
  destruct l as [|x l']; [contradiction|].
  set (l := x :: l') in *.
  change (negb (truthy (PList l))) with false. cbv iota.
  unfold py_len.
  rewrite (bind_run _ _ _ _ _ (eq_refl : lift (Ret _) _ = (Ret _, _))).
  rewrite (bind_run _ _ _ _ _ (eq_refl : log _ _ _ _ = (Ret tt, _))).
  rewrite (bind_run _ _ _ _ _ (eq_refl : lift (Ret _) _ = (Ret _, _))).
  unfold py_range.
  destruct (NodeSync.batch_size self =? 0) eqn:Z0.
  - rewrite (bind_raise _ _ _ _ _ (eq_refl : lift (Raise _) _ = (Raise _, _))).
    unfold log, emit. simpl. rewrite T. destruct s1; simpl in *. now subst.
  - apply Z.eqb_neq in Z0.
    replace (NodeSync.batch_size self <? 0) with true
      by (symmetry; apply Z.ltb_lt; lia).
    rewrite (bind_run _ _ _ _ _ (eq_refl : lift (Ret _) _ = (Ret _, _))).
    cbn [NodeSync.sync_batches].
    unfold bind, ret, log, emit. simpl. rewrite T.
    destruct s1; simpl in *. now subst.
Qed.

End Cycle.

Lemma sync_cycle_stops_without_listing_witness :
  exists s',
    NodeSync._sync_cycle sync0 (start [answer_text 503 "busy"]) = (Ret tt, s') /\
    world s' = spent /\
    requests (trace s') = [list_request sync0] /\
    In (Log DEBUG "No registered nodes found" []) (trace s').
Proof.
  apply (@sync_cycle_stops_without_listing script script_world sync0
           (start [answer_text 503 "busy"]) (answer_text 503 "busy") spent
           eq_refl).
  intros r data R S. inversion R; subst r. discriminate S.
Defined.

Lemma sync_cycle_degenerate_batch_size_witness :
  NodeSync._sync_cycle sync_by_zero (start [answer 200 listing_of_five])
  = (Ret tt,
     {| world := spent;
        trace := [Log ERROR "Sync cycle failed: %s" [AExn ValueError];
                  Log INFO "Syncing %d nodes" [AVal (PInt 5)];
                  Sent (list_request sync_by_zero)] |}).
Proof.
  apply (@sync_cycle_degenerate_batch_size script script_world sync_by_zero
           (start [answer 200 listing_of_five])
           {| status := 200; json := Ret listing_of_five; text := Ret "" |}
           spent [("nodes", PList (map PDict five_nodes))]
           (map PDict five_nodes)).
  - reflexivity.
  - reflexivity.
  - reflexivity.
  - reflexivity.
  - discriminate.
  - discriminate.
Defined.

Lemma firstn_add_split {A} (a c : nat) : forall X : list A,
  firstn (a + c) X = (firstn a X ++ firstn c (skipn a X))%list.
Proof.
  induction a as [|a IH]; intros X; [reflexivity|].
  destruct X as [|x X]; simpl; [now rewrite firstn_nil|].
  now rewrite IH.
Qed.

Lemma skipn_add_split {A} (a c : nat) : forall X : list A,
  skipn (a + c) X = skipn c (skipn a X).
Proof.
  induction a as [|a IH]; intros X; [reflexivity|].
  destruct X as [|x X]; simpl; [now rewrite skipn_nil|apply IH].
Qed.

Lemma chunks_concat {A} (b : nat) (l : list A) : forall m k,
  List.concat (map (fun j => firstn b (skipn (j * b) l)) (seq k m))
  = firstn (m * b) (skipn (k * b) l).
Proof.
  induction m as [|m IH]; intros k; [reflexivity|].
  cbn [seq map List.concat]. rewrite IH.
  replace (S k * b)%nat with (k * b + b)%nat by lia.
  rewrite skipn_add_split.
  replace (S m * b)%nat with (b + m * b)%nat by lia.
  now rewrite firstn_add_split.
Qed.

Section Batches.
Context {W : Type} `{World W}.

Lemma sync_batches_run self l (starts : list Z) : forall s : state W,
  NodeSync.sync_batches self (PList l) starts s
  = run_batches self
      (map (fun i => firstn (Z.to_nat (NodeSync.batch_size self))
                            (skipn (Z.to_nat i) l)) starts) s.
Proof.
  induction starts as [|i rest IH]; intros s; [reflexivity|].
  cbn [NodeSync.sync_batches map run_batches]. unfold py_slice.
  replace (i + NodeSync.batch_size self - i)
    with (NodeSync.batch_size self) by lia.
  rewrite (bind_run _ _ _ _ _ (eq_refl : lift (Ret _) s = (Ret _, s))).
  unfold bind.
  destruct (NodeSync._sync_batch self _ s) as [[[]|e] s1]; [apply IH|reflexivity].
Qed.

End Batches.

(** X14.  With a positive batch size the cycle syncs the listed nodes in
    consecutive batches that together are exactly the list, in its
    order: the loop is the sequence of [_sync_batch] on these batches,
    none of them is empty and none is longer than the batch size. *)
Theorem batches_partition {W} `{World W}
        (self : NodeSync.t) (l : list pyval) :
  0 < NodeSync.batch_size self ->
  exists starts batches,
    py_range (Z.of_nat (List.length l)) (NodeSync.batch_size self) = Ret starts /\
    (forall s : state W,
        NodeSync.sync_batches self (PList l) starts s
        = run_batches self batches s) /\
    List.concat batches = l /\
    Forall (fun batch =>
              1 <= Z.of_nat (List.length batch) <= NodeSync.batch_size self)
           batches.
Proof.
  intros Hbs. set (bs := NodeSync.batch_size self) in *.
  set (b := Z.to_nat bs). set (n := Z.of_nat (List.length l)).
  set (m := Z.to_nat ((n + bs - 1) / bs)).
  assert (Hb : Z.of_nat b = bs) by (subst b; lia).
  assert (Hn : 0 <= n) by (subst n; lia).
  assert (Hq : 0 <= (n + bs - 1) / bs) by (apply Z.div_pos; lia).
  assert (Hm : Z.of_nat m = (n + bs - 1) / bs) by (subst m; lia).
  assert (Hup : n <= Z.of_nat m * bs).
  { pose proof (Z.mul_succ_div_gt (n + bs - 1) bs Hbs). lia. }
  assert (Hlo : Z.of_nat m * bs <= n + bs - 1).
  { pose proof (Z.mul_div_le (n + bs - 1) bs Hbs). lia. }
  exists (map (fun k => Z.of_nat k * bs) (seq 0 m)).
  exists (map (fun j => firstn b (skipn (j * b) l)) (seq 0 m)).
  assert (Hmap :
    map (fun i => firstn b (skipn (Z.to_nat i) l))
        (map (fun k => Z.of_nat k * bs) (seq 0 m))
    = map (fun j => firstn b (skipn (j * b) l)) (seq 0 m)).
  { rewrite map_map. apply map_ext. intros k.
    replace (Z.to_nat (Z.of_nat k * bs)) with (k * b)%nat by (subst b; nia).
    reflexivity. }
  split; [|split; [|split]].
  - unfold py_range.
    replace (bs =? 0) with false by (symmetry; apply Z.eqb_neq; lia).
    replace (bs <? 0) with false by (symmetry; apply Z.ltb_ge; lia).
    reflexivity.
  - intros s. rewrite sync_batches_run. fold bs. fold b. now rewrite Hmap.
  - rewrite chunks_concat. simpl. apply firstn_all2. subst n. nia.
  - apply Forall_forall. intros batch I.
    apply in_map_iff in I as (k & <- & I). apply in_seq in I.
    rewrite length_firstn, length_skipn.
    assert (Z.of_nat k * bs < n) by nia.
    assert (Z.of_nat (k * b) < n) by nia.
    subst n. lia.
Qed.

Lemma batches_partition_witness :
  exists starts batches,
    py_range 5 2 = Ret starts /\
    (forall s : state script,
        NodeSync.sync_batches sync_by_two (PList (map PDict five_nodes)) starts s
        = run_batches sync_by_two batches s) /\
    List.concat batches = map PDict five_nodes /\
    Forall (fun batch => 1 <= Z.of_nat (List.length batch) <= 2) batches.
Proof.
  exact (@batches_partition script script_world sync_by_two
           (map PDict five_nodes) eq_refl).
Defined.

Section SyncNode.
Context {W : Type} `{World W}.

Lemma update_node_spec self id doc (s : state W) :
  (forall e,
      NodeSync.update_data (utcnow (world s)) doc = Raise e ->
      NodeSync._update_node self id doc s = (Raise e, s)) /\
  (forall payload o w,
      NodeSync.update_data (utcnow (world s)) doc = Ret payload ->
      send (update_request self id payload) (world s) = (o, w) ->
      exists s',
        NodeSync._update_node self id doc s = (Ret (accepted o), s') /\
        world s' = w /\
        requests (trace s')
        = update_request self id payload :: requests (trace s) /\
        (accepted o = true ->
         trace s' = Sent (update_request self id payload) :: trace s) /\
        (forall r, o = Ret r -> status r = 401 ->
                   In (Log ERROR "Authentication failed - check API token" [])
                      (trace s'))).
Proof.
  split.
  - intros e E. unfold NodeSync._update_node.
    rewrite (bind_run _ _ _ _ _ (eq_refl : clock s = (Ret _, s))).
    now rewrite (bind_raise _ _ _ _ _
                   (f_equal (fun o => (o, s)) E : lift _ s = (Raise e, s))).
  - intros payload o w E S. unfold NodeSync._update_node.
    rewrite (bind_run _ _ _ _ _ (eq_refl : clock s = (Ret _, s))).
    rewrite (bind_run _ _ _ _ _
               (f_equal (fun o => (o, s)) E : lift _ s = (Ret payload, s))).
    fold (update_request self id payload).
    unfold try_except, bind, http, lift, log, emit, ret. rewrite S.
    destruct o as [r|e]; simpl.
    + destruct ((status r =? 200) || (status r =? 204)) eqn:A; simpl.
      * eexists. split; [reflexivity|]. simpl.
        repeat split; auto.
        intros r0 R0 S0. inversion R0; subst r0. rewrite S0 in A. discriminate.
      * destruct (status r =? 401) eqn:U; simpl.
        -- eexists. split; [reflexivity|]. simpl.
           repeat split; auto; discriminate.
        -- eexists. split; [reflexivity|]. simpl.
           repeat split; auto; try discriminate.
           intros r0 R0 S0. inversion R0; subst r0. rewrite S0 in U.
           discriminate.
    + eexists. split; [reflexivity|]. simpl.
      repeat split; auto; discriminate.
Qed.

Lemma sync_fetch_spec d (s : state W) o w :
  send (probe_request d) (world s) = (o, w) ->
  exists s',
    NodeSync._fetch_node_data (PDict d) s = (Ret (probe_result o), s') /\
    world s' = w /\
    requests (trace s') = probe_request d :: requests (trace s).
Proof.
  intros E. unfold NodeSync._fetch_node_data.
  unfold try_except, bind, http, lift, log, ret, emit. simpl.
  match goal with
  | |- context [send ?q (world s)] => change q with (probe_request d)
  end.
  rewrite E. destruct o as [r|e]; simpl.
  - destruct (status r =? 200).
    + destruct (json r); simpl; eexists; split; try reflexivity; simpl; auto.
    + eexists; split; [reflexivity|]. simpl; auto.
  - eexists; split; [reflexivity|]. simpl; auto.
Qed.

End SyncNode.

Section SyncNode2.
Context {W : Type} `{World W}.

(** X16.  Syncing a registered node (a JSON object) never raises, sends
    the probe first and at most one more request.  It returns [False]
    after the probe alone when the probe brings nothing (a failed
    connection, another status than 200, a body that does not parse, an
    empty document) and when the node has no [id].  It returns [True]
    only when the PATCH for the node's [id], with the payload built from
    the probed document, was sent and answered with 200 or 204. *)
Theorem sync_node_contract self d (s : state W) o w :
  send (probe_request d) (world s) = (o, w) ->
  exists b s',
    NodeSync._sync_node self (PDict d) s = (Ret b, s') /\
    (truthy (probe_result o) = false ->
     b = false /\ world s' = w /\
     requests (trace s') = probe_request d :: requests (trace s)) /\
    (lookup "id" d = None ->
     b = false /\ world s' = w /\
     requests (trace s') = probe_request d :: requests (trace s)) /\
    (b = true ->
     exists id payload o',
       lookup "id" d = Some id /\
       NodeSync.update_data (utcnow w) (probe_result o) = Ret payload /\
       send (update_request self id payload) w = (o', world s') /\
       accepted o' = true /\
       requests (trace s')
       = update_request self id payload :: probe_request d
           :: requests (trace s)) /\
    (List.length (requests (trace s'))
     <= 2 + List.length (requests (trace s)))%nat.
Proof.
  intros E. destruct (sync_fetch_spec d s o w E) as (s1 & F & W1 & R1).
  unfold NodeSync._sync_node, try_except. rewrite (bind_run _ _ _ _ _ F).
  assert (G : forall k, exists v, py_get (PDict d) k (PStr "unknown") = Ret v).
  { intros k. simpl. destruct (lookup k d); eauto. }
  destruct (G "nodeId") as (nid & Gn).
  destruct (truthy (probe_result o)) eqn:T; cbn [negb].
  - unfold py_getitem. destruct (lookup "id" d) as [id|] eqn:L.
    + rewrite (bind_run _ _ _ _ _ (eq_refl : lift (Ret id) s1 = (Ret id, s1))).
      destruct (NodeSync.update_data (utcnow (world s1)) (probe_result o))
        as [payload|e] eqn:U.
      * destruct (send (update_request self id payload) (world s1))
          as [o' w'] eqn:S'.
        destruct (proj2 (update_node_spec self id (probe_result o) s1)
                        payload o' w' U S') as (s2 & X & W2 & R2 & _ & _).
        rewrite (bind_run _ _ _ _ _ X).
        destruct (accepted o') eqn:Acc.
        -- unfold bind, lift, log, emit, ret. rewrite Gn. simpl.
           destruct (py_slice8 nid) as [short|e]; simpl.
           ++ exists true. eexists. split; [reflexivity|]. simpl.
              split; [discriminate|]. split; [discriminate|]. split.
              ** intros _. exists id, payload, o'. subst w.
                 rewrite R2, R1, W2. repeat split; auto.
              ** rewrite R2, R1. simpl. lia.
           ++ exists false. eexists. split; [reflexivity|]. simpl.
              split; [discriminate|]. split; [discriminate|].
              split; [discriminate|]. rewrite R2, R1. simpl. lia.
        -- unfold bind, lift, log, emit, ret. simpl.
           exists false. eexists. split; [reflexivity|].
           split; [discriminate|]. split; [discriminate|].
           split; [discriminate|]. rewrite R2, R1. simpl. lia.
      * rewrite (bind_raise _ _ _ _ _
                   (proj1 (update_node_spec self id (probe_result o) s1) e U)).
        unfold bind, lift, log, emit, ret. rewrite Gn. simpl.
        exists false. eexists. split; [reflexivity|]. simpl.
        split; [discriminate|]. split; [discriminate|].
        split; [discriminate|]. rewrite R1. simpl. lia.
    + unfold bind, lift, log, emit, ret. rewrite Gn. simpl.
      exists false. eexists. split; [reflexivity|]. simpl.
      split; [discriminate|]. split; [auto|].
      split; [discriminate|]. rewrite R1. simpl. lia.
  - unfold bind, lift, log, emit, ret. rewrite Gn. simpl.
    exists false. eexists. split; [reflexivity|]. simpl.
    split; [auto|]. split; [auto|].
    split; [discriminate|]. rewrite R1. simpl. lia.
Qed.

End SyncNode2.

(** X15.  Updating a node builds the payload first: when that raises
    (the document is not a JSON object, or the classification raises),
    the exception leaves [_update_node] and nothing is sent.  Otherwise
    one PATCH goes to [<dashboard>/storj/nodes/<id>] with the payload,
    and the result is [True] exactly when it is answered with 200 or
    204, in which case nothing is logged; a failed connection gives
    [False], and a 401 adds the line about the API token. *)
Theorem update_node_contract {W} `{World W}
        (self : NodeSync.t) (id doc : pyval) (s : state W) :
  (forall e,
      NodeSync.update_data (utcnow (world s)) doc = Raise e ->
      NodeSync._update_node self id doc s = (Raise e, s)) /\
  (forall payload o w,
      NodeSync.update_data (utcnow (world s)) doc = Ret payload ->
      send (update_request self id payload) (world s) = (o, w) ->
      exists s',
        NodeSync._update_node self id doc s = (Ret (accepted o), s') /\
        world s' = w /\
        requests (trace s')
        = update_request self id payload :: requests (trace s) /\
        (accepted o = true ->
         trace s' = Sent (update_request self id payload) :: trace s) /\
        (forall r, o = Ret r -> status r = 401 ->
                   In (Log ERROR "Authentication failed - check API token" [])
                      (trace s'))).
Proof. exact (update_node_spec self id doc s). Qed.

Lemma update_node_contract_witness :
  NodeSync._update_node sync0 (PStr "a1") (PList []) (start [answer 204 PNone])
  = (Raise AttributeError, start [answer 204 PNone]).
Proof.
  apply (proj1 (@update_node_contract script script_world sync0 (PStr "a1")
                  (PList []) (start [answer 204 PNone]))).
  reflexivity.
Defined.

Lemma sync_node_contract_witness :
  exists s',
    NodeSync._sync_node sync0 (PDict (registered "a1" 14001))
      (start [Raise TimeoutError; answer 204 PNone])
    = (Ret false, s') /\
    requests (trace s') = [probe_request (registered "a1" 14001)].
Proof.
  destruct (@sync_node_contract script script_world sync0
              (registered "a1" 14001)
              (start [Raise TimeoutError; answer 204 PNone])
              (Raise TimeoutError)
              {| answers := [answer 204 PNone]; runtime_answer := Ret [] |}
              eq_refl)
    as (b & s' & E & F & _).
  destruct (F eq_refl) as (-> & _ & R).
  exists s'. split; [exact E|exact R].
Defined.

(* ================================================================== *)
(** ** Further properties of the duplicate removal *)

Section Dedup2.

Lemma setitem_values k n d x :
  In x (map snd (Client.setitem k n d)) -> x = n \/ In x (map snd d).
Proof.
  induction d as [|[k' n'] d IH]; simpl.
  - intros [->|[]]. now left.
  - destruct (Client.key_eqb k' k); simpl; intuition (subst; auto).
Qed.

Lemma setitem_length k n d :
  (1 <= List.length (Client.setitem k n d))%nat /\
  (List.length d <= List.length (Client.setitem k n d) <= S (List.length d))%nat.
Proof.
  induction d as [|[k' n'] d IH]; simpl; [lia|].
  destruct (Client.key_eqb k' k); simpl; lia.
Qed.

Lemma fill_bounds l : forall d d',
  Client.fill l d = Ret d' ->
  (forall x, In x (map snd d') -> In x (map snd d) \/ In x l) /\
  (List.length d' <= List.length d + List.length l)%nat /\
  (List.length d <= List.length d')%nat /\
  (l <> [] -> d' <> []).
Proof.
  induction l as [|n l IH]; intros d d' E; simpl in *.
  - inversion E; subst. repeat split; auto; try lia; try congruence.
  - destruct (Client.hashable (node_id n)); [|discriminate].
    destruct (IH _ _ E) as (I & L1 & L2 & _).
    pose proof (setitem_length (node_id n) n d) as L.
    split; [|split; [lia|split; [lia|]]].
    + intros x Hx. destruct (I x Hx) as [Hs|Hl]; [|auto].
      destruct (setitem_values _ _ _ _ Hs); subst; auto.
    + intros _ ->. simpl in *. lia.
Qed.

Lemma fill_unhashable l : forall d,
  forallb (fun n => Client.hashable (node_id n)) l = false ->
  Client.fill l d = Raise TypeError.
Proof.
  induction l as [|n l IH]; intros d F; simpl in *; [discriminate|].
  destruct (Client.hashable (node_id n)); simpl in *; [now apply IH|reflexivity].
Qed.

Lemma setitem_see n d :
  keyed d -> node_id n = PStr (string_id n) ->
  keyed (Client.setitem (PStr (string_id n)) n d) /\
  map string_id (map snd (Client.setitem (PStr (string_id n)) n d))
  = see (map string_id (map snd d)) (string_id n).
Proof.
  intros K N. set (s := string_id n) in *.
  induction d as [|[k' n'] d IH]; simpl.
  - split; [constructor; [reflexivity|constructor]|reflexivity].
  - inversion K as [|x y Hk K']. simpl in Hk. rewrite Hk.
    destruct (IH K') as (K1 & E1). simpl.
    unfold see in *. simpl existsb.
    rewrite (String.eqb_sym s (string_id n')).
    destruct (String.eqb (string_id n') s) eqn:Q; simpl.
    + apply String.eqb_eq in Q. split.
      * constructor; [simpl; fold s; congruence|exact K'].
      * fold s. now rewrite Q.
    + split.
      * constructor; [reflexivity|exact K1].
      * rewrite E1. destruct (existsb _ _); reflexivity.
Qed.

Lemma fill_first_seen l : forall d,
  keyed d ->
  Forall (fun n => node_id n = PStr (string_id n)) l ->
  exists d',
    Client.fill l d = Ret d' /\
    map string_id (map snd d')
    = fold_left see (map string_id l) (map string_id (map snd d)).
Proof.
  induction l as [|n l IH]; intros d K F; simpl.
  - eauto.
  - inversion F as [|? ? Hn F']; subst. rewrite Hn. simpl.
    destruct (setitem_see n d K Hn) as (K1 & E1).
    destruct (IH _ K1 F') as (d' & E & S).
    exists d'. split; [exact E|]. now rewrite S, E1.
Qed.

Lemma setitem_fresh s n d :
  keyed d -> ~ In s (map string_id (map snd d)) ->
  Client.setitem (PStr s) n d = (d ++ [(PStr s, n)])%list.
Proof.
  intros K. induction d as [|[k' n'] d IH]; simpl; intros NI; [reflexivity|].
  inversion K as [|? ? Hk K']; subst. simpl in Hk. subst k'. simpl.
  destruct (String.eqb (string_id n') s) eqn:Q.
  - apply String.eqb_eq in Q. tauto.
  - rewrite IH; auto.
Qed.

Lemma fill_distinct l : forall d,
  keyed d ->
  Forall (fun n => node_id n = PStr (string_id n)) l ->
  NoDup (map string_id (map snd d) ++ map string_id l) ->
  Client.fill l d = Ret (d ++ map (fun n => (node_id n, n)) l)%list.
Proof.
  induction l as [|n l IH]; intros d K F N; simpl.
  - now rewrite app_nil_r.
  - inversion F as [|? ? Hn F']; subst. rewrite Hn at 1. simpl.
    rewrite Hn at 1.
    rewrite setitem_fresh; auto.
    + rewrite IH; auto.
      * rewrite <- app_assoc. simpl. now rewrite <- Hn.
      * apply Forall_app. split; [exact K|].
        constructor; [reflexivity|constructor].
      * rewrite !map_app. simpl. rewrite <- app_assoc. exact N.
    + simpl in N. apply NoDup_remove_2 in N.
      intros I. apply N. apply in_or_app. auto.
Qed.

End Dedup2.

(** X17.  The duplicate removal raises [TypeError] exactly when the id
    of some record is a list or a dict (an unhashable key), and raises
    nothing else.  Otherwise it returns records of its input only, no
    more of them than it was given, and at least one when it was given
    one. *)
Theorem dedup_errors_and_bounds (l : list node) :
  if forallb (fun n => Client.hashable (node_id n)) l
  then exists out,
         Client.remove_duplicates l = Ret out /\
         (forall n, In n out -> In n l) /\
         (List.length out <= List.length l)%nat /\
         (l <> [] -> out <> [])
  else Client.remove_duplicates l = Raise TypeError.
Proof.
  destruct (forallb _ l) eqn:F.
  - assert (T : hashable_ids l).
    { apply Forall_forall. now apply forallb_forall. }
    destruct (fill_total l [] T) as (d' & E).
    destruct (fill_bounds l [] d' E) as (I & L & _ & N).
    exists (map snd d'). unfold Client.remove_duplicates. rewrite E.
    split; [reflexivity|]. split; [|split].
    + intros n Hn. destruct (I n Hn) as [[]|]; assumption.
    + rewrite length_map. simpl in L. lia.
    + intros Hl Hm. apply N in Hl. destruct d'; [congruence|discriminate].
  - unfold Client.remove_duplicates. now rewrite (fill_unhashable l [] F).
Qed.

(** X18.  On records whose ids are strings the duplicate removal keeps
    the order in which the ids are first seen (while the record kept for
    an id is the last one with it): the ids of the result are the ids of
    the input in first-seen order, and a list whose ids are pairwise
    distinct comes back unchanged. *)
Theorem dedup_keeps_first_seen_order (l : list node) :
  Forall (fun n => node_id n = PStr (string_id n)) l ->
  exists out,
    Client.remove_duplicates l = Ret out /\
    map string_id out = first_seen (map string_id l) /\
    (NoDup (map string_id l) -> out = l).
Proof.
  intros F.
  destruct (fill_first_seen l [] (Forall_nil _) F) as (d' & E & S).
  exists (map snd d'). unfold Client.remove_duplicates. rewrite E.
  split; [reflexivity|]. split; [exact S|].
  intros N. rewrite (fill_distinct l [] (Forall_nil _) F N) in E.
  inversion E; subst. simpl. rewrite map_map. simpl. apply map_id.
Qed.

Lemma dedup_keeps_first_seen_order_witness :
  exists out,
    Client.remove_duplicates [record_a_docker; record_b_scan; record_a_scan] = Ret out /\
    map string_id out
    = first_seen (map string_id [record_a_docker; record_b_scan; record_a_scan]) /\
    (NoDup (map string_id [record_a_docker; record_b_scan; record_a_scan]) ->
     out = [record_a_docker; record_b_scan; record_a_scan]).
Proof.
  apply (dedup_keeps_first_seen_order
           [record_a_docker; record_b_scan; record_a_scan]).
  repeat constructor.
Defined.

(* ================================================================== *)
(** ** Properties of the configuration *)

(** The end of a run of [_load_from_file] on the mapping [d], once the
    sections that it reads are known. *)
Ltac file_leaf d :=
  eexists; split; [reflexivity|]; split;
  [intros N; now destruct (N d)|];
  intros d1 E; inversion E; subst d1;
  repeat match goal with
         | L : lookup _ d = _ |- _ => rewrite L; clear L
         end;
  simpl; auto.

Lemma load_from_file_spec (loaded : outcome pyval) (self : Config.t) :
  exists self',
    Config._load_from_file loaded self = (Ret tt, self') /\
    ((forall d, loaded <> Ret (PDict d)) -> self' = self) /\
    (forall d,
        loaded = Ret (PDict d) ->
        Config.api self' = section_of d "api" api_of (Config.api self) /\
        Config.discovery self'
        = (if loadable d "api"
           then section_of d "discovery" discovery_of (Config.discovery self)
           else Config.discovery self) /\
        Config.sync self'
        = (if loadable d "api" && loadable d "discovery"
           then section_of d "sync" sync_of (Config.sync self)
           else Config.sync self) /\
        Config.logging self'
        = (if loadable d "api" && loadable d "discovery" && loadable d "sync"
           then section_of d "logging" logging_of (Config.logging self)
           else Config.logging self)).
Proof.
  destruct self as [a0 d0 s0 l0].
  destruct loaded as [[| | | | | |d]|e].
  all: try (eexists; split; [reflexivity|]; split;
            [reflexivity|intros d1 E; discriminate E]).
  - (* a string: [key in data] is a substring test *)
    unfold Config._load_from_file, Config.load_section, Config.cseq,
      Config.cbind, Config.clift. simpl.
    destruct (contains "api" s); simpl.
    + eexists; split; [reflexivity|]; split;
        [reflexivity|intros d1 E; discriminate E].
    + destruct (contains "discovery" s); simpl.
      * eexists; split; [reflexivity|]; split;
          [reflexivity|intros d1 E; discriminate E].
      * destruct (contains "sync" s); simpl.
        -- eexists; split; [reflexivity|]; split;
             [reflexivity|intros d1 E; discriminate E].
        -- destruct (contains "logging" s); simpl;
             (eexists; split; [reflexivity|]; split;
              [reflexivity|intros d1 E; discriminate E]).
  - (* a list *)
    unfold Config._load_from_file, Config.load_section, Config.cseq,
      Config.cbind, Config.clift. simpl.
    repeat match goal with
           | |- context [existsb ?f l] => destruct (existsb f l); simpl
           end.
    all: eexists; split; [reflexivity|]; split;
      [reflexivity|intros d1 E; discriminate E].
  - (* a mapping *)
    unfold Config._load_from_file, Config.load_section, Config.cseq,
      Config.cbind, Config.clift, Config.load_field.
    unfold section_of, loadable. simpl.
    destruct (lookup "api" d) as [[| | | | | |xa]|] eqn:La; simpl.
    all: try solve [file_leaf d].
    all: destruct (lookup "discovery" d) as [[| | | | | |xd]|] eqn:Ld; simpl.
    all: try solve [file_leaf d].
    all: destruct (lookup "sync" d) as [[| | | | | |xs]|] eqn:Ls; simpl.
    all: try solve [file_leaf d].
    all: destruct (lookup "logging" d) as [[| | | | | |xl]|] eqn:Ll; simpl.
    all: solve [file_leaf d].
Qed.

(** X19.  Loading a configuration file never raises.  A file that does
    not hold a mapping (it cannot be read or parsed, it is empty, it
    holds a list or a scalar) changes nothing.  Of a mapping the
    sections are taken in the order [api], [discovery], [sync],
    [logging], whatever their order in the file: a section that is a
    mapping gives its values to the fields it names, whatever their
    type, and leaves the other fields as they were; a missing section
    changes nothing; the first section that is present without being a
    mapping ends the loading, so that the sections after it are not
    read. *)
Theorem load_from_file_contract (loaded : outcome pyval) (self : Config.t) :
  exists self',
    Config._load_from_file loaded self = (Ret tt, self') /\
    ((forall d, loaded <> Ret (PDict d)) -> self' = self) /\
    (forall d,
        loaded = Ret (PDict d) ->
        Config.api self' = section_of d "api" api_of (Config.api self) /\
        Config.discovery self'
        = (if loadable d "api"
           then section_of d "discovery" discovery_of (Config.discovery self)
           else Config.discovery self) /\
        Config.sync self'
        = (if loadable d "api" && loadable d "discovery"
           then section_of d "sync" sync_of (Config.sync self)
           else Config.sync self) /\
        Config.logging self'
        = (if loadable d "api" && loadable d "discovery" && loadable d "sync"
           then section_of d "logging" logging_of (Config.logging self)
           else Config.logging self)).
Proof. exact (load_from_file_spec loaded self). Qed.

Lemma load_from_file_contract_witness :
  exists self',
    Config._load_from_file (Ret file_with_bad_discovery) Config.default
    = (Ret tt, self') /\
    ApiConfig.token (Config.api self') = PStr "sk_file_0123" /\
    SyncConfig.batch_size (Config.sync self') = PInt 10.
Proof.
  destruct (load_from_file_contract (Ret file_with_bad_discovery)
                                    Config.default)
    as (c & E & _ & F).
  exists c. split; [exact E|].
  destruct (F _ eq_refl) as (A & _ & S & _). rewrite A, S.
  split; reflexivity.
Defined.

Lemma int_of_string_raises s e : int_of_string s = Raise e -> e = ValueError.
Proof.
  unfold int_of_string.
  destruct (rstrip_ws (lstrip_ws s)) as [|a r]; simpl.
  - intros E. now inversion E.
  - destruct (match a with
              | "-"%char => (true, r)
              | "+"%char => (false, r)
              | _ => (false, String a r)
              end) as [neg digits].
    destruct (parse_digits 0 true digits); intros E; now inversion E.
Qed.

(** A numeric variable of the environment: it is taken when it is not
    empty and reads as an integer, and passed over otherwise. *)
Lemma load_int_lens getenv name set (get : Config.t -> pyval) self :
  set (get self) self = self ->
  Config.load_int getenv name set self
  = Ret (set (match getenv name with
              | Some v =>
                  if String.eqb v "" then get self
                  else match int_of_string v with
                       | Ret n => PInt n
                       | Raise _ => get self
                       end
              | None => get self
              end) self).
Proof.
  intros L. unfold Config.load_int.
  destruct (getenv name) as [v|]; [|now rewrite L].
  destruct (String.eqb v ""); simpl; [now rewrite L|].
  destruct (int_of_string v) as [n|e] eqn:E; [reflexivity|].
  now rewrite (int_of_string_raises _ _ E), L.
Qed.

Lemma load_from_env_spec (getenv : string -> option string) (self : Config.t) :
  exists self',
    Config._load_from_env getenv self = Ret self' /\
    ((forall name, getenv name = None) -> self' = self) /\
    (forall v,
        (getenv "STORJCLOUD_API_TOKEN" = Some v ->
         ApiConfig.token (Config.api self') = PStr v) /\
        (getenv "STORJCLOUD_DASHBOARD_URL" = Some v ->
         ApiConfig.endpoint (Config.api self') = PStr v) /\
        (getenv "DOCKER_HOST" = Some v ->
         DiscoveryConfig.docker_host (Config.discovery self') = PStr v) /\
        (getenv "STORJCLOUD_LOG_LEVEL" = Some v ->
         LoggingConfig.level (Config.logging self') = PStr v) /\
        (getenv "STORJCLOUD_LOG_FILE" = Some v ->
         LoggingConfig.file (Config.logging self') = PStr v)) /\
    ((getenv "STORJCLOUD_API_TOKEN" = None ->
      ApiConfig.token (Config.api self') = ApiConfig.token (Config.api self)) /\
     (getenv "STORJCLOUD_DASHBOARD_URL" = None ->
      ApiConfig.endpoint (Config.api self')
      = ApiConfig.endpoint (Config.api self)) /\
     (getenv "DOCKER_HOST" = None ->
      DiscoveryConfig.docker_host (Config.discovery self')
      = DiscoveryConfig.docker_host (Config.discovery self)) /\
     (getenv "STORJCLOUD_LOG_LEVEL" = None ->
      LoggingConfig.level (Config.logging self')
      = LoggingConfig.level (Config.logging self)) /\
     (getenv "STORJCLOUD_LOG_FILE" = None ->
      LoggingConfig.file (Config.logging self')
      = LoggingConfig.file (Config.logging self))) /\
    (forall v,
        getenv "STORJCLOUD_API_TIMEOUT" = Some v ->
        (forall n, v <> "" -> int_of_string v = Ret n ->
                   ApiConfig.timeout (Config.api self') = PInt n) /\
        (v = "" \/ int_of_string v = Raise ValueError ->
         ApiConfig.timeout (Config.api self')
         = ApiConfig.timeout (Config.api self))) /\
    (forall v,
        getenv "STORJCLOUD_SYNC_INTERVAL" = Some v ->
        (forall n, v <> "" -> int_of_string v = Ret n ->
                   SyncConfig.interval (Config.sync self') = PInt n) /\
        (v = "" \/ int_of_string v = Raise ValueError ->
         SyncConfig.interval (Config.sync self')
         = SyncConfig.interval (Config.sync self))) /\
    (forall v,
        getenv "STORJCLOUD_FROM_DOCKER" = Some v ->
        DiscoveryConfig.from_docker (Config.discovery self')
        = if String.eqb v ""
          then DiscoveryConfig.from_docker (Config.discovery self)
          else PBool (existsb (String.eqb (lower v)) ["true"; "1"; "yes"])) /\
    DiscoveryConfig.common_ports (Config.discovery self')
    = DiscoveryConfig.common_ports (Config.discovery self) /\
    DiscoveryConfig.port_range (Config.discovery self')
    = DiscoveryConfig.port_range (Config.discovery self) /\
    DiscoveryConfig.timeout (Config.discovery self')
    = DiscoveryConfig.timeout (Config.discovery self) /\
    DiscoveryConfig.retry_attempts (Config.discovery self')
    = DiscoveryConfig.retry_attempts (Config.discovery self) /\
    SyncConfig.batch_size (Config.sync self')
    = SyncConfig.batch_size (Config.sync self) /\
    SyncConfig.retry_failed (Config.sync self')
    = SyncConfig.retry_failed (Config.sync self).
Proof.
  destruct self as [[tk ep tm] [fd dh cp pr dt ra] [iv bs rf] [lv fl]].
  unfold Config._load_from_env.
  rewrite (load_int_lens getenv "STORJCLOUD_API_TIMEOUT"
             (Config.set_api Config.api_timeout)
             (fun c => ApiConfig.timeout (Config.api c)) _ eq_refl).
  cbn [obind].
  match goal with
  | |- context [Config.load_int getenv "STORJCLOUD_SYNC_INTERVAL" _ ?c] =>
      assert (F : c
                  = Config.set_discovery Config.from_docker
                      (match getenv "STORJCLOUD_FROM_DOCKER" with
                       | Some v =>
                           if String.eqb v "" then fd
                           else PBool (existsb (String.eqb (lower v))
                                               ["true"; "1"; "yes"])
                       | None => fd
                       end)
                      (Config.set_discovery Config.docker_host
                         (Config.getenv_or getenv "DOCKER_HOST" dh)
                         (Config.set_api Config.api_timeout
                            (match getenv "STORJCLOUD_API_TIMEOUT" with
                             | Some v =>
                                 if String.eqb v "" then tm
                                 else match int_of_string v with
                                      | Ret n => PInt n
                                      | Raise _ => tm
                                      end
                             | None => tm
                             end)
                            (Config.set_api Config.endpoint
                               (Config.getenv_or getenv
                                  "STORJCLOUD_DASHBOARD_URL" ep)
                               (Config.set_api Config.token
                                  (Config.getenv_or getenv
                                     "STORJCLOUD_API_TOKEN" tk)
                                  {| Config.api :=
                                       {| ApiConfig.token := tk;
                                          ApiConfig.endpoint := ep;
                                          ApiConfig.timeout := tm |};
                                     Config.discovery :=
                                       {| DiscoveryConfig.from_docker := fd;
                                          DiscoveryConfig.docker_host := dh;
                                          DiscoveryConfig.common_ports := cp;
                                          DiscoveryConfig.port_range := pr;
                                          DiscoveryConfig.timeout := dt;
                                          DiscoveryConfig.retry_attempts := ra |};
                                     Config.sync :=
                                       {| SyncConfig.interval := iv;
                                          SyncConfig.batch_size := bs;
                                          SyncConfig.retry_failed := rf |};
                                     Config.logging :=
                                       {| LoggingConfig.level := lv;
                                          LoggingConfig.file := fl |} |})))));
        [|rewrite F; clear F]
  end.
  { destruct (getenv "STORJCLOUD_FROM_DOCKER") as [y|]; [|reflexivity].
    destruct (String.eqb y ""); reflexivity. }
  rewrite (load_int_lens getenv "STORJCLOUD_SYNC_INTERVAL"
             (Config.set_sync Config.interval)
             (fun c => SyncConfig.interval (Config.sync c)) _ eq_refl).
  cbn [obind].
  eexists. split; [reflexivity|].
  unfold Config.getenv_or.
  split; [|split; [|split; [|split; [|split; [|split]]]]].
  - intros N. rewrite !N. reflexivity.
  - intros v.
    split; [|split; [|split; [|split]]]; intros E; simpl; now rewrite E.
  - split; [|split; [|split; [|split]]]; intros E; simpl; now rewrite E.
  - intros v E. simpl. rewrite E. split.
    + intros n Nv I. apply String.eqb_neq in Nv. now rewrite Nv, I.
    + intros [->|I]; [reflexivity|].
      rewrite I. destruct (String.eqb v ""); reflexivity.
  - intros v E. simpl. rewrite E. split.
    + intros n Nv I. apply String.eqb_neq in Nv. now rewrite Nv, I.
    + intros [->|I]; [reflexivity|].
      rewrite I. destruct (String.eqb v ""); reflexivity.
  - intros v E. simpl. now rewrite E.
  - repeat split.
Qed.

(** X20.  Reading the environment never raises, and changes nothing
    when no variable is set.  The five text settings (token, endpoint,
    container host, log level, log file) take the value of their
    variable whenever it is set, even to the empty string.  The two
    numeric settings (API timeout, sync interval) take their variable
    only when it is not empty and reads as an integer, and keep their
    value otherwise.  [STORJCLOUD_FROM_DOCKER], when not empty, turns
    the container discovery on for [true], [1] and [yes] in any case
    and off for every other text.  The port lists, the discovery
    timeout, the retry settings and the batch size have no variable. *)
Theorem load_from_env_contract (getenv : string -> option string) (self : Config.t) :
  exists self',
    Config._load_from_env getenv self = Ret self' /\
    ((forall name, getenv name = None) -> self' = self) /\
    (forall v,
        (getenv "STORJCLOUD_API_TOKEN" = Some v ->
         ApiConfig.token (Config.api self') = PStr v) /\
        (getenv "STORJCLOUD_DASHBOARD_URL" = Some v ->
         ApiConfig.endpoint (Config.api self') = PStr v) /\
        (getenv "DOCKER_HOST" = Some v ->
         DiscoveryConfig.docker_host (Config.discovery self') = PStr v) /\
        (getenv "STORJCLOUD_LOG_LEVEL" = Some v ->
         LoggingConfig.level (Config.logging self') = PStr v) /\
        (getenv "STORJCLOUD_LOG_FILE" = Some v ->
         LoggingConfig.file (Config.logging self') = PStr v)) /\
    ((getenv "STORJCLOUD_API_TOKEN" = None ->
      ApiConfig.token (Config.api self') = ApiConfig.token (Config.api self)) /\
     (getenv "STORJCLOUD_DASHBOARD_URL" = None ->
      ApiConfig.endpoint (Config.api self')
      = ApiConfig.endpoint (Config.api self)) /\
     (getenv "DOCKER_HOST" = None ->
      DiscoveryConfig.docker_host (Config.discovery self')
      = DiscoveryConfig.docker_host (Config.discovery self)) /\
     (getenv "STORJCLOUD_LOG_LEVEL" = None ->
      LoggingConfig.level (Config.logging self')
      = LoggingConfig.level (Config.logging self)) /\
     (getenv "STORJCLOUD_LOG_FILE" = None ->
      LoggingConfig.file (Config.logging self')
      = LoggingConfig.file (Config.logging self))) /\
    (forall v,
        getenv "STORJCLOUD_API_TIMEOUT" = Some v ->
        (forall n, v <> "" -> int_of_string v = Ret n ->
                   ApiConfig.timeout (Config.api self') = PInt n) /\
        (v = "" \/ int_of_string v = Raise ValueError ->
         ApiConfig.timeout (Config.api self')
         = ApiConfig.timeout (Config.api self))) /\
    (forall v,
        getenv "STORJCLOUD_SYNC_INTERVAL" = Some v ->
        (forall n, v <> "" -> int_of_string v = Ret n ->
                   SyncConfig.interval (Config.sync self') = PInt n) /\
        (v = "" \/ int_of_string v = Raise ValueError ->
         SyncConfig.interval (Config.sync self')
         = SyncConfig.interval (Config.sync self))) /\
    (forall v,
        getenv "STORJCLOUD_FROM_DOCKER" = Some v ->
        DiscoveryConfig.from_docker (Config.discovery self')
        = if String.eqb v ""
          then DiscoveryConfig.from_docker (Config.discovery self)
          else PBool (existsb (String.eqb (lower v)) ["true"; "1"; "yes"])) /\
    DiscoveryConfig.common_ports (Config.discovery self')
    = DiscoveryConfig.common_ports (Config.discovery self) /\
    DiscoveryConfig.port_range (Config.discovery self')
    = DiscoveryConfig.port_range (Config.discovery self) /\
    DiscoveryConfig.timeout (Config.discovery self')
    = DiscoveryConfig.timeout (Config.discovery self) /\
    DiscoveryConfig.retry_attempts (Config.discovery self')
    = DiscoveryConfig.retry_attempts (Config.discovery self) /\
    SyncConfig.batch_size (Config.sync self')
    = SyncConfig.batch_size (Config.sync self) /\
    SyncConfig.retry_failed (Config.sync self')
    = SyncConfig.retry_failed (Config.sync self).
Proof. exact (load_from_env_spec getenv self). Qed.

Lemma load_from_env_contract_witness :
  exists self',
    Config._load_from_env environ0 Config.default = Ret self' /\
    ApiConfig.token (Config.api self') = PStr "" /\
    ApiConfig.timeout (Config.api self') = PInt 30 /\
    DiscoveryConfig.from_docker (Config.discovery self') = PBool true.
Proof.
  destruct (load_from_env_contract environ0 Config.default)
    as (c & E & _ & S & _ & T & _ & D & _).
  exists c. split; [exact E|].
  destruct (S "") as (Tk & _).
  destruct (T "soon" eq_refl) as (_ & Tm).
  split; [exact (Tk eq_refl)|]. split; [apply Tm; right; reflexivity|].
  exact (D "Yes" eq_refl).
Defined.

Lemma load_stages fs getenv config_path :
  Config.load fs getenv config_path
  = (let! file := config_file fs config_path in
     Config._load_from_env getenv (from_file fs file)).
Proof.
  unfold Config.load, config_file, from_file.
  assert (D : Config.load_default fs Config.default
              = (let! file :=
                   match Config.home fs with
                   | Ret _ =>
                       first_existing fs
                         [Config.Home; Config.Etc; Config.Local]
                   | Raise e => Raise e
                   end in
                 Ret match file with
                     | Some path =>
                         snd (Config._load_from_file (Config.parsed fs path)
                                                     Config.default)
                     | None => Config.default
                     end)).
  { unfold Config.load_default. destruct (Config.home fs); [|reflexivity].
    simpl.
    destruct (Config.exists_ fs Config.Home) as [[]|]; try reflexivity.
    destruct (Config.exists_ fs Config.Etc) as [[]|]; try reflexivity.
    destruct (Config.exists_ fs Config.Local) as [[]|]; reflexivity. }
  assert (K : forall o : outcome (option Config.location),
             (let! config :=
                (let! file := o in
                 Ret match file with
                     | Some path =>
                         snd (Config._load_from_file (Config.parsed fs path)
                                                     Config.default)
                     | None => Config.default
                     end) in
              Config._load_from_env getenv config)
             = (let! file := o in
                Config._load_from_env getenv
                  match file with
                  | Some path =>
                      snd (Config._load_from_file (Config.parsed fs path)
                                                  Config.default)
                  | None => Config.default
                  end)).
  { intros [f|e]; reflexivity. }
  destruct config_path as [p|]; [|now rewrite D, K].
  destruct (String.eqb p ""); simpl; [now rewrite D, K|].
  destruct (Config.exists_ fs (Config.Given p)) as [[]|]; simpl;
    [reflexivity|now rewrite D, K|reflexivity].
Qed.

(** X21.  Loading the configuration raises exactly when the search for
    the file raises, that is when an existence test is made on a path
    that cannot be examined or when the home directory cannot be
    determined; such an exception is not caught.  Neither the content
    of the file nor the environment can make it raise, so that it
    returns a configuration whenever every existence test answers.  A
    given path that is empty or does not exist is passed over without a
    word, for the default locations.  Only one file is read: a file that
    does not hold a mapping counts for nothing but still ends the
    search, and the result depends on the file system only through the
    file that is read. *)
Theorem load_contract (fs : Config.files) (getenv : string -> option string) :
  (forall p e,
      p <> "" ->
      Config.exists_ fs (Config.Given p) = Raise e ->
      Config.load fs getenv (Some p) = Raise e) /\
  (forall e,
      Config.home fs = Raise e ->
      Config.load fs getenv None = Raise e) /\
  (forall config_path e,
      config_file fs config_path = Raise e ->
      Config.load fs getenv config_path = Raise e) /\
  (forall config_path file,
      config_file fs config_path = Ret file ->
      exists config, Config.load fs getenv config_path = Ret config) /\
  (Config.home fs = Ret tt ->
   (forall path, exists found, Config.exists_ fs path = Ret found) ->
   forall config_path,
   exists config, Config.load fs getenv config_path = Ret config) /\
  (forall p,
      p = "" \/ Config.exists_ fs (Config.Given p) = Ret false ->
      Config.load fs getenv (Some p) = Config.load fs getenv None) /\
  (forall config_path path,
      config_file fs config_path = Ret (Some path) ->
      (forall d, Config.parsed fs path <> Ret (PDict d)) ->
      Config.load fs getenv config_path
      = Config._load_from_env getenv Config.default) /\
  (forall config_path path fs',
      config_file fs config_path = Ret (Some path) ->
      config_file fs' config_path = Ret (Some path) ->
      Config.parsed fs' path = Config.parsed fs path ->
      Config.load fs' getenv config_path = Config.load fs getenv config_path).
Proof.
  assert (T : forall config_path file,
             config_file fs config_path = Ret file ->
             exists config, Config.load fs getenv config_path = Ret config).
  { intros config_path file C. rewrite load_stages, C. simpl.
    destruct (load_from_env_spec getenv (from_file fs file)) as (c & E & _).
    exists c. exact E. }
  split; [|split; [|split; [|split; [|split; [|split; [|split]]]]]].
  - intros p e Np E. rewrite load_stages. unfold config_file.
    apply String.eqb_neq in Np. now rewrite Np, E.
  - intros e E. rewrite load_stages. unfold config_file. now rewrite E.
  - intros config_path e C. rewrite load_stages. now rewrite C.
  - exact T.
  - intros Hh Ex config_path.
    assert (exists file, config_file fs config_path = Ret file)
      as (file & C); [|exact (T _ _ C)].
    assert (D : exists file,
               match Config.home fs with
               | Ret _ =>
                   first_existing fs [Config.Home; Config.Etc; Config.Local]
               | Raise e => Raise e
               end = Ret file).
    { rewrite Hh. simpl.
      destruct (Ex Config.Home) as ([] & ->); [eauto|].
      destruct (Ex Config.Etc) as ([] & ->); [eauto|].
      destruct (Ex Config.Local) as ([] & ->); eauto. }
    unfold config_file. destruct config_path as [p|]; [|exact D].
    destruct (String.eqb p ""); [exact D|].
    destruct (Ex (Config.Given p)) as ([] & ->); [eauto|exact D].
  - intros p [->|E]; rewrite !load_stages; unfold config_file; simpl;
      [reflexivity|].
    rewrite E. destruct (String.eqb p ""); reflexivity.
  - intros config_path path C N. rewrite load_stages, C. simpl.
    destruct (load_from_file_spec (Config.parsed fs path) Config.default)
      as (c & E & U & _).
    rewrite E. simpl. now rewrite (U N).
  - intros config_path path fs' C C' P. rewrite !load_stages, C, C'.
    simpl. now rewrite P.
Qed.

Lemma load_contract_witness :
  Config.load no_access (environ []) (Some "/root/config.yaml") = Raise OSError /\
  Config.load no_files (environ []) (Some "/tmp/missing.yaml")
  = Config.load no_files (environ []) None.
Proof.
  split.
  - apply (proj1 (load_contract no_access (environ []))
             "/root/config.yaml" OSError).
    + discriminate.
    + reflexivity.
  - apply (proj1 (proj2 (proj2 (proj2 (proj2 (proj2
             (load_contract no_files (environ [])))))))).
    right. reflexivity.
Defined.

(** X22.  When the configuration loads, the API token is resolved in
    the order command line, environment, file, default.  A token of the
    command line that is not empty wins.  Otherwise
    [STORJCLOUD_API_TOKEN] wins whenever it is set, even to the empty
    string, in which case a command that needs a token stops although
    the file has one.  Otherwise the token is that of the [api] section
    of the file that was read, and the empty default when there is
    none. *)
Theorem token_precedence (fs : Config.files) (getenv : string -> option string)
        (config_path token url : option string) (config : Config.t) :
  Config.load fs getenv config_path = Ret config ->
  let final := Main.override token url config in
  let resolved := ApiConfig.token (Config.api final) in
  (forall v, token = Some v -> v <> "" -> resolved = PStr v) /\
  (token = None \/ token = Some "" ->
   (forall v,
       getenv "STORJCLOUD_API_TOKEN" = Some v ->
       resolved = PStr v /\
       (v = "" ->
        forall command,
          command <> Some "install-service" -> command <> Some "help" ->
          Main.token_missing command final = true)) /\
   (getenv "STORJCLOUD_API_TOKEN" = None ->
    (forall file,
        config_file fs config_path = Ret file ->
        resolved = ApiConfig.token (Config.api (from_file fs file))) /\
    (config_file fs config_path = Ret None -> resolved = PStr "") /\
    (forall path d a v,
        config_file fs config_path = Ret (Some path) ->
        Config.parsed fs path = Ret (PDict d) ->
        lookup "api" d = Some (PDict a) ->
        lookup "token" a = Some v ->
        resolved = v))).
Proof.
  rewrite load_stages.
  destruct (config_file fs config_path) as [file|e] eqn:C; [|discriminate].
  simpl. intros L.
  destruct (load_from_env_spec getenv (from_file fs file))
    as (c & E & Id & Str & Unset_ & _).
  rewrite E in L. inversion L; subst c. clear L. cbv zeta.
  assert (O : forall tk : option string,
             tk = None \/ tk = Some "" ->
             ApiConfig.token (Config.api (Main.override tk url config))
             = ApiConfig.token (Config.api config)).
  { intros tk [->| ->]; unfold Main.override; simpl;
      (destruct url as [u|]; [destruct (String.eqb u "")|]); reflexivity. }
  split.
  - intros v -> Nv. unfold Main.override. apply String.eqb_neq in Nv.
    rewrite Nv. simpl.
    destruct url as [u|]; [destruct (String.eqb u "")|]; reflexivity.
  - intros T. rewrite (O token T). split.
    + intros v G. destruct (Str v) as (Tk & _). split; [exact (Tk G)|].
      intros -> command N1 N2. unfold Main.token_missing.
      rewrite (O token T), (Tk G). simpl.
      destruct command as [cmd|]; [|reflexivity]. simpl.
      destruct (String.eqb cmd "install-service") eqn:Q1;
        [apply String.eqb_eq in Q1; congruence|].
      destruct (String.eqb cmd "help") eqn:Q2;
        [apply String.eqb_eq in Q2; congruence|reflexivity].
    + intros G.
      destruct Unset_ as (R & _). specialize (R G).
      rewrite R. split; [|split].
      * intros file0 F0. inversion F0; subst file0. reflexivity.
      * intros F0. inversion F0; subst file. reflexivity.
      * intros path d a v F0 P La Lv. inversion F0; subst file.
        unfold from_file.
        destruct (load_from_file_spec (Config.parsed fs path) Config.default)
          as (c' & E' & _ & F).
        rewrite E'. simpl. destruct (F d P) as (A & _). rewrite A.
        unfold section_of. rewrite La. simpl. unfold field. now rewrite Lv.
Qed.

Lemma token_precedence_witness :
  exists config,
    Config.load home_and_etc (environ []) None = Ret config /\
    ApiConfig.token (Config.api (Main.override None None config))
    = PStr "sk_file_0123".
Proof.
  destruct (load_from_env_spec (environ [])
              (from_file home_and_etc (Some Config.Home)))
    as (config & E & _).
  assert (L : Config.load home_and_etc (environ []) None = Ret config)
    by (rewrite load_stages; exact E).
  exists config. split; [exact L|].
  destruct (token_precedence home_and_etc (environ []) None None None
                             config L)
    as (_ & F).
  destruct (F (or_introl eq_refl)) as (_ & G).
  destruct (G eq_refl) as (_ & _ & K).
  exact (K Config.Home _ _ _ eq_refl eq_refl eq_refl eq_refl).
Defined.

(* ================================================================== *)
(** ** Further properties of the port resolution and of the probes *)

Lemma range_port_outside pre rest :
  Forall (fun item => outside_range item = true) pre ->
  DockerDiscovery.range_port (pre ++ rest) = DockerDiscovery.range_port rest.
Proof.
  induction 1 as [|[port_spec mapping] pre Hv _ IH]; [reflexivity|].
  simpl. unfold outside_range, published_tcp in Hv.
  destruct (truthy mapping && endswith "/tcp" port_spec); [|exact IH].
  unfold obind in *.
  destruct (first_item (split "/" port_spec)) as [head|]; [|discriminate].
  destruct (int_of_string head) as [p|]; [|discriminate].
  apply negb_true_iff in Hv. rewrite Hv. exact IH.
Qed.

(** X24.  When neither the 14002/tcp mapping nor [CONSOLE_ADDRESS]
    gives the status port, the port table is searched in its order for
    the first published tcp port whose container port lies in
    14000..15000, bounds included, and the host port of its first
    binding is the answer; entries that are not published, not tcp, or
    outside the range are passed over.  When every entry is passed over
    there is no status port. *)
Theorem dashboard_port_from_range :
  (forall attrs pre port_spec mapping post vars p,
      let ports := (pre ++ (port_spec, mapping) :: post)%list in
      DockerDiscovery.get_ports attrs = Ret (PDict ports) ->
      no_mapping ports "14002/tcp" ->
      DockerDiscovery.get_env attrs = Ret (PList vars) ->
      Forall (fun v => passed_over "CONSOLE_ADDRESS=" v = true) vars ->
      Forall (fun item => outside_range item = true) pre ->
      published_tcp (port_spec, mapping) = Ret (Some p) ->
      14000 <= p <= 15000 ->
      DockerDiscovery._get_dashboard_port attrs
      = (let! m0 := py_first mapping in
         let! host_port := py_getitem m0 "HostPort" in
         let! n := py_int host_port in
         Ret (Some n))) /\
  (forall attrs ports vars,
      DockerDiscovery.get_ports attrs = Ret (PDict ports) ->
      no_mapping ports "14002/tcp" ->
      DockerDiscovery.get_env attrs = Ret (PList vars) ->
      Forall (fun v => passed_over "CONSOLE_ADDRESS=" v = true) vars ->
      Forall (fun item => outside_range item = true) ports ->
      DockerDiscovery._get_dashboard_port attrs = Ret None).
Proof.
  split.
  - intros attrs pre port_spec mapping post vars p ports P N E F O T R.
    unfold DockerDiscovery._get_dashboard_port. rewrite P. simpl.
    rewrite (mapped_false _ _ N). simpl. rewrite E. simpl.
    rewrite env_port_none by assumption. simpl.
    subst ports. rewrite range_port_outside by assumption.
    simpl. unfold published_tcp in T.
    destruct (truthy mapping && endswith "/tcp" port_spec); [|discriminate].
    unfold obind in *.
    destruct (first_item (split "/" port_spec)) as [head|]; [|discriminate].
    destruct (int_of_string head) as [q|]; [|discriminate].
    inversion T; subst q.
    replace ((14000 <=? p) && (p <=? 15000)) with true; [reflexivity|].
    symmetry. apply andb_true_iff. split; apply Z.leb_le; lia.
  - intros attrs ports vars P N E F O.
    unfold DockerDiscovery._get_dashboard_port. rewrite P. simpl.
    rewrite (mapped_false _ _ N). simpl. rewrite E. simpl.
    rewrite env_port_none by assumption. simpl.
    rewrite <- (app_nil_r ports). now rewrite range_port_outside.
Qed.

Lemma dashboard_port_from_range_witness :
  DockerDiscovery._get_dashboard_port attrs_range_only = Ret (Some 14010).
Proof.
  apply (proj1 dashboard_port_from_range attrs_range_only
           [("14002/tcp", PNone)] "14005/tcp"
           (PList [PDict [("HostIp", PStr "0.0.0.0");
                          ("HostPort", PStr "14010")]])
           [] [PStr "PATH=/usr/local/bin"] 14005).
  - reflexivity.
  - reflexivity.
  - reflexivity.
  - repeat constructor.
  - repeat constructor.
  - reflexivity.
  - lia.
Defined.

(** X23.  The probe of the sync goes to the [address] and the
    [dashboardPort] of the registered node, with a timeout of 10
    seconds; it sends one GET and, on a node that is a JSON object,
    never raises: the result is the parsed body of a 200 and [None] in
    every other case.  A node without a port, or with a null or zero
    port, is probed on port 14002, and a node without an address on
    127.0.0.1.  A node that is not a JSON object raises
    [AttributeError] before anything is sent. *)
Theorem sync_probe_contract {W} `{World W} (s : state W) :
  (forall d o w,
      send (probe_request d) (world s) = (o, w) ->
      exists s',
        NodeSync._fetch_node_data (PDict d) s = (Ret (probe_result o), s') /\
        world s' = w /\
        requests (trace s') = probe_request d :: requests (trace s)) /\
  (forall d,
      match lookup "dashboardPort" d with
      | Some p => truthy p = false
      | None => True
      end ->
      probe_request d = probe_request (("dashboardPort", PInt 14002) :: d)) /\
  (forall d,
      lookup "address" d = None ->
      probe_request d = probe_request (("address", PStr "127.0.0.1") :: d)) /\
  (forall v,
      (forall d, v <> PDict d) ->
      NodeSync._fetch_node_data v s = (Raise AttributeError, s)).
Proof.
  split; [|split; [|split]].
  - intros d o w E. exact (sync_fetch_spec d s o w E).
  - intros d P. unfold probe_request. simpl.
    destruct (lookup "dashboardPort" d) as [p|]; [|reflexivity].
    unfold py_or. now rewrite P.
  - intros d A. unfold probe_request. simpl. now rewrite A.
  - intros v N. destruct v; try reflexivity. now destruct (N d).
Qed.

Lemma sync_probe_contract_witness :
  probe_request [("id", PStr "a1"); ("dashboardPort", PInt 0)]
  = probe_request [("dashboardPort", PInt 14002);
                   ("id", PStr "a1"); ("dashboardPort", PInt 0)].
Proof.
  apply (proj1 (proj2 (@sync_probe_contract script script_world (start [])))
           [("id", PStr "a1"); ("dashboardPort", PInt 0)]).
  reflexivity.
Defined.

(* ================================================================== *)
(** ** Properties of the service status *)

Lemma find_process_others name pre rest :
  Forall (fun q => other_process name q = true) pre ->
  PM2Manager.find_process (pre ++ rest) name
  = PM2Manager.find_process rest name.
Proof.
  induction 1 as [|q pre Hq _ IH]; [reflexivity|].
  destruct q as [| | | | | |p]; try discriminate.
  simpl in *. unfold field in Hq. apply negb_true_iff in Hq.
  rewrite Hq. exact IH.
Qed.

(** X25.  The status of a service is read off the first entry of the
    process list that has its name: with the return code 0 and a list
    whose entries before it are JSON objects with other names, the
    result has the name, the pid and the [pm2_env] and [monit] values of
    that entry, with [None] for what is missing, and nothing is logged.
    A service that is not listed gives [None] without a line in the
    log, and so does every return code other than 0.  An entry that is
    not a JSON object ends the search with [None] and an error line,
    even when the service is listed after it. *)
Theorem service_status_first_match (name : string) :
  (forall pre p post,
      Forall (fun q => other_process name q = true) pre ->
      lookup "name" p = Some (PStr name) ->
      plain_process p = true ->
      PM2Manager.get_service_status
        (listed_processes (pre ++ PDict p :: post)) name
      = (PDict [("name", PStr name);
                ("pid", field p "pid" PNone);
                ("status", nested p "pm2_env" "status");
                ("uptime", nested p "pm2_env" "pm_uptime");
                ("restarts", nested p "pm2_env" "restart_time");
                ("memory", nested p "monit" "memory");
                ("cpu", nested p "monit" "cpu")], [])) /\
  (forall processes,
      Forall (fun q => other_process name q = true) processes ->
      PM2Manager.get_service_status (listed_processes processes) name
      = (PNone, [])) /\
  (forall code out,
      code <> 0 ->
      PM2Manager.get_service_status
        (Ret {| PM2Manager.returncode := code; PM2Manager.stdout := out |})
        name
      = (PNone, [])) /\
  (forall pre x post,
      Forall (fun q => other_process name q = true) pre ->
      (forall p, x <> PDict p) ->
      PM2Manager.get_service_status
        (listed_processes (pre ++ x :: post)) name
      = (PNone,
         [Log ERROR "Failed to get service status: %s" [AExn AttributeError]])).
Proof.
  split; [|split; [|split]].
  - intros pre p post F N P.
    unfold PM2Manager.get_service_status, listed_processes. simpl.
    rewrite find_process_others by assumption. simpl.
    rewrite N. simpl. rewrite String.eqb_refl.
    unfold PM2Manager.summary, nested, field, plain_process in *. simpl.
    rewrite N.
    destruct (lookup "pm2_env" p) as [[| | | | | |e]|]; try discriminate;
      destruct (lookup "monit" p) as [[| | | | | |m]|]; try discriminate;
      reflexivity.
  - intros processes F.
    unfold PM2Manager.get_service_status, listed_processes. simpl.
    rewrite <- (app_nil_r processes).
    now rewrite find_process_others.
  - intros code out N.
    unfold PM2Manager.get_service_status. simpl.
    apply Z.eqb_neq in N. now rewrite N.
  - intros pre x post F N.
    unfold PM2Manager.get_service_status, listed_processes. simpl.
    rewrite find_process_others by assumption.
    destruct x; try reflexivity. now destruct (N d).
Qed.

Lemma service_status_first_match_witness :
  PM2Manager.get_service_status
    (listed_processes
       [PDict [("name", PStr "web"); ("pid", PInt 101)];
        PDict [("name", PStr "storjcloud-sync"); ("pid", PInt 4242);
               ("pm2_env", PDict [("status", PStr "online");
                                  ("restart_time", PInt 3)])]])
    "storjcloud-sync"
  = (PDict [("name", PStr "storjcloud-sync");
            ("pid", PInt 4242);
            ("status", PStr "online");
            ("uptime", PNone);
            ("restarts", PInt 3);
            ("memory", PNone);
            ("cpu", PNone)], []).
Proof.
  apply (proj1 (service_status_first_match "storjcloud-sync")
           [PDict [("name", PStr "web"); ("pid", PInt 101)]]
           [("name", PStr "storjcloud-sync"); ("pid", PInt 4242);
            ("pm2_env", PDict [("status", PStr "online");
                               ("restart_time", PInt 3)])]
           []).
  - repeat constructor.
  - reflexivity.
  - reflexivity.
Defined.

(* ================================================================== *)
(** ** The discover command, end to end *)

Section Discover.
Context {W : Type} `{World W}.

Lemma grows_register_single_node self n :
  grows (W:=W) (AuthManager._register_single_node self n).
Proof.
  unfold AuthManager._register_single_node, AuthManager._update_existing_node.
  grow.
Qed.

Lemma grows_register_loop self nodes : forall count,
  grows (W:=W) (AuthManager.register_loop self nodes count).
Proof.
  induction nodes as [|n rest IH]; intros count; simpl; [grow|].
  apply grows_bind; [apply grows_register_single_node|intros ok]. apply IH.
Qed.

Lemma posted_requests (tr : list event) : posted tr = post_bodies (requests tr).
Proof.
  induction tr as [|ev tr IH]; [reflexivity|].
  destruct ev as [lv fmt args|r|ns]; simpl; try exact IH.
  destruct r as [m u b bd t]. destruct m; simpl; try exact IH.
  destruct bd; simpl; [now rewrite IH|exact IH].
Qed.

Lemma post_bodies_probes self (ports : list Z) rs :
  post_bodies (rev (map (scan_request self) ports) ++ rs) = post_bodies rs.
Proof.
  induction ports as [|p ports IH] in rs |- *; [reflexivity|].
  simpl. rewrite <- app_assoc. rewrite IH. reflexivity.
Qed.

(** X26.  A discovery by port scan alone, seen end to end.  When the
    scan finds nothing the command only warns: its requests are the
    probes.  When the id of a record found is a list or a dict the
    command raises [TypeError] after the scan and registers nothing.
    With [--json], when every record found has a string id and a
    bandwidth object, the command prints the records after the
    duplicate removal and registers exactly these: its POST requests
    carry their payloads, one each, in their order. *)
Theorem discover_by_ports_registers_what_it_prints
        (a : Client.args) (auth : AuthManager.t) (ps : list Z) (s : state W) :
  Client.from_docker a = false ->
  Client.ports a = Some ps ->
  exists nodes s1,
    PortScanner.scan_ports (scanner_of a) ps (started s) = (Ret nodes, s1) /\
    let probes := rev (map (scan_request (scanner_of a)) ps) in
    (nodes = [] ->
     exists s',
       Client.handle_discover a auth s = (Ret tt, s') /\
       requests (trace s') = (probes ++ requests (trace s))%list /\
       In (Log WARNING "No nodes discovered" []) (trace s')) /\
    (forallb (fun n => Client.hashable (node_id n)) nodes = false ->
     exists s',
       Client.handle_discover a auth s = (Raise TypeError, s') /\
       requests (trace s') = (probes ++ requests (trace s))%list) /\
    (nodes <> [] ->
     Client.json_out a = true ->
     Forall (fun n => registrable n = true) nodes ->
     exists out s',
       Client.remove_duplicates nodes = Ret out /\
       Client.handle_discover a auth s = (Ret tt, s') /\
       In (Printed out) (trace s') /\
       posted (trace s') = (rev (payloads out) ++ posted (trace s))%list).
Proof.
  intros Fd Ps.
  destruct (gather_check_ports (scanner_of a) ps (started s))
    as (results & s1 & Ga & Rq & _).
  assert (Sc : PortScanner.scan_ports (scanner_of a) ps (started s)
               = (Ret (PortScanner.dict_results results), s1)).
  { unfold PortScanner.scan_ports. now rewrite (bind_run _ _ _ _ _ Ga). }
  set (nodes := PortScanner.dict_results results) in *.
  exists nodes, s1. split; [exact Sc|]. cbv zeta.
  change (requests (trace (started s))) with (requests (trace s)) in Rq.
  unfold Client.handle_discover.
  rewrite (bind_run _ _ _ _ _ (eq_refl : log _ _ _ s = (Ret tt, started s))).
  rewrite Fd, Ps.
  rewrite (bind_run _ _ _ _ _ (eq_refl : ret [] (started s) = (Ret [], _))).
  fold (scanner_of a).
  match goal with
  | |- context [bind (bind (PortScanner.scan_ports _ _) ?k) _] =>
      assert (P : bind (PortScanner.scan_ports (scanner_of a) ps) k (started s)
                  = (Ret nodes,
                     {| world := world s1;
                        trace := Log INFO "Found %d nodes from port scanning"
                                     [AVal (PInt (Z.of_nat (List.length nodes)))]
                                 :: trace s1 |}))
        by (now rewrite (bind_run _ _ _ _ _ Sc))
  end.
  rewrite (bind_run _ _ _ _ _ P). cbn [app].
  split; [|split].
  - intros ->. eexists. split; [reflexivity|]. simpl. auto.
  - intros U. destruct nodes as [|n0 rest]; [discriminate|].
    unfold Client.remove_duplicates.
    rewrite (fill_unhashable _ [] U). simpl.
    eexists. split; [reflexivity|]. exact Rq.
  - intros Ne Js R.
    assert (Hh : hashable_ids nodes).
    { eapply Forall_impl; [|exact R]. intros n Rn. unfold registrable in Rn.
      destruct (node_id n); try discriminate. reflexivity. }
    destruct (fill_total nodes [] Hh) as (d' & E).
    destruct (fill_bounds nodes [] d' E) as (I & _).
    assert (Ro : Forall (fun n => registrable n = true) (map snd d')).
    { apply Forall_forall. intros x Hx. destruct (I x Hx) as [[]|Hl].
      exact (proj1 (Forall_forall _ _) R x Hl). }
    exists (map snd d').
    destruct nodes as [|n0 rest]; [contradiction|].
    unfold Client.remove_duplicates at 2. rewrite E. cbn [obind].
    rewrite (bind_run _ _ _ _ _ (eq_refl : lift (Ret _) _ = (Ret _, _))).
    rewrite (bind_run _ _ _ _ _ (eq_refl : log _ _ _ _ = (Ret tt, _))).
    rewrite Js.
    rewrite (bind_run _ _ _ _ _ (eq_refl : emit _ _ = (Ret tt, _))).
    match goal with
    | |- context [bind (AuthManager.register_nodes auth ?out) _ ?s0] =>
        assert (G : exists c s',
                   AuthManager.register_nodes auth out s0 = (Ret c, s') /\
                   posted (trace s')
                   = (rev (payloads out) ++ posted (trace s0))%list /\
                   In (Printed out) (trace s'))
    end.
    { unfold AuthManager.register_nodes.
      destruct (map snd d') as [|m0 out'] eqn:O.
      - eexists _, _. split; [reflexivity|]. simpl. auto.
      - rewrite <- O in *.
        match goal with
        | |- context [AuthManager.register_loop auth _ 0 ?s0] =>
            destruct (register_loop_spec auth (map snd d') s0 0 Ro)
              as (s' & L & _ & T);
            pose proof (grows_register_loop auth (map snd d') 0 s0 _ _ L) as Gr
        end.
        eexists _, s'. split; [exact L|]. split; [exact T|].
        eapply grown_in; [exact Gr|]. simpl. auto. }
    destruct G as (c & s' & G & T & Pr).
    rewrite (bind_run _ _ _ _ _ G).
    eexists. split; [unfold Client.remove_duplicates; now rewrite E|].
    split; [reflexivity|]. simpl. split; [auto|].
    rewrite T. simpl. f_equal.
    rewrite !posted_requests, Rq. apply post_bodies_probes.
Qed.

End Discover.

Lemma discover_by_ports_registers_what_it_prints_witness :
  exists out s',
    Client.handle_discover scan_two_ports auth0
      (start [answer 200 doc_online; Raise TimeoutError; answer 201 PNone])
    = (Ret tt, s') /\
    In (Printed out) (trace s') /\
    List.length out = 1%nat /\
    posted (trace s') = rev (payloads out).
Proof.
  destruct (@discover_by_ports_registers_what_it_prints script script_world
              scan_two_ports auth0 [14001; 14002]
              (start [answer 200 doc_online; Raise TimeoutError;
                      answer 201 PNone])
              eq_refl eq_refl)
    as (nodes & s1 & E & _ & _ & C).
  vm_compute in E. inversion E as [[Hn Hs]]. clear E. subst nodes.
  destruct C as (out & s' & D & R & P & Po).
  - discriminate.
  - reflexivity.
  - repeat constructor.
  - exists out, s'. split; [exact R|]. split; [exact P|].
    vm_compute in D. inversion D as [Ho]. clear D.
    split; [reflexivity|]. rewrite Po. subst out. apply app_nil_r.
Defined.
